(** * ceph_deploy/osd.py: OSD provisioning and inventory

    A shallow embedding of [src/ceph_deploy/osd.py].  Python values are an
    inductive type, dictionaries loaded from JSON are [gmap]s, the remote
    hosts are reached through an interface of calls answered by a world,
    and every function of the module that talks to a host is a computation
    in a small monad that threads the world, collects the calls and log
    records it emits, and may raise a Python exception. *)

From stdpp Require Import gmap strings list fin_maps pretty.
From Stdlib Require Import Ascii String ZArith Lia.

Set Warnings "-register-all".
Open Scope string_scope.
Open Scope list_scope.
Open Scope Z_scope.

(** ** Python exceptions *)

(** The exception classes the module raises, catches or lets through.
    [NeedDiskError] and [GenericError] are classes of [ceph_deploy.exc];
    [Foreign] stands for any other class a collaborator raises, with the
    answer to [isinstance(e, RuntimeError)]. *)
Inductive exc_class :=
| RuntimeError | NameError | TypeError | ValueError | IndexError
| KeyError | AttributeError | IOError | OverflowError
| NeedDiskError | GenericError
| Foreign (name : string) (runtime : bool).

(** An exception: its class and the argument it was built with. *)
Record pyexc := Exc { exc_cls : exc_class; exc_arg : string }.

Inductive result (A : Type) :=
| Ok (a : A)
| Err (e : pyexc).
Arguments Ok {A} a.
Arguments Err {A} e.

#[global] Instance exc_class_eq_dec : EqDecision exc_class.
Proof. solve_decision. Defined.
#[global] Instance pyexc_eq_dec : EqDecision pyexc.
Proof. solve_decision. Defined.

(** ** Strings *)

Module Str.

(** [\s] of an 8-bit pattern: space, tab, newline, carriage return,
    vertical tab, form feed. *)
Definition is_space (c : ascii) : bool :=
  let n := nat_of_ascii c in
  (n =? 32)%nat || ((9 <=? n)%nat && (n <=? 13)%nat).

(** The character class [[,\s]] of [get_osd_mount_point]. *)
Definition is_delim (c : ascii) : bool :=
  (nat_of_ascii c =? 44)%nat || is_space c.

(** [re.split(r'[,\s]+', s)]: the pieces between the maximal runs of
    delimiters.  A run at the start (or at the end) leaves an empty
    piece before (after) it; a string without delimiter is one piece.
    [in_run] tells that the previous character was a delimiter. *)
Fixpoint re_split_from (in_run : bool) (s : string) : list string :=
  match s with
  | "" => [""]
  | String c s' =>
      if is_delim c then
        if in_run then re_split_from true s'
        else "" :: re_split_from true s'
      else
        match re_split_from false s' with
        | piece :: pieces => String c piece :: pieces
        | [] => [String c ""]
        end
  end.

Definition re_split (s : string) : list string := re_split_from false s.

(** [s.split(sep)] for a one-character separator: no merging of
    adjacent separators. *)
Fixpoint split (sep : ascii) (s : string) : list string :=
  match s with
  | "" => [""]
  | String c s' =>
      if Ascii.eqb c sep then "" :: split sep s'
      else
        match split sep s' with
        | piece :: pieces => String c piece :: pieces
        | [] => [String c ""]
        end
  end.

(** [s.lstrip()] *)
Fixpoint lstrip (s : string) : string :=
  match s with
  | String c s' => if is_space c then lstrip s' else s
  | "" => ""
  end.

(** [s.strip()] *)
Definition strip (s : string) : string :=
  String.rev (lstrip (String.rev (lstrip s))).

Definition digit_value (c : ascii) : option Z :=
  let n := nat_of_ascii c in
  if (48 <=? n)%nat && (n <=? 57)%nat then Some (Z.of_nat n - 48) else None.

Fixpoint digits_value (acc : Z) (s : string) : option Z :=
  match s with
  | "" => Some acc
  | String c s' =>
      match digit_value c with
      | Some d => digits_value (10 * acc + d) s'
      | None => None
      end
  end.

(** [int(s)] for a string: surrounding whitespace, an optional sign and
    at least one decimal digit; [None] is [ValueError]. *)
Definition to_int (s : string) : option Z :=
  match strip s with
  | "" => None
  | String c s' =>
      if Ascii.eqb c "-" then
        match s' with "" => None | _ => Z.opp <$> digits_value 0 s' end
      else if Ascii.eqb c "+" then
        match s' with "" => None | _ => digits_value 0 s' end
      else digits_value 0 (String c s')
  end.

Definition upper (c : ascii) : ascii :=
  let n := nat_of_ascii c in
  if (97 <=? n)%nat && (n <=? 122)%nat then ascii_of_nat (n - 32) else c.

Definition lower (c : ascii) : ascii :=
  let n := nat_of_ascii c in
  if (65 <=? n)%nat && (n <=? 90)%nat then ascii_of_nat (n + 32) else c.

Fixpoint map_chars (f : ascii → ascii) (s : string) : string :=
  match s with
  | "" => ""
  | String c s' => String (f c) (map_chars f s')
  end.

(** [s.capitalize()] *)
Definition capitalize (s : string) : string :=
  match s with
  | "" => ""
  | String c s' => String (upper c) (map_chars lower s')
  end.

(** [c * n] *)
Fixpoint repeat (c : ascii) (n : nat) : string :=
  match n with
  | O => ""
  | S n' => String c (repeat c n')
  end.

(** ['%-<width>s' % s]: left-justified in a field of [width]. *)
Definition ljust (width : nat) (s : string) : string :=
  s +:+ repeat " " (width - String.length s)%nat.

(** [s[i:]] for [i] of 0 or 1, as [catch_osd_errors] slices ["s"]. *)
Definition slice_from (i : nat) (s : string) : string :=
  String.substring i (String.length s - i)%nat s.

(** [os.path.join(a, b)] of [posixpath]. *)
Definition path_join (a b : string) : string :=
  match b with
  | String "/" _ => b
  | _ =>
      match String.rev a with
      | "" => b
      | String "/" _ => a +:+ b
      | _ => a +:+ "/" +:+ b
      end
  end.

End Str.

(** [l[-1]] on a list that [split] returned (never empty). *)
Definition last_piece (l : list string) : string := List.last l "".

(** ** get_osd_mount_point *)

(** The inner loop [for part in line_parts]: [line_parts[1]] is read at
    every iteration, before the comparison. *)
Fixpoint scan_parts (line_parts parts : list string) (osd_name : string)
  : result (option string) :=
  match parts with
  | [] => Ok None
  | part :: parts' =>
      match line_parts !! 1%nat with
      | None => Err (Exc IndexError "list index out of range")
      | Some mount_point =>
          if decide (osd_name = part) then Ok (Some mount_point)
          else scan_parts line_parts parts' osd_name
      end
  end.

(** [get_osd_mount_point(output, osd_name)]; falling off the end of the
    outer loop returns [None]. *)
Fixpoint get_osd_mount_point (output : list string) (osd_name : string)
  : result (option string) :=
  match output with
  | [] => Ok None
  | line :: output' =>
      let line_parts := Str.re_split line in
      match scan_parts line_parts line_parts osd_name with
      | Ok None => get_osd_mount_point output' osd_name
      | r => r
      end
  end.

(** [osd_name] is one of the pieces of [line]. *)
Definition line_mentions (osd_name line : string) : bool :=
  bool_decide (osd_name ∈ Str.re_split line).


(** The docstring's listing of [get_osd_mount_point]. *)
Definition docstring_listing : list string :=
  ["/dev/sda :";
   " /dev/sda1 other, ext2, mounted on /boot";
   " /dev/sda2 other";
   " /dev/sda5 other, LVM2_member";
   "/dev/sdb :";
   " /dev/sdb1 ceph data, active, cluster ceph, osd.1, journal /dev/sdb2";
   " /dev/sdb2 ceph journal, for /dev/sdb1";
   "/dev/sr0 other, unknown";
   "/dev/sr1 other, unknown"].

(** ** Python values *)

(** A Python float goes through the module untouched: it is converted
    with [int], compared with an integer and printed with [%s].  These
    operations are the interface of the float type. *)
Class PyFloat (F : Type) := {
  float_str : F → string;
  float_int : F → result Z;
  float_eq_int : F → Z → bool;
  float_bool : F → bool;
}.

(** What [json.loads] returns. *)
Inductive pyval {F : Type} :=
| VNone
| VBool (b : bool)
| VInt (z : Z)
| VFloat (f : F)
| VStr (s : string)
| VList (l : list pyval)
| VDict (d : gmap string pyval).
Arguments pyval F : clear implicits.

(** The library functions the module calls on values, and the constants
    and classes it takes from the packages [ceph_deploy.util.constants]
    and [ceph_deploy.exc].
    - [json_loads s] is [json.loads(s.decode('utf-8'))], [None] when it
      raises [ValueError];
    - [container_str v] is [str(v)] for a list or a dict;
    - [osd_path] is [constants.osd_path];
    - [deploy_isa_RuntimeError c] tells whether the class [c] of
      [ceph_deploy.exc] derives from [RuntimeError], and [deploy_str c a]
      is [str(c(a))]. *)
Class PyLib (F : Type) := {
  json_loads : string → option (pyval F);
  container_str : pyval F → string;
  osd_path : string;
  deploy_isa_RuntimeError : exc_class → bool;
  deploy_str : exc_class → string → string;
}.

Section values.

Context {F : Type} {float_ops : PyFloat F} {lib : PyLib F}.

(** [int(v)] *)
Definition py_int (v : pyval F) : result Z :=
  match v with
  | VInt z => Ok z
  | VBool b => Ok (if b then 1 else 0)
  | VFloat f => float_int f
  | VStr s =>
      match Str.to_int s with
      | Some z => Ok z
      | None => Err (Exc ValueError "invalid literal for int() with base 10")
      end
  | VNone | VList _ | VDict _ =>
      Err (Exc TypeError "int() argument must be a string or a number")
  end.

(** Truth value of [v], as [if v:] tests it. *)
Definition py_bool (v : pyval F) : bool :=
  match v with
  | VNone => false
  | VBool b => b
  | VInt z => negb (z =? 0)
  | VFloat f => float_bool f
  | VStr s => negb (String.eqb s "")
  | VList l => match l with [] => false | _ => true end
  | VDict d => negb (bool_decide (d = ∅))
  end.

(** [v == s] for a string literal [s] *)
Definition py_eq_str (v : pyval F) (s : string) : bool :=
  match v with
  | VStr s' => String.eqb s' s
  | _ => false
  end.

(** [v == n] for an integer [n]: booleans and floats compare by value. *)
Definition py_eq_int (v : pyval F) (n : Z) : bool :=
  match v with
  | VInt z => z =? n
  | VBool b => (if b then 1 else 0) =? n
  | VFloat f => float_eq_int f n
  | _ => false
  end.

(** ['%s' % v] *)
Definition py_str (v : pyval F) : string :=
  match v with
  | VNone => "None"
  | VBool b => if b then "True" else "False"
  | VInt z => pretty z
  | VFloat f => float_str f
  | VStr s => s
  | VList _ | VDict _ => container_str v
  end.

(** [d.get(k)] *)
Definition dict_get (d : gmap string (pyval F)) (k : string) : pyval F :=
  default VNone (d !! k).

(** [d.get(k, dflt)] *)
Definition dict_get_default (d : gmap string (pyval F)) (k : string)
    (dflt : pyval F) : pyval F :=
  default dflt (d !! k).

(** The elements [for x in v] goes through. *)
Definition py_iter (v : pyval F) : result (list (pyval F)) :=
  match v with
  | VList l => Ok l
  | VStr s => Ok ((λ c, VStr (String c "")) <$> list_ascii_of_string s)
  | VDict d => Ok (VStr <$> (map_to_list d).*1)
  | VNone | VBool _ | VInt _ | VFloat _ =>
      Err (Exc TypeError "object is not iterable")
  end.

(** [isinstance(e, RuntimeError)] *)
Definition isa_RuntimeError (e : pyexc) : bool :=
  match exc_cls e with
  | RuntimeError => true
  | Foreign _ runtime => runtime
  | NeedDiskError | GenericError => deploy_isa_RuntimeError (exc_cls e)
  | _ => false
  end.

(** [str(e)] *)
Definition exc_str (e : pyexc) : string :=
  match exc_cls e with
  | NeedDiskError | GenericError => deploy_str (exc_cls e) (exc_arg e)
  | KeyError => "'" +:+ exc_arg e +:+ "'"
  | _ => exc_arg e
  end.

(** The loop shared by [osd_tree] and [osd_status_check]:
    [for k, v in loaded_json.items()] with the two assignments
    [loaded_json[k] = True] and [loaded_json[k] = False]. *)
Definition fix_boolean_item (loaded_json : gmap string (pyval F))
    (item : string * pyval F) : gmap string (pyval F) :=
  let '(k, v) := item in
  if py_eq_str v "true" then <[k := VBool true]> loaded_json
  else if py_eq_str v "false" then <[k := VBool false]> loaded_json
  else loaded_json.

Definition fix_booleans (loaded_json : gmap string (pyval F))
  : gmap string (pyval F) :=
  foldl fix_boolean_item loaded_json (map_to_list loaded_json).

(** What the specification asks of the normalization, value by value:
    the string [true] becomes [True], the string [false] becomes [False]
    and every other value stays. *)
Definition normalized_value (v : pyval F) : pyval F :=
  match v with
  | VStr s =>
      if String.eqb s "true" then VBool true
      else if String.eqb s "false" then VBool false
      else v
  | _ => v
  end.

End values.

(** ['%s' % s] for a string or [None] *)
Definition str_opt (s : option string) : string := default "None" s.

(** Truth value of a string or [None]: the non-empty strings. *)
Definition truthy (s : option string) : bool :=
  match s with
  | Some s' => negb (String.eqb s' "")
  | None => false
  end.

(** A boolean used as an index: [True] is 1 and [False] is 0. *)
Definition index_of_bool (b : bool) : nat := if b then 1%nat else 0%nat.

(** [d[k] = v] on a dictionary whose order of insertion is kept. *)
Fixpoint dict_set (k v : string) (d : list (string * string))
  : list (string * string) :=
  match d with
  | [] => [(k, v)]
  | (k', v') :: d' =>
      if String.eqb k' k then (k, v) :: d' else (k', v') :: dict_set k v d'
  end.

(** ** The command line, hosts and connections *)

(** The [args] namespace of [argparse], with the attributes the module
    reads.  The flags [--filestore] and [--bluestore] are [store_true]
    with default [None]. *)
Record args := {
  cluster : string;
  host : option string;
  username : option string;
  data : option string;
  journal : option string;
  zap_disk : bool;
  fs_type : string;
  dmcrypt : bool;
  dmcrypt_key_dir : string;
  filestore : option bool;
  bluestore : option bool;
  block_wal : option string;
  block_db : option string;
  overwrite_conf : bool;
  disk : list (option string * option string * option string);
}.

(** The configuration [conf.ceph.load(args)] returns; the module only
    hands it on. *)
Record config := Config { config_text : string }.

(** A connection to a host, opened by [hosts.get]. *)
Record conn := Conn { conn_hostname : string }.

#[global] Instance conn_eq_dec : EqDecision conn.
Proof. solve_decision. Defined.

(** The distro module [hosts.get] returns. *)
Record distro := {
  distro_name : string;
  distro_release : string;
  distro_codename : string;
  distro_init : string;
  distro_conn : conn;
}.

(** The two kinds of loggers: the module's [LOG] and a connection's
    [conn.logger]. *)
Inductive logger :=
| LOG
| conn_logger (c : conn).

Inductive level := DEBUG | INFO | WARNING | ERROR.

(** ** The collaborators *)

(** Every operation the module asks of code outside it, indexed by the
    type of what it returns.  [ProcessCheck] answers [None] when remoto
    returns [None] instead of a triple (a disconnect by timeout). *)
Inductive call : Type → Type :=
| OpenRead (path : string) : call string
| LoadRaw (a : args) : call string
| GetMonInitialMembers (a : args) (cfg : config) : call (list string)
| HostsGet (hostname username : option string) (ceph_is_installed : bool)
  : call distro
| ExecutablePath (c : conn) (executable : string) : call string
| ProcessRun (c : conn) (argv : list string) : call unit
| ProcessCheck (c : conn) (argv : list string)
  : call (option (list string * list string * Z))
| PathExists (c : conn) (path : string) : call bool
| WriteKeyring (c : conn) (path key : string) : call unit
| WriteConf (c : conn) (cluster conf_data : string) (overwrite : bool)
  : call unit
| ListDir (c : conn) (path : string) : call (list string)
| ReadLine (c : conn) (path : string) : call string
| GetRealpath (c : conn) (path : string) : call string
| ConnExit (c : conn) : call unit
| Sleep (seconds : Z) : call unit.

(** What a run leaves behind, in order: the calls it dispatched and the
    records it logged. *)
Inductive event :=
| Called {R : Type} (c : call R)
| Logged (lg : logger) (lvl : level) (msg : string).

(** A world answers every call, with a value or an exception, and moves
    to its next state. *)
Class Gateway (W : Type) := {
  respond : ∀ {R : Type}, call R → W → result R * W;
}.

(** ** The monad of the module's functions *)

Definition M (W A : Type) : Type := W → result A * W * list event.

#[global] Instance M_ret {W} : MRet (M W) := λ A a w, (Ok a, w, []).

#[global] Instance M_bind {W} : MBind (M W) := λ A B f m w,
  match m w with
  | (Ok a, w', evs) => let '(r, w'', evs') := f a w' in (r, w'', evs ++ evs')
  | (Err e, w', evs) => (Err e, w', evs)
  end.

Section monad.

Context {W : Type} {gateway : Gateway W}.

(** [raise e] *)
Definition raise {A} (e : pyexc) : M W A := λ w, (Err e, w, []).

(** A pure computation that may raise. *)
Definition lift {A} (r : result A) : M W A := λ w, (r, w, []).

(** Dispatch a call; it is recorded whether it returns or raises. *)
Definition perform {R} (c : call R) : M W R := λ w,
  let '(r, w') := respond c w in (r, w', [Called c]).

(** [lg.debug(msg)], [lg.info(msg)], ... *)
Definition log (lg : logger) (lvl : level) (msg : string) : M W unit :=
  λ w, (Ok (), w, [Logged lg lvl msg]).

(** [try: body except ...: handler]: [handler e] is [None] when no
    except clause matches [e]. *)
Definition try_except {A} (body : M W A) (handler : pyexc → option (M W A))
  : M W A := λ w,
  match body w with
  | (Ok a, w', evs) => (Ok a, w', evs)
  | (Err e, w', evs) =>
      match handler e with
      | Some h => let '(r, w'', evs') := h w' in (r, w'', evs ++ evs')
      | None => (Err e, w', evs)
      end
  end.

(** [for x in l: body x] *)
Fixpoint for_each {A} (l : list A) (body : A → M W unit) : M W unit :=
  match l with
  | [] => mret ()
  | x :: l' => body x;; for_each l' body
  end.

(** A [for] loop that updates one local variable. *)
Fixpoint for_fold {A B} (l : list A) (acc : B) (body : B → A → M W B)
  : M W B :=
  match l with
  | [] => mret acc
  | x :: l' => acc' ← body acc x; for_fold l' acc' body
  end.

End monad.

(** The events of a run, and the predicates the properties use. *)
Definition events {W A} (r : result A * W * list event) : list event := r.2.
Definition outcome {W A} (r : result A * W * list event) : result A := r.1.1.
Definition outcome_value {W A} (r : result A * W * list event) : option A :=
  match r.1.1 with
  | Ok a => Some a
  | Err _ => None
  end.
Definition final {W A} (r : result A * W * list event) : W := r.1.2.

Definition is_process_run (ev : event) : bool :=
  match ev with
  | Called (ProcessRun _ _) => true
  | _ => false
  end.

Definition is_hosts_get (ev : event) : bool :=
  match ev with
  | Called (HostsGet _ _ _) => true
  | _ => false
  end.

Definition not_hosts_get (ev : event) : bool := negb (is_hosts_get ev).

(** A call that goes to a remote host (or opens a session to one). *)
Definition is_remote (ev : event) : bool :=
  match ev with
  | Called c =>
      match c with
      | OpenRead _ | LoadRaw _ | GetMonInitialMembers _ _ | Sleep _ => false
      | _ => true
      end
  | Logged _ _ _ => false
  end.

Definition is_write (ev : event) : bool :=
  match ev with
  | Called (WriteKeyring _ _ _) => true
  | Called (WriteConf _ _ _ _) => true
  | _ => false
  end.

Definition is_warning (ev : event) : bool :=
  match ev with
  | Logged _ WARNING _ => true
  | _ => false
  end.

(** The messages logged at level [WARNING], in order. *)
Definition warnings (evs : list event) : list string :=
  omap (λ ev, match ev with Logged _ WARNING msg => Some msg | _ => None end) evs.

(** All the messages logged, in order. *)
Definition logged (evs : list event) : list string :=
  omap (λ ev, match ev with Logged _ _ msg => Some msg | _ => None end) evs.

(** The hosts [hosts.get] was asked for, in order. *)
Definition hosts_attempted (evs : list event) : list (option string) :=
  omap (λ ev, match ev with
              | Called (HostsGet hostname _ _) => Some hostname
              | _ => None
              end) evs.

(** A computation all of whose events satisfy [P], in every world. *)
Definition emits {W A} (P : event → bool) (m : M W A) : Prop :=
  ∀ w, forallb P (events (m w)) = true.

(** ** The functions of osd.py *)

Section osd.

Context {F : Type} {float_ops : PyFloat F} {lib : PyLib F}
    {W : Type} {gateway : Gateway W}.

#[local] Abbreviation M := (M W).

(** [get_bootstrap_osd_key(cluster)] *)
Definition get_bootstrap_osd_key (cluster : string) : M string :=
  let path := cluster +:+ ".bootstrap-osd.keyring" in
  try_except (perform (OpenRead path))
    (λ e, match exc_cls e with
          | IOError =>
              Some (raise (Exc RuntimeError
                      "bootstrap-osd keyring not found; run 'gatherkeys'"))
          | _ => None
          end).

(** [create_osd_keyring(conn, cluster, key)] *)
Definition create_osd_keyring (conn : conn) (cluster key : string) : M unit :=
  let logger := conn_logger conn in
  let path := "/var/lib/ceph/bootstrap-osd/" +:+ cluster +:+ ".keyring" in
  present ← perform (PathExists conn path);
  if negb present then
    log logger WARNING "osd keyring does not exist yet, creating one";;
    perform (WriteKeyring conn path key)
  else mret ().

(** [out, err, code = x]: unpacking [None] raises [TypeError]. *)
Definition unpack3 {A B C} (x : option (A * B * C)) : M (A * B * C) :=
  match x with
  | Some t => mret t
  | None => raise (Exc TypeError "cannot unpack non-iterable NoneType object")
  end.

(** The block [try: loaded_json = json.loads(...) ... return loaded_json
    except ValueError: return {}], the same in [osd_tree] and
    [osd_status_check].  A JSON text that is not an object has no
    [items]. *)
Definition load_json_status (out : list string)
  : M (gmap string (pyval F)) :=
  match json_loads (String.concat "" out) with
  | None => mret ∅
  | Some (VDict loaded_json) => mret (fix_booleans loaded_json)
  | Some _ => raise (Exc AttributeError "object has no attribute 'items'")
  end.

(** [osd_tree(conn, cluster)] *)
Definition osd_tree (conn : conn) (cluster : string)
  : M (gmap string (pyval F)) :=
  ceph_executable ← perform (ExecutablePath conn "ceph");
  let command :=
    [ceph_executable; "--cluster=" +:+ cluster; "osd"; "tree"; "--format=json"] in
  '(out, err, code) ← perform (ProcessCheck conn command) ≫= unpack3;
  load_json_status out.

(** [osd_status_check(conn, cluster)] *)
Definition osd_status_check (conn : conn) (cluster : string)
  : M (gmap string (pyval F)) :=
  ceph_executable ← perform (ExecutablePath conn "ceph");
  let command :=
    [ceph_executable; "--cluster=" +:+ cluster; "osd"; "stat"; "--format=json"] in
  checked ← try_except
    (t ← perform (ProcessCheck conn command) ≫= unpack3; mret (Some t))
    (λ e, match exc_cls e with
          | TypeError => Some (mret None)
          | _ => None
          end);
  match checked with
  | None => mret ∅
  | Some (out, err, code) => load_json_status out
  end.

(** ['there %s %d OSD%s <what>' % (['is', 'are'][difference != 1],
    difference, "s"[difference == 1:])] *)
Definition there_are (difference : Z) (what : string) : string :=
  "there "
  +:+ default "" (["is"; "are"] !! index_of_bool (bool_decide (difference ≠ 1)))
  +:+ " " +:+ pretty difference
  +:+ " OSD"
  +:+ Str.slice_from (index_of_bool (bool_decide (difference = 1))) "s"
  +:+ " " +:+ what.

(** [catch_osd_errors(conn, logger, args)] *)
Definition catch_osd_errors (conn : conn) (logger : logger) (a : args)
  : M unit :=
  log logger INFO "checking OSD status...";;
  status ← osd_status_check conn (cluster a);
  osds ← lift (py_int (dict_get_default status "num_osds" (VInt 0)));
  up_osds ← lift (py_int (dict_get_default status "num_up_osds" (VInt 0)));
  in_osds ← lift (py_int (dict_get_default status "num_in_osds" (VInt 0)));
  let full := dict_get_default status "full" (VBool false) in
  let nearfull := dict_get_default status "nearfull" (VBool false) in
  (if osds >? up_osds then
     let difference := osds - up_osds in
     log logger WARNING (there_are difference "down")
   else mret ());;
  (if osds >? in_osds then
     let difference := osds - in_osds in
     log logger WARNING (there_are difference "out")
   else mret ());;
  (if py_bool full then log logger WARNING "OSDs are full!" else mret ());;
  (if py_bool nearfull then log logger WARNING "OSDs are near full!"
   else mret ()).

(** [logger.warning(msg)] in [prepare_disk]: the function has no
    parameter and no local variable [logger], and the module has no
    global of that name (its logger is [LOG]), so the name lookup raises
    [NameError] before anything is logged. *)
Definition undefined_logger_warning (msg : string) : M unit :=
  raise (Exc NameError "name 'logger' is not defined").

(** [prepare_disk(conn, cluster, data, journal, zap, fs_type, dmcrypt,
    dmcrypt_dir, storetype, block_wal, block_db, create)] *)
Definition prepare_disk (conn : conn) (cluster data : string)
    (journal : option string) (zap : bool) (fs_type : string)
    (dmcrypt : bool) (dmcrypt_dir : string) (storetype : string)
    (block_wal block_db : option string) (create : bool) : M unit :=
  ceph_volume_executable ← perform (ExecutablePath conn "ceph-volume");
  let args :=
    [ceph_volume_executable; "--cluster"; cluster; "lvm";
     if create then "create" else "prepare";
     "--" +:+ storetype;
     "--data"; data] in
  (if zap then
     undefined_logger_warning "zapping is no longer supported when preparing"
   else mret ());;
  args ← (if dmcrypt then
            let args := args ++ ["--dmcrypt"] in
            undefined_logger_warning "dmcrypt is currently not supported";;
            mret args
          else mret args);
  args ← (if String.eqb storetype "bluestore" then
            let args := if truthy block_wal
                        then args ++ ["--block.wal"; str_opt block_wal]
                        else args in
            let args := if truthy block_db
                        then args ++ ["--block.db"; str_opt block_db]
                        else args in
            mret args
          else if String.eqb storetype "filestore" then
            if negb (truthy journal) then
              raise (Exc RuntimeError
                "A journal lv or GPT partition must be specified when using filestore")
            else mret (args ++ ["--journal"; str_opt journal])
          else mret args);
  perform (ProcessRun conn args).

(** The body of the [try] block of [prepare]. *)
Definition prepare_host (a : args) (key : string) (create : bool)
    (bootstrapped : gset (option string)) : M unit :=
  let hostname := host a in
  match data a with
  | None => raise (Exc NeedDiskError (str_opt hostname))
  | Some data_ =>
      distro ← perform (HostsGet hostname (username a) true);
      log LOG INFO ("Distro info: " +:+ distro_name distro +:+ " "
                    +:+ distro_release distro +:+ " "
                    +:+ distro_codename distro);;
      (if bool_decide (hostname ∉ bootstrapped) then
         let bootstrapped := {[hostname]} ∪ bootstrapped in
         log LOG DEBUG ("Deploying osd to " +:+ str_opt hostname);;
         conf_data ← perform (LoadRaw a);
         perform (WriteConf (distro_conn distro) (cluster a) conf_data
                    (overwrite_conf a));;
         create_osd_keyring (distro_conn distro) (cluster a) key
       else mret ());;
      log LOG DEBUG ("Preparing host " +:+ str_opt hostname +:+ " data "
                     +:+ data_);;
      let storetype := "bluestore" in
      let storetype :=
        if default false (filestore a) then "filestore" else storetype in
      prepare_disk (distro_conn distro) (cluster a) data_ (journal a)
        (zap_disk a) (fs_type a) (dmcrypt a) (dmcrypt_key_dir a)
        storetype (block_wal a) (block_db a) create;;
      perform (Sleep 5);;
      catch_osd_errors (distro_conn distro)
        (conn_logger (distro_conn distro)) a;;
      log LOG DEBUG ("Host " +:+ str_opt hostname
                     +:+ " is now ready for osd use.");;
      perform (ConnExit (distro_conn distro))
  end.

(** [prepare(args, cfg, create)]: one host, [args.host], per call. *)
Definition prepare (a : args) (cfg : config) (create : bool) : M unit :=
  log LOG DEBUG ("Preparing cluster " +:+ cluster a +:+ " on data device "
                 +:+ str_opt (data a));;
  key ← get_bootstrap_osd_key (cluster a);
  let bootstrapped : gset (option string) := ∅ in
  let errors := 0 in
  errors ← try_except
    (prepare_host a key create bootstrapped;; mret errors)
    (λ e, if isa_RuntimeError e then
            Some (log LOG ERROR (exc_str e);; mret (errors + 1))
          else None);
  if negb (errors =? 0) then
    raise (Exc GenericError ("Failed to create " +:+ pretty errors +:+ " OSDs"))
  else mret ().

(** The command line of [osd_tree] ([what] is [tree]) and of
    [osd_status_check] ([what] is [stat]). *)
Definition ceph_osd_command (ceph_executable cluster what : string)
  : list string :=
  [ceph_executable; "--cluster=" +:+ cluster; "osd"; what; "--format=json"].

(** [print_osd(logger, hostname, osd_path, json_blob, metadata, journal)] *)
Definition print_osd (logger : logger) (hostname : option string)
    (osd_path : string) (json_blob : gmap string (pyval F))
    (metadata : list (string * string)) (journal : option string) : M unit :=
  log logger INFO (Str.repeat "-" 40);;
  log logger INFO (last_piece (Str.split "/" osd_path));;
  log logger INFO (Str.repeat "-" 40);;
  log logger INFO (Str.ljust 14 "Path" +:+ " " +:+ osd_path);;
  log logger INFO (Str.ljust 14 "ID" +:+ " " +:+ py_str (dict_get json_blob "id"));;
  log logger INFO (Str.ljust 14 "Name" +:+ " " +:+ py_str (dict_get json_blob "name"));;
  log logger INFO (Str.ljust 14 "Status" +:+ " "
                   +:+ py_str (dict_get json_blob "status"));;
  log logger INFO (Str.ljust 14 "Reweight" +:+ " "
                   +:+ py_str (dict_get json_blob "reweight"));;
  (if truthy journal then log logger INFO ("Journal: " +:+ str_opt journal)
   else mret ());;
  for_each metadata
    (λ '(k, v), log logger INFO (Str.ljust 13 (Str.capitalize k) +:+ "  " +:+ v));;
  log logger INFO (Str.repeat "-" 40).

(** The loop [for blob in tree['nodes']] of [osd_list]: the last node
    whose [id] equals [_id] wins; a node that is not a dictionary has no
    [get]. *)
Fixpoint find_blob (nodes : list (pyval F)) (_id : Z)
    (json_blob : gmap string (pyval F)) : result (gmap string (pyval F)) :=
  match nodes with
  | [] => Ok json_blob
  | VDict blob :: nodes' =>
      find_blob nodes' _id
        (if py_eq_int (dict_get blob "id") _id then blob else json_blob)
  | _ :: _ => Err (Exc AttributeError "object has no attribute 'get'")
  end.

(** [tree['nodes']] *)
Definition tree_nodes (tree : gmap string (pyval F)) : result (pyval F) :=
  match tree !! "nodes" with
  | Some nodes => Ok nodes
  | None => Err (Exc KeyError "nodes")
  end.

(** What [osd_list] gathers for one OSD before it prints it: the
    arguments of [print_osd]. *)
Record osd_record := {
  record_path : string;
  record_blob : gmap string (pyval F);
  record_metadata : list (string * string);
}.

(** The body of the loop [for _osd in osds] of [osd_list], up to the call
    of [print_osd]. *)
Definition gather_osd (conn : conn) (tree : gmap string (pyval F))
    (interesting_files : list string) (output : list string) (_osd : string)
  : M osd_record :=
  let osd_path_ := Str.path_join osd_path _osd in
  let journal_path := Str.path_join osd_path_ "journal" in
  _id ← lift (py_int (VStr (last_piece (Str.split "-" _osd))));
  let osd_name := "osd." +:+ pretty _id in
  let metadata : list (string * string) := [] in
  let json_blob : gmap string (pyval F) := ∅ in
  device ← lift (get_osd_mount_point output osd_name);
  let metadata :=
    if truthy device then dict_set "device" (str_opt device) metadata
    else metadata in
  metadata ← for_fold interesting_files metadata
    (λ metadata f,
       let osd_f_path := Str.path_join osd_path_ f in
       present ← perform (PathExists conn osd_f_path);
       if present : bool then
         content ← perform (ReadLine conn osd_f_path);
         mret (dict_set f content metadata)
       else mret metadata);
  present ← perform (PathExists conn journal_path);
  metadata ← (if present : bool then
                real ← perform (GetRealpath conn journal_path);
                mret (dict_set "journal path" real metadata)
              else mret metadata);
  nodes ← lift (tree_nodes tree);
  nodes ← lift (py_iter nodes);
  json_blob ← lift (find_blob nodes _id json_blob);
  mret {| record_path := osd_path_; record_blob := json_blob;
          record_metadata := metadata |}.

(** [osd_list(args, cfg)] *)
Definition osd_list (a : args) (cfg : config) : M unit :=
  monitors ← perform (GetMonInitialMembers a cfg);
  mon_host ← match monitors with
             | mon_host :: _ => mret mon_host
             | [] => raise (Exc IndexError "list index out of range")
             end;
  distro ← perform (HostsGet (Some mon_host) (username a) true);
  tree ← osd_tree (distro_conn distro) (cluster a);
  perform (ConnExit (distro_conn distro));;
  let interesting_files := ["active"; "magic"; "whoami"; "journal_uuid"] in
  for_each (disk a)
    (λ '(hostname, disk, journal),
       distro ← perform (HostsGet hostname (username a) false);
       osds ← perform (ListDir (distro_conn distro) osd_path);
       ceph_disk_executable ← perform (ExecutablePath (distro_conn distro) "ceph-disk");
       '(output, err, exit_code) ←
         perform (ProcessCheck (distro_conn distro) [ceph_disk_executable; "list"])
         ≫= unpack3;
       for_each osds
         (λ _osd,
            r ← gather_osd (distro_conn distro) tree interesting_files output _osd;
            print_osd (conn_logger (distro_conn distro)) hostname
              (record_path r) (record_blob r) (record_metadata r) None);;
       perform (ConnExit (distro_conn distro))).

End osd.

(** ** Instances used for the examples *)

(** The floats with an integral value below 10^16 in absolute value, for
    which [str] prints the digits followed by [.0]. *)
Record whole_float := WholeFloat { whole_value : Z }.

#[global] Instance whole_float_ops : PyFloat whole_float := {
  float_str f := pretty (whole_value f) +:+ ".0";
  float_int f := Ok (whole_value f);
  float_eq_int f n := whole_value f =? n;
  float_bool f := negb (whole_value f =? 0);
}.

(** A library whose [json.loads] knows the texts of a table, with the
    constants of ceph-deploy: [constants.osd_path] is
    [/var/lib/ceph/osd], and the classes of [ceph_deploy.exc] derive from
    [Exception] only. *)
Definition table_lib (table : list (string * pyval whole_float))
  : PyLib whole_float := {|
  json_loads s := (list_to_map table : gmap string (pyval whole_float)) !! s;
  container_str v := "...";
  osd_path := "/var/lib/ceph/osd";
  deploy_isa_RuntimeError c := false;
  deploy_str c a := a;
|}.

(** A host of the scripted world: its files (path to first line), its
    directories, its symbolic links, the executables [which] finds, what
    the transport returns for a captured command ([None] is the timeout)
    and what a command run through [process.run] does. *)
Record sim_host := {
  host_files : gmap string string;
  host_dirs : gmap string (list string);
  host_links : gmap string string;
  host_executables : gmap string string;
  host_check : list string → option (list string * list string * Z);
  host_run : list string → result unit;
}.

(** The scripted world: the files of the control node, the monitors of
    its configuration and the hosts that can be reached. *)
Record sim := {
  local_files : gmap string string;
  mon_initial_members : list string;
  remote_hosts : gmap string sim_host;
}.

Definition not_connected {R} (c : conn) : result R :=
  Err (Exc (Foreign "ConnectionError" false) (conn_hostname c)).

(** The answer of a host to a query. *)
Definition ask {R} (w : sim) (c : conn) (f : sim_host → result R)
  : result R * sim :=
  match remote_hosts w !! conn_hostname c with
  | Some h => (f h, w)
  | None => (not_connected c, w)
  end.

(** A change to the files of a host. *)
Definition write_file (w : sim) (c : conn) (path content : string)
  : result unit * sim :=
  match remote_hosts w !! conn_hostname c with
  | Some h =>
      (Ok (),
       {| local_files := local_files w;
          mon_initial_members := mon_initial_members w;
          remote_hosts :=
            <[conn_hostname c :=
                {| host_files := <[path := content]> (host_files h);
                   host_dirs := host_dirs h;
                   host_links := host_links h;
                   host_executables := host_executables h;
                   host_check := host_check h;
                   host_run := host_run h |}]> (remote_hosts w) |})
  | None => (not_connected c, w)
  end.

Definition from_option {R} (cls : exc_class) (msg : string) (o : option R)
  : result R :=
  match o with
  | Some r => Ok r
  | None => Err (Exc cls msg)
  end.

(** Modelled from the spec: the collaborators are not part of the source.
    The host-side helpers answer from the files of the host (existence
    check, first line, real path, directory listing) and the writes of a
    keyring or of a configuration change them; a command is answered as
    scripted; [hosts.get] raises [RuntimeError] for a host that cannot be
    reached; reading a missing local file raises [IOError]. *)
Definition sim_respond {R} (c : call R) (w : sim) : result R * sim :=
  match c in call R return result R * sim with
  | OpenRead path =>
      (from_option IOError path (local_files w !! path), w)
  | LoadRaw a =>
      (from_option (Foreign "ConfigError" false) "Cannot load config"
         (local_files w !! (cluster a +:+ ".conf")), w)
  | GetMonInitialMembers a cfg =>
      (match mon_initial_members w with
       | [] => Err (Exc (Foreign "NeedHostError" false) "No mon_initial_members")
       | mons => Ok mons
       end, w)
  | HostsGet hostname username ceph_is_installed =>
      (match hostname with
       | Some name =>
           match remote_hosts w !! name with
           | Some _ =>
               Ok {| distro_name := "ubuntu"; distro_release := "16.04";
                     distro_codename := "xenial"; distro_init := "systemd";
                     distro_conn := Conn name |}
           | None => Err (Exc RuntimeError ("connecting to host: " +:+ name
                                            +:+ " resulted in errors"))
           end
       | None => Err (Exc RuntimeError "connecting to host: None resulted in errors")
       end, w)
  | ExecutablePath c executable =>
      ask w c (λ h, from_option (Foreign "ExecutableNotFound" false) executable
                      (host_executables h !! executable))
  | ProcessRun c argv => ask w c (λ h, host_run h argv)
  | ProcessCheck c argv => ask w c (λ h, Ok (host_check h argv))
  | PathExists c path =>
      ask w c (λ h, Ok (bool_decide (is_Some (host_files h !! path))
                        || bool_decide (is_Some (host_dirs h !! path))
                        || bool_decide (is_Some (host_links h !! path))))
  | WriteKeyring c path key => write_file w c path key
  | WriteConf c cluster conf_data overwrite =>
      write_file w c ("/etc/ceph/" +:+ cluster +:+ ".conf") conf_data
  | ListDir c path =>
      ask w c (λ h, from_option (Foreign "OSError" false) path (host_dirs h !! path))
  | ReadLine c path =>
      ask w c (λ h, from_option IOError path (host_files h !! path))
  | GetRealpath c path =>
      ask w c (λ h, Ok (default path (host_links h !! path)))
  | ConnExit c => (Ok (), w)
  | Sleep seconds => (Ok (), w)
  end.

#[global] Instance sim_gateway : Gateway sim := {| respond := @sim_respond |}.

(** ** The inventory example of the specification *)

Definition quoted (s : string) : string :=
  String (ascii_of_nat 34) s +:+ String (ascii_of_nat 34) "".

(** The text [{"nodes": [{"id": 1, "name": "osd.1", "status": "up",
    "reweight": 1.0}]}] and what [json.loads] makes of it. *)
Definition example_tree_text : string :=
  "{" +:+ quoted "nodes" +:+ ": [{" +:+ quoted "id" +:+ ": 1, "
  +:+ quoted "name" +:+ ": " +:+ quoted "osd.1" +:+ ", "
  +:+ quoted "status" +:+ ": " +:+ quoted "up" +:+ ", "
  +:+ quoted "reweight" +:+ ": 1.0}]}".

Definition example_node : gmap string (pyval whole_float) :=
  <["id" := VInt 1]> (<["name" := VStr "osd.1"]> (<["status" := VStr "up"]>
    (<["reweight" := VFloat (WholeFloat 1)]> ∅))).

Definition example_tree_dict : gmap string (pyval whole_float) :=
  <["nodes" := VList [VDict example_node]]> ∅.

Definition example_tree : pyval whole_float := VDict example_tree_dict.

(** The status of the docstring of [osd_status_check], and two statuses
    with 5 OSDs of which 3, respectively 4, are up. *)
Definition docstring_status_text : string :=
  "{" +:+ quoted "epoch" +:+ ": 8, " +:+ quoted "num_osds" +:+ ": 1, "
  +:+ quoted "num_up_osds" +:+ ": 1, " +:+ quoted "num_in_osds" +:+ ": "
  +:+ quoted "1" +:+ ", " +:+ quoted "full" +:+ ": " +:+ quoted "false"
  +:+ ", " +:+ quoted "nearfull" +:+ ": " +:+ quoted "false" +:+ "}".

Definition docstring_status : gmap string (pyval whole_float) :=
  <["epoch" := VInt 8]> (<["num_osds" := VInt 1]> (<["num_up_osds" := VInt 1]>
    (<["num_in_osds" := VStr "1"]> (<["full" := VStr "false"]>
      (<["nearfull" := VStr "false"]> ∅))))).

Definition status_text (osds up_osds : string) : string :=
  "{" +:+ quoted "num_osds" +:+ ": " +:+ osds +:+ ", "
  +:+ quoted "num_up_osds" +:+ ": " +:+ up_osds +:+ ", "
  +:+ quoted "num_in_osds" +:+ ": " +:+ osds +:+ "}".

Definition status_of (osds up_osds : Z) : gmap string (pyval whole_float) :=
  <["num_osds" := VInt osds]> (<["num_up_osds" := VInt up_osds]>
    (<["num_in_osds" := VInt osds]> ∅)).

#[global] Instance example_lib : PyLib whole_float :=
  table_lib [(example_tree_text, example_tree);
             (docstring_status_text, VDict docstring_status);
             (status_text "5" "3", VDict (status_of 5 3));
             (status_text "5" "4", VDict (status_of 5 4))].

Definition example_listing_line : string :=
  "/dev/sdb1 ceph data, active, cluster ceph, osd.1, journal /dev/sdb2".

Definition example_mon : sim_host := {|
  host_files := ∅;
  host_dirs := ∅;
  host_links := ∅;
  host_executables := <["ceph" := "/usr/bin/ceph"]> ∅;
  host_check argv :=
    if decide (argv = ["/usr/bin/ceph"; "--cluster=ceph"; "osd"; "tree";
                       "--format=json"])
    then Some ([example_tree_text], [], 0)
    else Some ([], [], 1);
  host_run argv := Ok ();
|}.

Definition example_node_host (listing : list string) : sim_host := {|
  host_files :=
    <["/var/lib/ceph/osd/ceph-1/whoami" := "1"]>
      (<["/var/lib/ceph/osd/ceph-1/active" := "ok"]> ∅);
  host_dirs := <["/var/lib/ceph/osd" := ["ceph-1"]]> ∅;
  host_links := ∅;
  host_executables := <["ceph-disk" := "/usr/sbin/ceph-disk"]> ∅;
  host_check argv :=
    if decide (argv = ["/usr/sbin/ceph-disk"; "list"])
    then Some (listing, [], 0)
    else Some ([], [], 1);
  host_run argv := Ok ();
|}.

Definition example_world (listing : list string) : sim := {|
  local_files := ∅;
  mon_initial_members := ["mon1"];
  remote_hosts :=
    <["mon1" := example_mon]> (<["node1" := example_node_host listing]> ∅);
|}.

Definition example_args : args := {|
  cluster := "ceph";
  host := Some "node1";
  username := None;
  data := None;
  journal := None;
  zap_disk := false;
  fs_type := "xfs";
  dmcrypt := false;
  dmcrypt_key_dir := "/etc/ceph/dmcrypt-keys";
  filestore := None;
  bluestore := None;
  block_wal := None;
  block_db := None;
  overwrite_conf := false;
  disk := [(Some "node1", None, None)];
|}.

(** A data host with the tools of ceph installed; [keyring] says whether
    the bootstrap keyring of the cluster [ceph] is in place, [stat] is
    what the transport returns for a captured command, and every command
    run through [process.run] succeeds. *)
Definition osd_host (keyring : bool)
    (stat : option (list string * list string * Z)) : sim_host := {|
  host_files :=
    if keyring then <["/var/lib/ceph/bootstrap-osd/ceph.keyring" := "KEY"]> ∅
    else ∅;
  host_dirs := ∅;
  host_links := ∅;
  host_executables :=
    <["ceph" := "/usr/bin/ceph"]> (<["ceph-volume" := "/usr/sbin/ceph-volume"]> ∅);
  host_check argv := stat;
  host_run argv := Ok ();
|}.

(** A control node that holds the configuration and the bootstrap key of
    the cluster [ceph], and the host [node1]. *)
Definition one_host_world (h : sim_host) : sim := {|
  local_files :=
    <["ceph.bootstrap-osd.keyring" := "KEY"]> (<["ceph.conf" := "[global]"]> ∅);
  mon_initial_members := ["mon1"];
  remote_hosts := <["node1" := h]> ∅;
|}.

(** The same without the file of the bootstrap key. *)
Definition no_key_world (h : sim_host) : sim := {|
  local_files := <["ceph.conf" := "[global]"]> ∅;
  mon_initial_members := ["mon1"];
  remote_hosts := <["node1" := h]> ∅;
|}.

(** A request to prepare [/dev/sdb] on [node1]. *)
Definition prepare_args (filestore_ : option bool) (journal_ : option string)
    (zap : bool) : args := {|
  cluster := "ceph";
  host := Some "node1";
  username := None;
  data := Some "/dev/sdb";
  journal := journal_;
  zap_disk := zap;
  fs_type := "xfs";
  dmcrypt := false;
  dmcrypt_key_dir := "/etc/ceph/dmcrypt-keys";
  filestore := filestore_;
  bluestore := None;
  block_wal := None;
  block_db := None;
  overwrite_conf := false;
  disk := [];
|}.

(** A batch of three hosts, the first of which cannot be reached: the
    targets are listed in [disk], and [host] names the first. *)
Definition batch_args : args := {|
  cluster := "ceph";
  host := Some "node0";
  username := None;
  data := Some "/dev/sdb";
  journal := None;
  zap_disk := false;
  fs_type := "xfs";
  dmcrypt := false;
  dmcrypt_key_dir := "/etc/ceph/dmcrypt-keys";
  filestore := None;
  bluestore := None;
  block_wal := None;
  block_db := None;
  overwrite_conf := false;
  disk := [(Some "node0", Some "/dev/sdb", None);
           (Some "node1", Some "/dev/sdb", None);
           (Some "node2", Some "/dev/sdb", None)];
|}.

Definition batch_world : sim := {|
  local_files :=
    <["ceph.bootstrap-osd.keyring" := "KEY"]> (<["ceph.conf" := "[global]"]> ∅);
  mon_initial_members := ["mon1"];
  remote_hosts :=
    <["node1" := osd_host false None]> (<["node2" := osd_host false None]> ∅);
|}.

(** [node1] with its keyring in place, where the status query times out,
    respectively returns [text]. *)
Definition timeout_world : sim := one_host_world (osd_host true None).

Definition status_world (text : string) : sim :=
  one_host_world (osd_host true (Some ([text], [], 0))).

(** The same line as the disk-listing tool prints it for a partition,
    after one space. *)
Definition indented_listing_line : string := " " +:+ example_listing_line.


(** A status with 5 OSDs of which 3 are up, whose count of the OSDs
    that are in is not a number, and a library that knows its text. *)
Definition unparsed_in_status : gmap string (pyval whole_float) :=
  <["num_osds" := VInt 5]> (<["num_up_osds" := VInt 3]>
    (<["num_in_osds" := VStr "many"]> ∅)).

Definition unparsed_in_status_text : string :=
  "{" +:+ quoted "num_osds" +:+ ": 5, " +:+ quoted "num_up_osds" +:+ ": 3, "
  +:+ quoted "num_in_osds" +:+ ": " +:+ quoted "many" +:+ "}".

Definition unparsed_in_lib : PyLib whole_float :=
  table_lib [(unparsed_in_status_text, VDict unparsed_in_status)].
(** * The rest of the module *)

From Stdlib Require Import Sorted.

(** ** What the properties of the other functions observe *)

(** The commands handed to [process.run], in order. *)
Definition dispatched (evs : list event) : list (conn * list string) :=
  omap (λ ev, match ev with
              | Called (ProcessRun c argv) => Some (c, argv)
              | _ => None
              end) evs.

(** An event that changes nothing on a host: a record of a logger, or a
    call other than a write of a file and a command run through
    [process.run]. *)
Definition read_only (ev : event) : bool :=
  negb (is_write ev || is_process_run ev).

(** The events of a status query: records, the lookup of an executable
    and a captured command. *)
Definition is_query (ev : event) : bool :=
  match ev with
  | Logged _ _ _ => true
  | Called (ExecutablePath _ _) => true
  | Called (ProcessCheck _ _) => true
  | _ => false
  end.

(** The place of a call in the work of [prepare] on its host; a record
    of a logger has none, and the calls [prepare] has no use for come
    last. *)
Definition phase (ev : event) : option nat :=
  match ev with
  | Logged _ _ _ => None
  | Called c =>
      Some match c with
           | OpenRead _ => 0
           | HostsGet _ _ _ => 1
           | LoadRaw _ => 2
           | WriteConf _ _ _ _ => 3
           | PathExists _ _ => 4
           | WriteKeyring _ _ _ => 5
           | ExecutablePath _ executable =>
               if String.eqb executable "ceph-volume" then 6
               else if String.eqb executable "ceph" then 9
               else 12
           | ProcessRun _ _ => 7
           | Sleep _ => 8
           | ProcessCheck _ _ => 10
           | ConnExit _ => 11
           | GetMonInitialMembers _ _ | ListDir _ _ | ReadLine _ _
           | GetRealpath _ _ => 12
           end%nat
  end.

Definition phases (evs : list event) : list nat := omap phase evs.

(** A computation whose calls have phases from [lo] up to, and not
    including, [hi], each later than the one before, in every world. *)
Definition ranked {W A} (lo hi : nat) (m : M W A) : Prop :=
  ∀ w, StronglySorted lt (phases (events (m w)))
       ∧ Forall (λ p, (lo ≤ p < hi)%nat) (phases (events (m w))).

(** The writes allowed to a run of [prepare] that has read [key]. *)
Definition expected_write (a : args) (key : string) (ev : event) : bool :=
  match ev with
  | Called (WriteKeyring _ path key') =>
      bool_decide (path = "/var/lib/ceph/bootstrap-osd/" +:+ cluster a +:+ ".keyring"
                   ∧ key' = key)
  | Called (WriteConf _ cluster' _ overwrite) =>
      bool_decide (cluster' = cluster a ∧ overwrite = overwrite_conf a)
  | _ => true
  end.

(** A key of the metadata that [osd_list] gathers, in the order in which
    it looks for them. *)
Definition metadata_keys : list string :=
  ["device"; "active"; "magic"; "whoami"; "journal_uuid"; "journal path"].

(** A name made of printable ASCII characters other than the space and
    the underscore; on the pieces of such a name, [Str.to_int] is
    [int]. *)
Definition plain_name (s : string) : bool :=
  forallb (λ c, let n := nat_of_ascii c in
                Nat.ltb 32 n && Nat.ltb n 127 && negb (Nat.eqb n 95))
    (list_ascii_of_string s).

(** No character of [s] is a comma or a whitespace. *)
Definition no_delim (s : string) : Prop :=
  Forall (λ c, Str.is_delim c = false) (list_ascii_of_string s).

Section more_values.

Context {F : Type} {float_ops : PyFloat F} {lib : PyLib F}.

Definition is_dict (v : pyval F) : bool :=
  match v with
  | VDict _ => true
  | _ => false
  end.

(** The node, when it is a dictionary whose [id] equals [_id]. *)
Definition matching_blob (_id : Z) (v : pyval F) : option (gmap string (pyval F)) :=
  match v with
  | VDict blob => if py_eq_int (dict_get blob "id") _id then Some blob else None
  | _ => None
  end.

End more_values.

(** ** disk_list *)

Section disk_list.

Context {F : Type} {float_ops : PyFloat F} {lib : PyLib F}
    {W : Type} {gateway : Gateway W}.

#[local] Abbreviation M := (M W).

(** [disk_list(args, cfg)] *)
Definition disk_list (a : args) (cfg : config) : M unit :=
  for_each (disk a)
    (λ '(hostname, disk, journal),
       distro ← perform (HostsGet hostname (username a) true);
       log LOG INFO ("Distro info: " +:+ distro_name distro +:+ " "
                     +:+ distro_release distro +:+ " "
                     +:+ distro_codename distro);;
       log LOG DEBUG ("Listing disks on " +:+ str_opt hostname +:+ "...");;
       ceph_disk_executable ← perform (ExecutablePath (distro_conn distro) "ceph-disk");
       perform (ProcessRun (distro_conn distro) [ceph_disk_executable; "list"]);;
       perform (ConnExit (distro_conn distro))).

End disk_list.

(** ** The collaborators of disk_zap and activate *)

(** Three more operations: [conn.remote_module.zeroing(disk)],
    [system.enable_service(conn, service)], and [process.run] with an
    argument list one of whose elements may be [None], as [activate]
    builds it from the [disk] of a target. *)
Inductive call_more : Type → Type :=
| Zeroing (c : conn) (disk : string) : call_more unit
| EnableService (c : conn) (service : string) : call_more unit
| ProcessRunArgs (c : conn) (argv : list (option string)) : call_more unit.

(** The events of these functions: the events of the functions above,
    and the calls of the three operations. *)
Inductive event_more :=
| Base (ev : event)
| CalledMore {R : Type} (c : call_more R).

Class GatewayMore (W : Type) := {
  respond_more : ∀ {R : Type}, call_more R → W → result R * W;
}.

Definition MM (W A : Type) : Type := W → result A * W * list event_more.

#[global] Instance MM_ret {W} : MRet (MM W) := λ A a w, (Ok a, w, []).

#[global] Instance MM_bind {W} : MBind (MM W) := λ A B f m w,
  match m w with
  | (Ok a, w', evs) => let '(r, w'', evs') := f a w' in (r, w'', evs ++ evs')
  | (Err e, w', evs) => (Err e, w', evs)
  end.

Section more_monad.

Context {W : Type} {gateway : Gateway W} {gateway_more : GatewayMore W}.

(** A computation of the functions above, run as it is. *)
Definition embed {A} (m : M W A) : MM W A := λ w,
  let '(r, w', evs) := m w in (r, w', Base <$> evs).

Definition raise_more {A} (e : pyexc) : MM W A := λ w, (Err e, w, []).

Definition perform_more {R} (c : call_more R) : MM W R := λ w,
  let '(r, w') := respond_more c w in (r, w', [CalledMore c]).

(** [for x in l: body x] *)
Fixpoint for_each_more {A} (l : list A) (body : A → MM W unit) : MM W unit :=
  match l with
  | [] => mret ()
  | x :: l' => body x;; for_each_more l' body
  end.

End more_monad.

Definition events_more {W A} (r : result A * W * list event_more)
  : list event_more := r.2.

(** The disks for which [zeroing] was called, with the connection. *)
Definition zeroed (evs : list event_more) : list (conn * string) :=
  omap (λ ev, match ev with
              | CalledMore (Zeroing c disk) => Some (c, disk)
              | _ => None
              end) evs.

Section zap_activate.

Context {F : Type} {float_ops : PyFloat F} {lib : PyLib F}
    {W : Type} {gateway : Gateway W} {gateway_more : GatewayMore W}.

#[local] Abbreviation MM := (MM W).

(** [' '.join(':'.join((s or '') for s in t) for t in args.disk)] *)
Definition render_disks
    (disks : list (option string * option string * option string)) : string :=
  String.concat " "
    ((λ '(hostname, disk, journal),
        String.concat ":" [default "" hostname; default "" disk; default "" journal])
       <$> disks).

(** [activate(args, cfg)] *)
Definition activate (a : args) (cfg : config) : MM unit :=
  embed (log LOG DEBUG ("Activating cluster " +:+ cluster a +:+ " disks "
                        +:+ render_disks (disk a)));;
  for_each_more (disk a)
    (λ '(hostname, disk, journal),
       distro ← embed (perform (HostsGet hostname (username a) true));
       embed (log LOG INFO ("Distro info: " +:+ distro_name distro +:+ " "
                            +:+ distro_release distro +:+ " "
                            +:+ distro_codename distro));;
       embed (log LOG DEBUG ("activating host " +:+ str_opt hostname
                             +:+ " disk " +:+ str_opt disk));;
       embed (log LOG DEBUG ("will use init type: " +:+ distro_init distro));;
       ceph_disk_executable ←
         embed (perform (ExecutablePath (distro_conn distro) "ceph-disk"));
       perform_more
         (ProcessRunArgs (distro_conn distro)
            [Some ceph_disk_executable; Some "-v"; Some "activate";
             Some "--mark-init"; Some (distro_init distro);
             Some "--mount"; disk]);;
       embed (perform (Sleep 5));;
       embed (catch_osd_errors (distro_conn distro)
                (conn_logger (distro_conn distro)) a);;
       (if String.eqb (distro_init distro) "systemd" then
          perform_more (EnableService (distro_conn distro) "ceph.target")
        else if String.eqb (distro_init distro) "sysvinit" then
          perform_more (EnableService (distro_conn distro) "ceph")
        else mret ());;
       embed (perform (ConnExit (distro_conn distro)))).

(** [disk_zap(args)] *)
Definition disk_zap (a : args) : MM unit :=
  for_each_more (disk a)
    (λ '(hostname, disk, journal),
       (if negb (truthy disk) || negb (truthy hostname) then
          raise_more (Exc RuntimeError
            ("zap command needs both HOSTNAME and DISK but got "
             +:+ quoted (str_opt hostname +:+ " " +:+ str_opt disk)))
        else mret ());;
       embed (log LOG DEBUG ("zapping " +:+ str_opt disk +:+ " on "
                             +:+ str_opt hostname));;
       distro ← embed (perform (HostsGet hostname (username a) true));
       embed (log LOG INFO ("Distro info: " +:+ distro_name distro +:+ " "
                            +:+ distro_release distro +:+ " "
                            +:+ distro_codename distro));;
       perform_more (Zeroing (distro_conn distro) (str_opt disk));;
       ceph_disk_executable ←
         embed (perform (ExecutablePath (distro_conn distro) "ceph-disk"));
       embed (perform (ProcessRun (distro_conn distro)
                         [ceph_disk_executable; "zap"; str_opt disk]));;
       embed (perform (ConnExit (distro_conn distro)))).

End zap_activate.

(** The command line [a] with other targets. *)
Definition with_disk (a : args)
    (targets : list (option string * option string * option string)) : args := {|
  cluster := cluster a;
  host := host a;
  username := username a;
  data := data a;
  journal := journal a;
  zap_disk := zap_disk a;
  fs_type := fs_type a;
  dmcrypt := dmcrypt a;
  dmcrypt_key_dir := dmcrypt_key_dir a;
  filestore := filestore a;
  bluestore := bluestore a;
  block_wal := block_wal a;
  block_db := block_db a;
  overwrite_conf := overwrite_conf a;
  disk := targets;
|}.

(** The activation commands of [activate], with the connection they
    were run on. *)
Definition activated (evs : list event_more) : list (conn * list (option string)) :=
  omap (λ ev, match ev with
              | CalledMore (ProcessRunArgs c argv) => Some (c, argv)
              | _ => None
              end) evs.

(** Every event of [evs] is justified, in the sense of [Q], by the
    events that come before it. *)
Definition each_after (Q : list event_more → event_more → Prop)
    (evs : list event_more) : Prop :=
  ∀ pre ev post, evs = pre ++ ev :: post → Q pre ev.

(** A command handed to [process.run] is the [zap] of a disk for which
    [zeroing] was called before, on the same connection. *)
Definition zap_justified (pre : list event_more) (ev : event_more) : Prop :=
  match ev with
  | Base (Called (ProcessRun c argv)) =>
      ∃ exe disk, argv = [exe; "zap"; disk] ∧ (c, disk) ∈ zeroed pre
  | _ => True
  end.

Definition zapped_after_zeroing (evs : list event_more) : Prop :=
  each_after zap_justified evs.

(** A service is enabled on a connection after an activation command on
    that connection, and it is the service of the init system that the
    command was given. *)
Definition enable_justified (pre : list event_more) (ev : event_more) : Prop :=
  match ev with
  | CalledMore (EnableService c service) =>
      ∃ exe init disk,
        (c, [Some exe; Some "-v"; Some "activate"; Some "--mark-init"; Some init;
             Some "--mount"; disk]) ∈ activated pre
        ∧ ((init = "systemd" ∧ service = "ceph.target")
           ∨ (init = "sysvinit" ∧ service = "ceph"))
  | _ => True
  end.

Definition enabled_after_activation (evs : list event_more) : Prop :=
  each_after enable_justified evs.

(** ** Instances used for the examples of the other functions *)

(** Modelled from the spec: the collaborators are not part of the
    source.  Zeroing a device and enabling a service succeed on a host
    that can be reached; a command whose arguments are all strings runs
    as scripted, and one that holds [None] raises [TypeError]. *)
Definition sim_respond_more {R} (c : call_more R) (w : sim) : result R * sim :=
  match c in call_more R return result R * sim with
  | Zeroing c disk => ask w c (λ h, Ok ())
  | EnableService c service => ask w c (λ h, Ok ())
  | ProcessRunArgs c argv =>
      ask w c (λ h,
        if forallb (λ arg : option string, bool_decide (is_Some arg)) argv
        then host_run h (str_opt <$> argv)
        else Err (Exc TypeError "expected str, got NoneType"))
  end.

#[global] Instance sim_gateway_more : GatewayMore sim :=
  {| respond_more := @sim_respond_more |}.

(** A status whose count of OSDs is not a number, and the JSON text
    of an empty array. *)
Definition bad_status : gmap string (pyval whole_float) :=
  <["num_osds" := VStr "many"]> (<["full" := VBool true]> ∅).

Definition bad_status_text : string :=
  "{" +:+ quoted "num_osds" +:+ ": " +:+ quoted "many" +:+ ", "
  +:+ quoted "full" +:+ ": true}".

(** A world whose one monitor, [mon1], answers no captured command in
    time. *)
Definition mon_timeout_world : sim := {|
  local_files := ∅;
  mon_initial_members := ["mon1"];
  remote_hosts := <["mon1" := osd_host true None]> ∅;
|}.

(** Two targets of [disk_zap] on [node1], the second without a disk. *)
Definition zap_good : list (option string * option string * option string) :=
  [(Some "node1", Some "/dev/sdb", None)].

Definition zap_args : args :=
  with_disk example_args (zap_good ++ [(Some "node1", None, None)]).

(** A status with 5 OSDs of which 4 are up and 4 are in, and full. *)
Definition degraded_status : gmap string (pyval whole_float) :=
  <["num_osds" := VInt 5]> (<["num_up_osds" := VStr "4"]>
    (<["num_in_osds" := VInt 4]> (<["full" := VBool true]> ∅))).

Definition degraded_status_text : string :=
  "{" +:+ quoted "num_osds" +:+ ": 5, " +:+ quoted "num_up_osds" +:+ ": "
  +:+ quoted "4" +:+ ", " +:+ quoted "num_in_osds" +:+ ": 4, "
  +:+ quoted "full" +:+ ": true}".

Definition status_lib : PyLib whole_float :=
  table_lib [("[]", VList []); (bad_status_text, VDict bad_status);
             (degraded_status_text, VDict degraded_status)].

(** The record of the inventory example, and the host calls that
    gather it. *)
Definition example_record : osd_record (F := whole_float) := {|
  record_path := "/var/lib/ceph/osd/ceph-1";
  record_blob := example_node;
  record_metadata := [("device", "/dev/sdb1"); ("active", "ok"); ("whoami", "1")];
|}.

Definition example_record_calls : list event :=
  [Called (PathExists (Conn "node1") "/var/lib/ceph/osd/ceph-1/active");
   Called (ReadLine (Conn "node1") "/var/lib/ceph/osd/ceph-1/active");
   Called (PathExists (Conn "node1") "/var/lib/ceph/osd/ceph-1/magic");
   Called (PathExists (Conn "node1") "/var/lib/ceph/osd/ceph-1/whoami");
   Called (ReadLine (Conn "node1") "/var/lib/ceph/osd/ceph-1/whoami");
   Called (PathExists (Conn "node1") "/var/lib/ceph/osd/ceph-1/journal_uuid");
   Called (PathExists (Conn "node1") "/var/lib/ceph/osd/ceph-1/journal")].

(** The distribution [hosts.get] reports for a host of the scripted
    world. *)
Definition sim_distro (name : string) : distro := {|
  distro_name := "ubuntu"; distro_release := "16.04";
  distro_codename := "xenial"; distro_init := "systemd";
  distro_conn := Conn name;
|}.

(** The calls of a request with [zap] set, up to the undefined name. *)
Definition zap_request_events : list event :=
  [Called (HostsGet (Some "node1") None true);
   Logged LOG INFO "Distro info: ubuntu 16.04 xenial";
   Logged LOG DEBUG "Deploying osd to node1";
   Called (LoadRaw (prepare_args None None true));
   Called (WriteConf (Conn "node1") "ceph" "[global]" false);
   Called (PathExists (Conn "node1") "/var/lib/ceph/bootstrap-osd/ceph.keyring");
   Logged (conn_logger (Conn "node1")) WARNING
     "osd keyring does not exist yet, creating one";
   Called (WriteKeyring (Conn "node1") "/var/lib/ceph/bootstrap-osd/ceph.keyring" "KEY");
   Logged LOG DEBUG "Preparing host node1 data /dev/sdb";
   Called (ExecutablePath (Conn "node1") "ceph-volume")].

(** The host [node1] once [prepare] has written the configuration and
    the keyring on it. *)
Definition prepared_host : sim_host := {|
  host_files :=
    <["/var/lib/ceph/bootstrap-osd/ceph.keyring" := "KEY"]>
      (<["/etc/ceph/ceph.conf" := "[global]"]> ∅);
  host_dirs := ∅;
  host_links := ∅;
  host_executables :=
    <["ceph" := "/usr/bin/ceph"]> (<["ceph-volume" := "/usr/sbin/ceph-volume"]> ∅);
  host_check argv := None;
  host_run argv := Ok ();
|}.
(** * Properties *)

(** ** Splitting the lines of the disk listing *)

Example re_split_docstring_line :
  Str.re_split " /dev/sdb1 ceph data, active, cluster ceph, osd.1, journal /dev/sdb2"
  = [""; "/dev/sdb1"; "ceph"; "data"; "active"; "cluster"; "ceph"; "osd.1";
     "journal"; "/dev/sdb2"].
Proof. reflexivity. Qed.

Example re_split_edges :
  Str.re_split "" = [""] ∧ Str.re_split "a " = ["a"; ""] ∧
  Str.re_split ", ,a" = [""; "a"] ∧ Str.re_split "/dev/sda :" = ["/dev/sda"; ":"].
Proof. repeat split; reflexivity. Qed.

Section mount_point.

Implicit Types (output : list string) (osd_name line : string).

Lemma re_split_from_nonempty in_run s : Str.re_split_from in_run s ≠ [].
Proof.
  revert in_run. induction s as [|c s IH]; intros in_run; simpl; [done|].
  destruct (Str.is_delim c).
  - destruct in_run; [apply IH | done].
  - destruct (Str.re_split_from false s); done.
Qed.

Lemma re_split_nonempty line : Str.re_split line ≠ [].
Proof. apply re_split_from_nonempty. Qed.

Lemma scan_parts_long line_parts parts osd_name mount_point :
  line_parts !! 1%nat = Some mount_point →
  scan_parts line_parts parts osd_name
  = Ok (if bool_decide (osd_name ∈ parts) then Some mount_point else None).
Proof.
  intros Hmp. induction parts as [|part parts IH]; cbn [scan_parts].
  - rewrite bool_decide_eq_false_2; [done | apply not_elem_of_nil].
  - rewrite Hmp. destruct (decide (osd_name = part)) as [->|Hne].
    + rewrite bool_decide_eq_true_2; [done | apply list_elem_of_here].
    + rewrite IH. f_equal.
      rewrite (bool_decide_ext (osd_name ∈ part :: parts) (osd_name ∈ parts));
        [done|].
      rewrite elem_of_cons. split; [by intros [?|?] | by right].
Qed.

Lemma scan_parts_short line_parts parts osd_name :
  line_parts !! 1%nat = None → parts ≠ [] →
  scan_parts line_parts parts osd_name
  = Err (Exc IndexError "list index out of range").
Proof. intros Hmp Hne. destruct parts; [done|]. simpl. by rewrite Hmp. Qed.

Lemma get_osd_mount_point_skip pre output osd_name :
  Forall (λ l, (2 ≤ List.length (Str.re_split l))%nat
               ∧ line_mentions osd_name l = false) pre →
  get_osd_mount_point (pre ++ output) osd_name
  = get_osd_mount_point output osd_name.
Proof.
  induction 1 as [|l pre [Hlen Hno] _ IH]; [done|]. simpl.
  destruct (lookup_lt_is_Some_2 (Str.re_split l) 1%nat) as [mp Hmp]; [lia|].
  rewrite (scan_parts_long _ _ _ mp Hmp).
  unfold line_mentions in Hno. by rewrite Hno.
Qed.

End mount_point.

Example get_osd_mount_point_docstring :
  get_osd_mount_point docstring_listing "osd.1" = Ok (Some "/dev/sdb1").
Proof. reflexivity. Qed.

Example get_osd_mount_point_empty_line :
  get_osd_mount_point (""
    :: docstring_listing) "osd.1"
  = Err (Exc IndexError "list index out of range").
Proof. reflexivity. Qed.

(** C10. When every line of [output] splits into at least two pieces,
    [get_osd_mount_point] returns: the second piece of the first line one
    of whose pieces is [osd_name], and [None] when there is no such line.
    A line with fewer than two pieces that comes before any match (it
    may be the matching line itself) makes it raise [IndexError], since
    [line_parts[1]] is read before the comparison. *)
Theorem get_osd_mount_point_total (output : list string) (osd_name : string) :
  (Forall (λ line, (2 ≤ List.length (Str.re_split line))%nat) output →
   match List.find (line_mentions osd_name) output with
   | Some line =>
       ∃ mount_point, Str.re_split line !! 1%nat = Some mount_point
         ∧ get_osd_mount_point output osd_name = Ok (Some mount_point)
   | None => get_osd_mount_point output osd_name = Ok None
   end)
  ∧ (∀ pre line post,
       output = pre ++ line :: post →
       Forall (λ l, (2 ≤ List.length (Str.re_split l))%nat
                    ∧ line_mentions osd_name l = false) pre →
       (List.length (Str.re_split line) < 2)%nat →
       get_osd_mount_point output osd_name
       = Err (Exc IndexError "list index out of range")).
Proof.
  split.
  - induction 1 as [|line output Hlen _ IH]; [done|].
    cbn [List.find get_osd_mount_point].
    destruct (lookup_lt_is_Some_2 (Str.re_split line) 1%nat) as [mp Hmp]; [lia|].
    rewrite (scan_parts_long _ _ _ mp Hmp).
    unfold line_mentions at 1.
    destruct (bool_decide (osd_name ∈ Str.re_split line)); [by exists mp|].
    apply IH.
  - intros pre line post -> Hpre Hshort.
    rewrite get_osd_mount_point_skip by done.
    cbn [get_osd_mount_point].
    rewrite scan_parts_short; [done| |apply re_split_nonempty].
    apply lookup_ge_None_2. lia.
Qed.

Lemma get_osd_mount_point_total_witness :
  Forall (λ line, (2 ≤ List.length (Str.re_split line))%nat) docstring_listing
  ∧ get_osd_mount_point docstring_listing "osd.1" = Ok (Some "/dev/sdb1")
  ∧ get_osd_mount_point ("/dev/sda :" :: "" :: docstring_listing) "osd.1"
    = Err (Exc IndexError "list index out of range").
Proof.
  assert (Hlen : Forall (λ line, (2 ≤ List.length (Str.re_split line))%nat)
                   docstring_listing).
  { apply (bool_decide_unpack _). vm_compute. reflexivity. }
  split; [exact Hlen|]. split.
  - pose proof (proj1 (get_osd_mount_point_total docstring_listing "osd.1") Hlen)
      as Hfound.
    vm_compute in Hfound. destruct Hfound as (mp & Hmp & Hres).
    injection Hmp as <-. vm_compute. reflexivity.
  - apply (proj2 (get_osd_mount_point_total
                    ("/dev/sda :" :: "" :: docstring_listing) "osd.1")
             ["/dev/sda :"] "" docstring_listing).
    + reflexivity.
    + apply (bool_decide_unpack _). vm_compute. reflexivity.
    + vm_compute. lia.
Defined.

(** ** Running the monad *)

Section running.

Context {W : Type} {gateway : Gateway W}.

#[local] Abbreviation M := (M W).

Lemma run_bind {A B} (m : M A) (f : A → M B) w :
  (m ≫= f) w
  = match m w with
    | (Ok a, w', evs) => let '(r, w'', evs') := f a w' in (r, w'', evs ++ evs')
    | (Err e, w', evs) => (Err e, w', evs)
    end.
Proof. reflexivity. Qed.

Lemma run_perform {R} (c : call R) w :
  perform c w = ((respond c w).1, (respond c w).2, [Called c]).
Proof. unfold perform. by destruct (respond c w). Qed.

Lemma emits_ret {A} P (a : A) : emits P (mret a : M A).
Proof. done. Qed.

Lemma emits_raise {A} P e : emits P (raise e : M A).
Proof. done. Qed.

Lemma emits_lift {A} P (r : result A) : emits P (lift r : M A).
Proof. done. Qed.

Lemma emits_log P lg lvl msg : P (Logged lg lvl msg) = true → emits P (log lg lvl msg : M unit).
Proof. intros HP w. simpl. by rewrite HP. Qed.

Lemma emits_perform {R} P (c : call R) : P (Called c) = true → emits P (perform c).
Proof. intros HP w. rewrite run_perform. simpl. by rewrite HP. Qed.

Lemma emits_bind {A B} P (m : M A) (f : A → M B) :
  emits P m → (∀ a, emits P (f a)) → emits P (m ≫= f).
Proof.
  intros Hm Hf w. rewrite run_bind. specialize (Hm w).
  destruct (m w) as [[[a|e] w'] evs]; [|done].
  specialize (Hf a w'). destruct (f a w') as [[r w''] evs'].
  unfold events in *. simpl in *. rewrite forallb_app. by rewrite Hm, Hf.
Qed.

Lemma emits_try_except {A} P (body : M A) handler :
  emits P body →
  (∀ e h, handler e = Some h → emits P h) →
  emits P (try_except body handler).
Proof.
  intros Hb Hh w. unfold try_except. specialize (Hb w).
  destruct (body w) as [[[a|e] w'] evs]; [done|].
  destruct (handler e) as [h|] eqn:He; [|done].
  specialize (Hh e h He w'). destruct (h w') as [[r w''] evs'].
  unfold events in *. simpl in *. rewrite forallb_app. by rewrite Hb, Hh.
Qed.

End running.

(** ** The functions of osd.py *)

Section osd_facts.

Context {F : Type} {float_ops : PyFloat F} {lib : PyLib F}
    {W : Type} {gateway : Gateway W}.

Implicit Types (w : W) (a : args) (c : conn).

(** C7. On a host where the keyring of the cluster is already at its
    path, [create_osd_keyring] only asks whether the path exists: it
    writes nothing, logs no warning and leaves the host as it was; a
    second call right after the first does the same, so that two calls
    leave the same host, the same writes (none) and the same warnings
    (none) as one. *)
Theorem create_osd_keyring_idempotent c (cluster key : string) w :
  let path := "/var/lib/ceph/bootstrap-osd/" +:+ cluster +:+ ".keyring" in
  let once := create_osd_keyring c cluster key w in
  let twice :=
    (create_osd_keyring c cluster key;; create_osd_keyring c cluster key) w in
  respond (PathExists c path) w = (Ok true, w) →
  once = (Ok (), w, [Called (PathExists c path)])
  ∧ twice = (Ok (), w, [Called (PathExists c path); Called (PathExists c path)])
  ∧ outcome twice = outcome once
  ∧ final twice = final once
  ∧ filter is_write (events twice) = [] ∧ filter is_write (events once) = []
  ∧ warnings (events twice) = [] ∧ warnings (events once) = [].
Proof.
  intros path once twice Hexists.
  assert (Honce : once = (Ok (), w, [Called (PathExists c path)])).
  { unfold once, create_osd_keyring. fold path.
    rewrite run_bind, run_perform, Hexists. reflexivity. }
  assert (Htwice : twice = (Ok (), w, [Called (PathExists c path);
                                       Called (PathExists c path)])).
  { unfold twice. rewrite run_bind. fold once. rewrite Honce.
    fold once. rewrite Honce. reflexivity. }
  rewrite Honce, Htwice. repeat split; reflexivity.
Qed.

(** C8. When the file [<cluster>.bootstrap-osd.keyring] cannot be read,
    [prepare] raises the [RuntimeError] of [get_bootstrap_osd_key] right
    after its first debug record and the attempt to open the file: no
    host is asked for, no remote call is made, nothing is logged as a
    failure of a host and no [GenericError] is built.  In every run the
    key is read first: the events start with that record and that
    read. *)
Theorem prepare_missing_key a (cfg : config) (create : bool) w w' (e : pyexc) :
  let path := cluster a +:+ ".bootstrap-osd.keyring" in
  let start :=
    [Logged LOG DEBUG ("Preparing cluster " +:+ cluster a
                       +:+ " on data device " +:+ str_opt (data a));
     Called (OpenRead path)] in
  respond (OpenRead path) w = (Err e, w') →
  exc_cls e = IOError →
  prepare a cfg create w
  = (Err (Exc RuntimeError "bootstrap-osd keyring not found; run 'gatherkeys'"),
     w', start)
  ∧ hosts_attempted (events (prepare a cfg create w)) = []
  ∧ filter is_remote (events (prepare a cfg create w)) = []
  ∧ (∀ w0, ∃ rest, events (prepare a cfg create w0) = start ++ rest).
Proof.
  intros path start Hopen Hcls.
  assert (Hrun : prepare a cfg create w
    = (Err (Exc RuntimeError "bootstrap-osd keyring not found; run 'gatherkeys'"),
       w', start)).
  { unfold prepare, get_bootstrap_osd_key. fold path.
    rewrite run_bind. cbn [log]. rewrite run_bind. unfold try_except.
    rewrite run_perform, Hopen. cbn [fst snd]. rewrite Hcls. reflexivity. }
  rewrite Hrun. repeat split.
  intros w0. unfold prepare, get_bootstrap_osd_key. fold path.
  rewrite run_bind. cbn [log]. rewrite run_bind. unfold try_except.
  rewrite run_perform.
  destruct (respond (OpenRead path) w0) as [[key|e0] w1]; cbn [fst snd].
  - match goal with |- context [mbind ?f ?m w1] =>
      destruct (mbind f m w1) as [[r w2] evs] end.
    eexists. reflexivity.
  - destruct (exc_cls e0); eexists; reflexivity.
Qed.

(** *** Normalization of the booleans *)

Lemma fix_boolean_item_insert (d : gmap string (pyval F)) k v :
  d !! k = Some v →
  fix_boolean_item d (k, v) = <[k := normalized_value v]> d.
Proof.
  intros Hk. unfold fix_boolean_item, py_eq_str, normalized_value.
  destruct v as [| | | |s| |]; try by rewrite insert_id.
  destruct (String.eqb s "true"); [done|].
  destruct (String.eqb s "false"); [done|]. by rewrite insert_id.
Qed.

Lemma foldl_fix_boolean_item (l : list (string * pyval F))
    (d : gmap string (pyval F)) k :
  NoDup l.*1 →
  (∀ k' v, (k', v) ∈ l → d !! k' = Some v) →
  foldl fix_boolean_item d l !! k
  = match (list_to_map l : gmap string (pyval F)) !! k with
    | Some v => Some (normalized_value v)
    | None => d !! k
    end.
Proof.
  revert d. induction l as [|[k0 v0] l IH]; intros d Hnodup Hin.
  - simpl. by rewrite lookup_empty.
  - apply NoDup_cons in Hnodup as [Hfresh Hnodup]. cbn [foldl].
    rewrite fix_boolean_item_insert by (apply Hin; left).
    rewrite IH; [|done|].
    + cbn [list_to_map foldr uncurry]. destruct (decide (k0 = k)) as [->|Hne].
      * rewrite lookup_insert_eq.
        rewrite (not_elem_of_list_to_map_1 _ _ Hfresh).
        by rewrite lookup_insert_eq.
      * rewrite (lookup_insert_ne (list_to_map l)) by done.
        destruct (list_to_map l !! k); [done|]. by rewrite lookup_insert_ne.
    + intros k' v Hk'. rewrite lookup_insert_ne; [apply Hin; by right|].
      intros ->. apply Hfresh. apply list_elem_of_fmap. by exists (k', v).
Qed.

Lemma fix_booleans_lookup (d : gmap string (pyval F)) k :
  fix_booleans d !! k = normalized_value <$> d !! k.
Proof.
  unfold fix_booleans. rewrite foldl_fix_boolean_item.
  - rewrite list_to_map_to_list. by destruct (d !! k).
  - apply NoDup_fst_map_to_list.
  - intros k' v. apply elem_of_map_to_list.
Qed.

Lemma fix_booleans_fmap (d : gmap string (pyval F)) :
  fix_booleans d = normalized_value <$> d.
Proof. apply map_eq. intros k. by rewrite fix_booleans_lookup, lookup_fmap. Qed.

(** *** Running the status queries *)

Lemma run_load_json_status (out : list string) w :
  load_json_status out w
  = match json_loads (String.concat "" out) with
    | None => (Ok ∅, w, [])
    | Some (VDict loaded_json) => (Ok (fix_booleans loaded_json), w, [])
    | Some _ => (Err (Exc AttributeError "object has no attribute 'items'"), w, [])
    end.
Proof.
  unfold load_json_status.
  destruct (json_loads (String.concat "" out)) as [[]|]; reflexivity.
Qed.

Lemma run_osd_status_check c cluster w exe w1 checked w2 :
  respond (ExecutablePath c "ceph") w = (Ok exe, w1) →
  respond (ProcessCheck c (ceph_osd_command exe cluster "stat")) w1
  = (Ok checked, w2) →
  osd_status_check c cluster w
  = let calls := [Called (ExecutablePath c "ceph");
                  Called (ProcessCheck c (ceph_osd_command exe cluster "stat"))] in
    match checked with
    | None => (Ok ∅, w2, calls)
    | Some (out, _, _) =>
        let '(r, w3, evs) := load_json_status out w2 in (r, w3, calls ++ evs)
    end.
Proof.
  intros Hexe Hcheck. unfold osd_status_check.
  rewrite run_bind, run_perform, Hexe. cbn [fst snd].
  fold (ceph_osd_command exe cluster "stat").
  rewrite run_bind. unfold try_except.
  rewrite !run_bind, run_perform, Hcheck. cbn [fst snd].
  destruct checked as [[[out err] code]|]; [|reflexivity].
  cbn. by destruct (load_json_status out w2) as [[r w3] evs].
Qed.

Lemma run_osd_tree c cluster w exe w1 out err code w2 :
  respond (ExecutablePath c "ceph") w = (Ok exe, w1) →
  respond (ProcessCheck c (ceph_osd_command exe cluster "tree")) w1
  = (Ok (Some (out, err, code)), w2) →
  osd_tree c cluster w
  = let calls := [Called (ExecutablePath c "ceph");
                  Called (ProcessCheck c (ceph_osd_command exe cluster "tree"))] in
    let '(r, w3, evs) := load_json_status out w2 in (r, w3, calls ++ evs).
Proof.
  intros Hexe Hcheck. unfold osd_tree.
  rewrite run_bind, run_perform, Hexe. cbn [fst snd].
  fold (ceph_osd_command exe cluster "tree").
  rewrite !run_bind, run_perform, Hcheck. cbn.
  by destruct (load_json_status out w2) as [[r w3] evs].
Qed.

End osd_facts.

Section status_claims.

Context {F : Type} {float_ops : PyFloat F} {lib : PyLib F}
    {W : Type} {gateway : Gateway W}.

Implicit Types (w : W) (a : args) (c : conn).

(** C4. When the transport answers the status query with [None] instead
    of a triple, [osd_status_check] returns the empty dictionary and does
    not raise, and [catch_osd_errors], which is built on it, returns
    after its info record without a single warning. *)
Theorem status_check_timeout c (lg : logger) a w (exe : string) w1 w2 :
  let command := ceph_osd_command exe (cluster a) "stat" in
  let calls := [Called (ExecutablePath c "ceph"); Called (ProcessCheck c command)] in
  respond (ExecutablePath c "ceph") w = (Ok exe, w1) →
  respond (ProcessCheck c command) w1 = (Ok None, w2) →
  osd_status_check c (cluster a) w = (Ok ∅, w2, calls)
  ∧ catch_osd_errors c lg a w
    = (Ok (), w2, Logged lg INFO "checking OSD status..." :: calls)
  ∧ warnings (events (catch_osd_errors c lg a w)) = [].
Proof.
  intros command calls Hexe Hcheck.
  assert (Hstatus : osd_status_check c (cluster a) w = (Ok ∅, w2, calls)).
  { by rewrite (run_osd_status_check _ _ _ _ _ _ _ Hexe Hcheck). }
  assert (Hcatch : catch_osd_errors c lg a w
                   = (Ok (), w2, Logged lg INFO "checking OSD status..." :: calls)).
  { unfold catch_osd_errors. rewrite run_bind. cbn [log].
    rewrite run_bind, Hstatus. unfold dict_get_default.
    rewrite !lookup_empty. reflexivity. }
  rewrite Hcatch. done.
Qed.

(** C5. Whatever JSON object the status query or the tree query returns,
    the dictionary that [osd_status_check], respectively [osd_tree],
    hands back has the same keys, with [True] where the object had the
    string [true], [False] where it had the string [false], and the
    value of the object everywhere else. *)
Theorem booleans_normalized c (cluster : string) w (exe : string) w1
    (out err : list string) (code : Z) w2
    (payload : gmap string (pyval F)) (what : string) :
  let normalized (r : gmap string (pyval F)) :=
    ∀ k,
      (payload !! k = Some (VStr "true") → r !! k = Some (VBool true))
      ∧ (payload !! k = Some (VStr "false") → r !! k = Some (VBool false))
      ∧ (∀ v, payload !! k = Some v → v ≠ VStr "true" → v ≠ VStr "false" →
              r !! k = Some v)
      ∧ (payload !! k = None → r !! k = None) in
  respond (ExecutablePath c "ceph") w = (Ok exe, w1) →
  respond (ProcessCheck c (ceph_osd_command exe cluster what)) w1
  = (Ok (Some (out, err, code)), w2) →
  json_loads (String.concat "" out) = Some (VDict payload) →
  normalized (fix_booleans payload)
  ∧ (what = "stat" →
     outcome (osd_status_check c cluster w) = Ok (fix_booleans payload))
  ∧ (what = "tree" →
     outcome (osd_tree c cluster w) = Ok (fix_booleans payload)).
Proof.
  intros normalized Hexe Hcheck Hjson. split; [|split].
  - intros k. rewrite fix_booleans_lookup. repeat split.
    + by intros ->.
    + by intros ->.
    + intros v -> Htrue Hfalse. cbn. f_equal.
      destruct v as [| | | |s| |]; try done. cbn.
      destruct (String.eqb_spec s "true") as [->|_]; [done|].
      by destruct (String.eqb_spec s "false") as [->|_].
    + by intros ->.
  - intros ->. rewrite (run_osd_status_check _ _ _ _ _ _ _ Hexe Hcheck).
    cbn zeta. by rewrite run_load_json_status, Hjson.
  - intros ->. rewrite (run_osd_tree _ _ _ _ _ _ _ _ _ Hexe Hcheck).
    cbn zeta. by rewrite run_load_json_status, Hjson.
Qed.

Lemma there_are_cases (difference : Z) (what : string) :
  there_are difference what
  = if decide (difference = 1) then "there is 1 OSD " +:+ what
    else "there are " +:+ pretty difference +:+ " OSDs " +:+ what.
Proof.
  unfold there_are. destruct (decide (difference = 1)) as [->|Hne].
  - reflexivity.
  - rewrite bool_decide_eq_true_2, bool_decide_eq_false_2 by done.
    reflexivity.
Qed.

(** C6, amended. When the three counts [num_osds], [num_up_osds] and
    [num_in_osds] of the status convert to integers and the status
    counts more OSDs than OSDs that are up, [catch_osd_errors] returns
    and warns, right after the status query, that the difference is
    down: "there is 1 OSD down" when the difference is 1, and
    "there are <n> OSDs down" for any other difference [n]; only
    warnings follow.  For 5 OSDs of which 3 are up the text is
    "there are 2 OSDs down", and for 5 of which 4 are up it is
    "there is 1 OSD down". *)
Theorem catch_osd_errors_down c (lg : logger) a w
    (status : gmap string (pyval F)) w1 (evs : list event) (osds up_osds in_osds : Z) :
  let message :=
    if decide (osds - up_osds = 1) then "there is 1 OSD down"
    else "there are " +:+ pretty (osds - up_osds) +:+ " OSDs down" in
  osd_status_check c (cluster a) w = (Ok status, w1, evs) →
  py_int (dict_get_default status "num_osds" (VInt 0)) = Ok osds →
  py_int (dict_get_default status "num_up_osds" (VInt 0)) = Ok up_osds →
  py_int (dict_get_default status "num_in_osds" (VInt 0)) = Ok in_osds →
  osds > up_osds →
  (∃ rest,
      catch_osd_errors c lg a w
      = (Ok (), w1,
         Logged lg INFO "checking OSD status..." :: evs
         ++ Logged lg WARNING message :: rest)
      ∧ forallb is_warning rest = true)
  ∧ there_are (5 - 3) "down" = "there are 2 OSDs down"
  ∧ there_are (5 - 4) "down" = "there is 1 OSD down".
Proof.
  intros message Hstatus Hosds Hup Hin Hgt. split; [|done].
  assert (Hgtb : (osds >? up_osds) = true) by (apply Z.gtb_lt; lia).
  unfold catch_osd_errors, mbind, M_bind, log, lift, mret, M_ret.
  cbv beta. rewrite Hstatus. cbv beta iota.
  rewrite Hosds. cbv beta iota. rewrite Hup. cbv beta iota.
  rewrite Hin. cbv beta iota. rewrite Hgtb. cbv beta iota zeta.
  rewrite (there_are_cases (osds - up_osds)). fold message.
  destruct (osds >? in_osds);
    destruct (py_bool (dict_get_default status "full" (VBool false)));
    destruct (py_bool (dict_get_default status "nearfull" (VBool false)));
    eexists; (split; [reflexivity|reflexivity]).
Qed.

End status_claims.

(** ** Which events a function can emit *)

Ltac emits_handler :=
  let e := fresh "e" in
  let h := fresh "h" in
  let Hh := fresh "Hh" in
  intros e h Hh;
  repeat match type of Hh with
         | context [match ?x with _ => _ end] => destruct x
         | context [if ?b then _ else _] => destruct b
         end;
  try discriminate Hh;
  injection Hh as <-.

Ltac emits_step :=
  lazymatch goal with
  | |- emits _ (try_except _ _) => apply emits_try_except; [|emits_handler]
  | |- emits _ (mbind _ _) => apply emits_bind; [|intros ?]
  | |- emits _ (mret _) => apply emits_ret
  | |- emits _ (raise _) => apply emits_raise
  | |- emits _ (undefined_logger_warning _) => apply emits_raise
  | |- emits _ (lift _) => apply emits_lift
  | |- emits _ (unpack3 _) => unfold unpack3
  | |- emits _ (log _ _ _) => apply emits_log; reflexivity
  | |- emits _ (perform _) => apply emits_perform; reflexivity
  | |- emits _ (if ?b then _ else _) => destruct b
  | |- emits _ (match ?x with _ => _ end) => destruct x
  | |- emits _ (let _ := _ in _) => cbv zeta
  end.

Section emitted.

Context {F : Type} {float_ops : PyFloat F} {lib : PyLib F}
    {W : Type} {gateway : Gateway W}.

Implicit Types (w : W) (a : args) (c : conn).

Lemma create_osd_keyring_no_hosts_get c cluster key :
  emits not_hosts_get (create_osd_keyring c cluster key).
Proof. unfold create_osd_keyring. repeat emits_step. Qed.

Lemma load_json_status_no_hosts_get (out : list string) :
  emits (W:=W) not_hosts_get (load_json_status out).
Proof. unfold load_json_status. repeat emits_step. Qed.

Lemma osd_status_check_no_hosts_get c cluster :
  emits not_hosts_get (osd_status_check c cluster).
Proof.
  unfold osd_status_check. repeat emits_step.
  apply load_json_status_no_hosts_get.
Qed.

Lemma catch_osd_errors_no_hosts_get c lg a :
  emits not_hosts_get (catch_osd_errors c lg a).
Proof.
  unfold catch_osd_errors.
  apply emits_bind; [apply emits_log; reflexivity|intros _].
  apply emits_bind; [apply osd_status_check_no_hosts_get|intros status].
  repeat emits_step.
Qed.

Lemma prepare_disk_no_hosts_get c cluster data journal zap fs_type dmcrypt
    dmcrypt_dir storetype block_wal block_db create :
  emits not_hosts_get
    (prepare_disk c cluster data journal zap fs_type dmcrypt dmcrypt_dir
       storetype block_wal block_db create).
Proof. unfold prepare_disk. repeat emits_step. Qed.

End emitted.

Section prepare_claims.

Context {F : Type} {float_ops : PyFloat F} {lib : PyLib F}
    {W : Type} {gateway : Gateway W}.

Implicit Types (w : W) (a : args) (c : conn).

(** C1. A filestore request without a journal never reaches
    [process.run], but the [RuntimeError] of the validation is raised only
    when neither [zap] nor [dmcrypt] is set: with one of them set, the
    undefined name [logger] raises [NameError] before the validation.
    When the lookup of [ceph-volume] fails, its exception is raised. *)
Theorem prepare_disk_filestore_no_journal c (cluster data fs_type dmcrypt_dir : string)
    (block_wal block_db : option string) (create no_journal_is_none : bool) w :
  let journal := if no_journal_is_none then None else Some "" in
  let run zap dmcrypt :=
    prepare_disk c cluster data journal zap fs_type dmcrypt dmcrypt_dir
      "filestore" block_wal block_db create w in
  let lookup := [Called (ExecutablePath c "ceph-volume")] in
  let name_error := Exc NameError "name 'logger' is not defined" in
  match respond (ExecutablePath c "ceph-volume") w with
  | (Ok _, w') =>
      run false false
      = (Err (Exc RuntimeError
           "A journal lv or GPT partition must be specified when using filestore"),
         w', lookup)
      ∧ (∀ dmcrypt, run true dmcrypt = (Err name_error, w', lookup))
      ∧ run false true = (Err name_error, w', lookup)
  | (Err e, w') => ∀ zap dmcrypt, run zap dmcrypt = (Err e, w', lookup)
  end
  ∧ ∀ zap dmcrypt, filter is_process_run (events (run zap dmcrypt)) = [].
Proof.
  intros journal run lookup name_error.
  assert (Hrun : ∀ zap dmcrypt,
    run zap dmcrypt
    = match respond (ExecutablePath c "ceph-volume") w with
      | (Ok _, w') =>
          (Err (if zap || dmcrypt then name_error
                else Exc RuntimeError
                  "A journal lv or GPT partition must be specified when using filestore"),
           w', lookup)
      | (Err e, w') => (Err e, w', lookup)
      end).
  { intros zap dmcrypt. unfold run, prepare_disk.
    rewrite run_bind, run_perform.
    destruct (respond (ExecutablePath c "ceph-volume") w) as [[exe|e] w'];
      [|reflexivity].
    destruct zap, dmcrypt, no_journal_is_none; reflexivity. }
  split.
  - destruct (respond (ExecutablePath c "ceph-volume") w) as [[exe|e] w'] eqn:Hexe.
    + repeat split; [| intros [] |]; by rewrite Hrun.
    + intros zap dmcrypt. by rewrite Hrun.
  - intros zap dmcrypt. rewrite Hrun.
    by destruct (respond (ExecutablePath c "ceph-volume") w) as [[exe|e] w'].
Qed.

(** C3. A request with [zap] set is not carried out: once [ceph-volume]
    is found, reading the undefined name [logger] raises [NameError]; no
    warning is logged and no command is dispatched, whatever the other
    parameters are.  The same request with [zap] unset (and [dmcrypt]
    unset, on bluestore without WAL or DB device) dispatches the command
    [ceph-volume --cluster <cluster> lvm prepare|create --bluestore
    --data <data>]. *)
Theorem prepare_disk_zap c (cluster data fs_type dmcrypt_dir storetype : string)
    (journal block_wal block_db : option string) (dmcrypt create : bool) w :
  let run :=
    prepare_disk c cluster data journal true fs_type dmcrypt dmcrypt_dir
      storetype block_wal block_db create w in
  let unzapped :=
    prepare_disk c cluster data journal false fs_type false dmcrypt_dir
      "bluestore" None None create w in
  let lookup := Called (ExecutablePath c "ceph-volume") in
  match respond (ExecutablePath c "ceph-volume") w with
  | (Ok exe, w') =>
      run = (Err (Exc NameError "name 'logger' is not defined"), w', [lookup])
      ∧ events unzapped
        = [lookup;
           Called (ProcessRun c
             [exe; "--cluster"; cluster; "lvm";
              if create then "create" else "prepare";
              "--bluestore"; "--data"; data])]
  | (Err e, w') => run = (Err e, w', [lookup])
  end
  ∧ warnings (events run) = []
  ∧ filter is_process_run (events run) = [].
Proof.
  intros run unzapped lookup.
  unfold run, unzapped, prepare_disk. rewrite !run_bind, !run_perform.
  destruct (respond (ExecutablePath c "ceph-volume") w) as [[exe|e] w'];
    [|done].
  unfold undefined_logger_warning, raise, mbind, M_bind, mret, M_ret, perform.
  cbn.
  match goal with
  | |- context [respond (ProcessRun c ?argv) w'] =>
      destruct (respond (ProcessRun c argv) w') as [[[]|e] w'']
  end; done.
Qed.

Lemma hosts_attempted_app (evs1 evs2 : list event) :
  hosts_attempted (evs1 ++ evs2) = hosts_attempted evs1 ++ hosts_attempted evs2.
Proof. apply omap_app. Qed.

Lemma hosts_attempted_quiet (evs : list event) :
  forallb not_hosts_get evs = true → hosts_attempted evs = [].
Proof.
  induction evs as [|ev evs IH]; [done|]. cbn [forallb].
  intros [Hev Hevs]%andb_prop. specialize (IH Hevs).
  unfold hosts_attempted in *.
  destruct ev as [R call|]; [destruct call|]; simpl; done.
Qed.

Lemma hosts_attempted_emits {A} (m : M W A) w :
  emits not_hosts_get m → hosts_attempted (events (m w)) = [].
Proof. intros Hm. apply hosts_attempted_quiet, Hm. Qed.

Lemma hosts_attempted_get {A} hostname user installed (f : distro → M W A) w :
  (∀ d, emits not_hosts_get (f d)) →
  hosts_attempted (events ((perform (HostsGet hostname user installed) ≫= f) w))
  = [hostname].
Proof.
  intros Hf. rewrite run_bind, run_perform.
  destruct (respond (HostsGet hostname user installed) w) as [[d|e] w'];
    cbn [fst snd]; [|done].
  specialize (Hf d w'). destruct (f d w') as [[r w''] evs].
  unfold events in *. cbn [snd] in *. rewrite hosts_attempted_app.
  by rewrite (hosts_attempted_quiet _ Hf).
Qed.

Lemma prepare_host_attempts a key create w :
  hosts_attempted (events (prepare_host a key create ∅ w)) = []
  ∨ hosts_attempted (events (prepare_host a key create ∅ w)) = [host a].
Proof.
  unfold prepare_host. destruct (data a) as [data_|]; [right|by left].
  apply hosts_attempted_get. intros d.
  repeat first
    [ emits_step
    | apply create_osd_keyring_no_hosts_get
    | apply prepare_disk_no_hosts_get
    | apply catch_osd_errors_no_hosts_get ].
Qed.

Lemma hosts_attempted_logged lg lvl msg (evs : list event) :
  hosts_attempted (Logged lg lvl msg :: evs) = hosts_attempted evs.
Proof. reflexivity. Qed.

Lemma get_bootstrap_osd_key_no_hosts_get (cluster : string) :
  emits (W:=W) not_hosts_get (get_bootstrap_osd_key cluster).
Proof. unfold get_bootstrap_osd_key. repeat emits_step. Qed.

Lemma prepare_attempts a (cfg : config) (create : bool) w :
  hosts_attempted (events (prepare a cfg create w)) = []
  ∨ hosts_attempted (events (prepare a cfg create w)) = [host a].
Proof.
  unfold prepare. rewrite run_bind. cbn [log]. rewrite run_bind.
  pose proof (hosts_attempted_emits _ w
                (get_bootstrap_osd_key_no_hosts_get (cluster a))) as Hkey.
  destruct (get_bootstrap_osd_key (cluster a) w) as [[[key|e] w1] evs1];
    unfold events in *; cbn [snd] in *.
  2: { left. cbn [app]. by rewrite hosts_attempted_logged. }
  rewrite run_bind. unfold try_except. rewrite run_bind.
  pose proof (prepare_host_attempts a key create w1) as Hhost.
  destruct (prepare_host a key create ∅ w1) as [[[[]|e] w2] evs2];
    unfold events in *; cbn [snd] in *.
  - cbn. rewrite !app_nil_r.
    repeat match goal with
           | |- context [omap ?f ?l] => change (omap f l) with (hosts_attempted l)
           end.
    by rewrite !hosts_attempted_app, Hkey.
  - destruct (isa_RuntimeError e);
      unfold mbind, M_bind, mret, M_ret, log, raise; cbn;
      try change (negb (0 + 1 =? 0)) with true; cbn; rewrite ?app_nil_r;
      repeat match goal with
             | |- context [omap ?f ?l] => change (omap f l) with (hosts_attempted l)
             end;
      rewrite !hosts_attempted_app, Hkey; cbn [app]; rewrite ?app_nil_r;
      exact Hhost.
Qed.

(** C2. [prepare] works on one host, [args.host]: no run asks [hosts.get]
    for another host, nor for more than one.  When the work on that host
    raises an exception that is a [RuntimeError], the exception is logged
    as an error and the run ends by raising one [GenericError] that
    counts 1 failure. *)
Theorem prepare_single_host a (cfg : config) (create : bool) w (key : string)
    w1 (e : pyexc) w2 (evs : list event) :
  let path := cluster a +:+ ".bootstrap-osd.keyring" in
  let start :=
    [Logged LOG DEBUG ("Preparing cluster " +:+ cluster a
                       +:+ " on data device " +:+ str_opt (data a));
     Called (OpenRead path)] in
  respond (OpenRead path) w = (Ok key, w1) →
  prepare_host a key create ∅ w1 = (Err e, w2, evs) →
  isa_RuntimeError e = true →
  prepare a cfg create w
  = (Err (Exc GenericError "Failed to create 1 OSDs"), w2,
     start ++ evs ++ [Logged LOG ERROR (exc_str e)])
  ∧ (∀ w0, hosts_attempted (events (prepare a cfg create w0)) = []
           ∨ hosts_attempted (events (prepare a cfg create w0)) = [host a]).
Proof.
  intros path start Hopen Hhost Hisa. split; [|intros w0; apply prepare_attempts].
  unfold prepare, get_bootstrap_osd_key. fold path.
  rewrite run_bind. cbn [log]. rewrite run_bind. unfold try_except at 1.
  rewrite run_perform, Hopen. cbn [fst snd].
  rewrite run_bind. unfold try_except. rewrite run_bind, Hhost, Hisa.
  unfold mbind, M_bind, mret, M_ret, log, raise. cbn.
  change (negb (0 + 1 =? 0)) with true. cbn. rewrite ?app_nil_r. reflexivity.
Qed.

End prepare_claims.

(** ** The properties on the scripted world *)

Lemma create_osd_keyring_idempotent_witness :
  respond (PathExists (Conn "node1") "/var/lib/ceph/bootstrap-osd/ceph.keyring")
    timeout_world = (Ok true, timeout_world)
  ∧ (create_osd_keyring (Conn "node1") "ceph" "KEY";;
     create_osd_keyring (Conn "node1") "ceph" "KEY") timeout_world
    = (Ok (), timeout_world,
       [Called (PathExists (Conn "node1") "/var/lib/ceph/bootstrap-osd/ceph.keyring");
        Called (PathExists (Conn "node1") "/var/lib/ceph/bootstrap-osd/ceph.keyring")]).
Proof.
  assert (Hexists :
    respond (PathExists (Conn "node1") "/var/lib/ceph/bootstrap-osd/ceph.keyring")
      timeout_world = (Ok true, timeout_world)) by (vm_compute; reflexivity).
  split; [exact Hexists|].
  exact (proj1 (proj2 (create_osd_keyring_idempotent
                         (Conn "node1") "ceph" "KEY" timeout_world Hexists))).
Defined.

(** On a host without the keyring the first call writes it and warns,
    and the second call finds it. *)
Example create_osd_keyring_twice_fresh :
  logged (events ((create_osd_keyring (Conn "node1") "ceph" "KEY";;
                   create_osd_keyring (Conn "node1") "ceph" "KEY")
                    (one_host_world (osd_host false None))))
  = ["osd keyring does not exist yet, creating one"]
  ∧ final ((create_osd_keyring (Conn "node1") "ceph" "KEY";;
            create_osd_keyring (Conn "node1") "ceph" "KEY")
             (one_host_world (osd_host false None)))
    = final (create_osd_keyring (Conn "node1") "ceph" "KEY"
               (one_host_world (osd_host false None))).
Proof. split; vm_compute; reflexivity. Qed.

Lemma prepare_missing_key_witness :
  respond (OpenRead "ceph.bootstrap-osd.keyring")
    (no_key_world (osd_host false None))
  = (Err (Exc IOError "ceph.bootstrap-osd.keyring"),
     no_key_world (osd_host false None))
  ∧ exc_cls (Exc IOError "ceph.bootstrap-osd.keyring") = IOError
  ∧ prepare (prepare_args None None false) (Config "") false
      (no_key_world (osd_host false None))
    = (Err (Exc RuntimeError "bootstrap-osd keyring not found; run 'gatherkeys'"),
       no_key_world (osd_host false None),
       [Logged LOG DEBUG "Preparing cluster ceph on data device /dev/sdb";
        Called (OpenRead "ceph.bootstrap-osd.keyring")]).
Proof.
  assert (Hopen :
    respond (OpenRead "ceph.bootstrap-osd.keyring")
      (no_key_world (osd_host false None))
    = (Err (Exc IOError "ceph.bootstrap-osd.keyring"),
       no_key_world (osd_host false None))) by (vm_compute; reflexivity).
  split; [exact Hopen|]. split; [reflexivity|].
  exact (proj1 (prepare_missing_key (prepare_args None None false) (Config "")
                  false _ _ _ Hopen eq_refl)).
Defined.

Lemma status_check_timeout_witness :
  respond (ExecutablePath (Conn "node1") "ceph") timeout_world
  = (Ok "/usr/bin/ceph", timeout_world)
  ∧ respond (ProcessCheck (Conn "node1")
               (ceph_osd_command "/usr/bin/ceph" "ceph" "stat")) timeout_world
    = (Ok None, timeout_world)
  ∧ osd_status_check (Conn "node1") "ceph" timeout_world
    = (Ok ∅, timeout_world,
       [Called (ExecutablePath (Conn "node1") "ceph");
        Called (ProcessCheck (Conn "node1")
                  (ceph_osd_command "/usr/bin/ceph" "ceph" "stat"))])
  ∧ warnings (events (catch_osd_errors (Conn "node1") (conn_logger (Conn "node1"))
                        (prepare_args None None false) timeout_world)) = [].
Proof.
  assert (Hexe : respond (ExecutablePath (Conn "node1") "ceph") timeout_world
                 = (Ok "/usr/bin/ceph", timeout_world)) by (vm_compute; reflexivity).
  assert (Hcheck :
    respond (ProcessCheck (Conn "node1")
               (ceph_osd_command "/usr/bin/ceph" "ceph" "stat")) timeout_world
    = (Ok None, timeout_world)) by (vm_compute; reflexivity).
  split; [exact Hexe|]. split; [exact Hcheck|].
  pose proof (status_check_timeout (Conn "node1") (conn_logger (Conn "node1"))
                (prepare_args None None false) timeout_world _ _ _ Hexe Hcheck)
    as (Hstatus & _ & Hwarn).
  split; [exact Hstatus | exact Hwarn].
Defined.

Lemma booleans_normalized_witness :
  respond (ExecutablePath (Conn "node1") "ceph") (status_world docstring_status_text)
  = (Ok "/usr/bin/ceph", status_world docstring_status_text)
  ∧ respond (ProcessCheck (Conn "node1")
               (ceph_osd_command "/usr/bin/ceph" "ceph" "stat"))
      (status_world docstring_status_text)
    = (Ok (Some ([docstring_status_text], [], 0)),
       status_world docstring_status_text)
  ∧ json_loads (String.concat "" [docstring_status_text])
    = Some (VDict docstring_status)
  ∧ fix_booleans docstring_status !! "full" = Some (VBool false)
  ∧ fix_booleans docstring_status !! "num_in_osds" = Some (VStr "1")
  ∧ outcome (osd_status_check (Conn "node1") "ceph"
               (status_world docstring_status_text))
    = Ok (fix_booleans docstring_status).
Proof.
  assert (Hexe :
    respond (ExecutablePath (Conn "node1") "ceph")
      (status_world docstring_status_text)
    = (Ok "/usr/bin/ceph", status_world docstring_status_text))
    by (vm_compute; reflexivity).
  assert (Hcheck :
    respond (ProcessCheck (Conn "node1")
               (ceph_osd_command "/usr/bin/ceph" "ceph" "stat"))
      (status_world docstring_status_text)
    = (Ok (Some ([docstring_status_text], [], 0)),
       status_world docstring_status_text)) by (vm_compute; reflexivity).
  assert (Hjson : json_loads (String.concat "" [docstring_status_text])
                  = Some (VDict docstring_status)) by (vm_compute; reflexivity).
  split; [exact Hexe|]. split; [exact Hcheck|]. split; [exact Hjson|].
  pose proof (booleans_normalized (Conn "node1") "ceph" _ _ _ _ _ _ _ _ "stat"
                Hexe Hcheck Hjson) as (Hnorm & Hstat & _).
  split; [|split].
  - apply (proj1 (proj2 (Hnorm "full"))). vm_compute. reflexivity.
  - apply (proj1 (proj2 (proj2 (Hnorm "num_in_osds"))));
      [vm_compute; reflexivity | discriminate | discriminate].
  - exact (Hstat eq_refl).
Defined.

Lemma catch_osd_errors_down_witness :
  osd_status_check (Conn "node1") "ceph" (status_world (status_text "5" "3"))
  = (Ok (status_of 5 3), status_world (status_text "5" "3"),
     [Called (ExecutablePath (Conn "node1") "ceph");
      Called (ProcessCheck (Conn "node1")
                (ceph_osd_command "/usr/bin/ceph" "ceph" "stat"))])
  ∧ py_int (dict_get_default (status_of 5 3) "num_osds" (VInt 0)) = Ok 5
  ∧ py_int (dict_get_default (status_of 5 3) "num_up_osds" (VInt 0)) = Ok 3
  ∧ py_int (dict_get_default (status_of 5 3) "num_in_osds" (VInt 0)) = Ok 5
  ∧ 5 > 3
  ∧ ∃ rest,
      catch_osd_errors (Conn "node1") (conn_logger (Conn "node1"))
        (prepare_args None None false) (status_world (status_text "5" "3"))
      = (Ok (), status_world (status_text "5" "3"),
         Logged (conn_logger (Conn "node1")) INFO "checking OSD status..."
         :: [Called (ExecutablePath (Conn "node1") "ceph");
             Called (ProcessCheck (Conn "node1")
                       (ceph_osd_command "/usr/bin/ceph" "ceph" "stat"))]
         ++ Logged (conn_logger (Conn "node1")) WARNING "there are 2 OSDs down"
         :: rest)
      ∧ forallb is_warning rest = true.
Proof.
  assert (Hstatus :
    osd_status_check (Conn "node1") "ceph" (status_world (status_text "5" "3"))
    = (Ok (status_of 5 3), status_world (status_text "5" "3"),
       [Called (ExecutablePath (Conn "node1") "ceph");
        Called (ProcessCheck (Conn "node1")
                  (ceph_osd_command "/usr/bin/ceph" "ceph" "stat"))]))
    by (vm_compute; reflexivity).
  assert (Hosds : py_int (dict_get_default (status_of 5 3) "num_osds" (VInt 0))
                  = Ok 5) by (vm_compute; reflexivity).
  assert (Hup : py_int (dict_get_default (status_of 5 3) "num_up_osds" (VInt 0))
                = Ok 3) by (vm_compute; reflexivity).
  assert (Hin : py_int (dict_get_default (status_of 5 3) "num_in_osds" (VInt 0))
                = Ok 5) by (vm_compute; reflexivity).
  assert (Hgt : 5 > 3) by lia.
  repeat (split; [assumption|]).
  exact (proj1 (catch_osd_errors_down (Conn "node1") (conn_logger (Conn "node1"))
                  (prepare_args None None false) _ _ _ _ 5 3 5
                  Hstatus Hosds Hup Hin Hgt)).
Defined.

Example catch_osd_errors_one_down :
  warnings (events (catch_osd_errors (Conn "node1") (conn_logger (Conn "node1"))
                      (prepare_args None None false)
                      (status_world (status_text "5" "4"))))
  = ["there is 1 OSD down"].
Proof. vm_compute. reflexivity. Qed.

(** C6, as stated: with 5 OSDs of which 3 are up, and a count of the
    OSDs that are in that is not a number, [catch_osd_errors] logs no
    warning at all: the conversion of [num_in_osds] raises [ValueError]
    before the comparison of the two other counts. *)
Lemma catch_osd_errors_down_counterexample :
  osd_status_check (lib := unparsed_in_lib) (Conn "node1") "ceph"
    (status_world unparsed_in_status_text)
  = (Ok unparsed_in_status, status_world unparsed_in_status_text,
     [Called (ExecutablePath (Conn "node1") "ceph");
      Called (ProcessCheck (Conn "node1")
                (ceph_osd_command "/usr/bin/ceph" "ceph" "stat"))])
  ∧ py_int (dict_get_default unparsed_in_status "num_osds" (VInt 0)) = Ok 5
  ∧ py_int (dict_get_default unparsed_in_status "num_up_osds" (VInt 0)) = Ok 3
  ∧ 5 > 3
  ∧ catch_osd_errors (lib := unparsed_in_lib) (Conn "node1")
      (conn_logger (Conn "node1")) (prepare_args None None false)
      (status_world unparsed_in_status_text)
    = (Err (Exc ValueError "invalid literal for int() with base 10"),
       status_world unparsed_in_status_text,
       [Logged (conn_logger (Conn "node1")) INFO "checking OSD status...";
        Called (ExecutablePath (Conn "node1") "ceph");
        Called (ProcessCheck (Conn "node1")
                  (ceph_osd_command "/usr/bin/ceph" "ceph" "stat"))])
  ∧ warnings (events (catch_osd_errors (lib := unparsed_in_lib) (Conn "node1")
                        (conn_logger (Conn "node1"))
                        (prepare_args None None false)
                        (status_world unparsed_in_status_text))) = [].
Proof.
  split; [vm_compute; reflexivity|]. split; [vm_compute; reflexivity|].
  split; [vm_compute; reflexivity|]. split; [lia|].
  split; vm_compute; reflexivity.
Qed.

Lemma prepare_single_host_witness :
  respond (OpenRead "ceph.bootstrap-osd.keyring") batch_world
  = (Ok "KEY", batch_world)
  ∧ prepare_host batch_args "KEY" false ∅ batch_world
    = (Err (Exc RuntimeError "connecting to host: node0 resulted in errors"),
       batch_world, [Called (HostsGet (Some "node0") None true)])
  ∧ isa_RuntimeError
      (Exc RuntimeError "connecting to host: node0 resulted in errors") = true
  ∧ prepare batch_args (Config "") false batch_world
    = (Err (Exc GenericError "Failed to create 1 OSDs"), batch_world,
       [Logged LOG DEBUG "Preparing cluster ceph on data device /dev/sdb";
        Called (OpenRead "ceph.bootstrap-osd.keyring");
        Called (HostsGet (Some "node0") None true);
        Logged LOG ERROR "connecting to host: node0 resulted in errors"]).
Proof.
  assert (Hopen : respond (OpenRead "ceph.bootstrap-osd.keyring") batch_world
                  = (Ok "KEY", batch_world)) by (vm_compute; reflexivity).
  assert (Hhost :
    prepare_host batch_args "KEY" false ∅ batch_world
    = (Err (Exc RuntimeError "connecting to host: node0 resulted in errors"),
       batch_world, [Called (HostsGet (Some "node0") None true)]))
    by (vm_compute; reflexivity).
  split; [exact Hopen|]. split; [exact Hhost|]. split; [reflexivity|].
  exact (proj1 (prepare_single_host batch_args (Config "") false _ _ _ _ _ _
                  Hopen Hhost eq_refl)).
Defined.

(** C2, as stated: of a batch of three hosts of which the first cannot
    be reached, [prepare] asks for the first host only; the two others
    are never attempted. *)
Lemma prepare_batch_counterexample :
  (disk batch_args).*1.*1 = [Some "node0"; Some "node1"; Some "node2"]
  ∧ hosts_attempted (events (prepare batch_args (Config "") false batch_world))
    = [Some "node0"]
  ∧ (Some "node1"
     ∉ hosts_attempted (events (prepare batch_args (Config "") false batch_world)))
  ∧ (Some "node2"
     ∉ hosts_attempted (events (prepare batch_args (Config "") false batch_world)))
  ∧ outcome (prepare batch_args (Config "") false batch_world)
    = Err (Exc GenericError "Failed to create 1 OSDs").
Proof.
  assert (Hhosts :
    hosts_attempted (events (prepare batch_args (Config "") false batch_world))
    = [Some "node0"]) by (vm_compute; reflexivity).
  rewrite Hhosts. repeat split; try (vm_compute; reflexivity).
  - intros Hin. apply list_elem_of_singleton in Hin. discriminate Hin.
  - intros Hin. apply list_elem_of_singleton in Hin. discriminate Hin.
Qed.

(** C9, as stated: with the listing line of the specification, which
    starts with the name of the partition, the device of the record of
    OSD 1 is not [/dev/sdb]: it is [ceph], the piece at index 1 of the
    line. *)
Lemma osd_list_device_counterexample :
  ∃ r,
    outcome (gather_osd (Conn "node1") example_tree_dict
               ["active"; "magic"; "whoami"; "journal_uuid"]
               [example_listing_line] "ceph-1"
               (example_world [example_listing_line])) = Ok r
    ∧ record_metadata r = [("device", "ceph"); ("active", "ok"); ("whoami", "1")]
    ∧ ("device", "/dev/sdb") ∉ record_metadata r.
Proof.
  eexists. split; [vm_compute; reflexivity|]. split; [reflexivity|].
  cbn [record_metadata]. intros Hin.
  repeat (apply elem_of_cons in Hin as [Hin|Hin]; [discriminate Hin|]).
  by apply not_elem_of_nil in Hin.
Qed.

(** C9. For the tree with the node of OSD 1 ([osd.1], up, reweight 1.0),
    the directory entry [ceph-1] with its files [whoami] and [active],
    and the listing line of the specification, [osd_list] gathers for
    OSD 1 the path of its directory, the node of the tree (status [up],
    reweight [1.0]) and the metadata [device], [active] and [whoami], in
    this order, where [device] is [ceph], the piece at index 1 of the
    line; it prints them in one block.  When the line starts with a
    space, as the listing tool prints the line of a partition, the
    device is [/dev/sdb1]. *)
Theorem osd_list_example :
  outcome (gather_osd (Conn "node1") example_tree_dict
             ["active"; "magic"; "whoami"; "journal_uuid"]
             [example_listing_line] "ceph-1"
             (example_world [example_listing_line]))
  = Ok {| record_path := "/var/lib/ceph/osd/ceph-1";
          record_blob := example_node;
          record_metadata := [("device", "ceph"); ("active", "ok"); ("whoami", "1")] |}
  ∧ Str.re_split example_listing_line !! 1%nat = Some "ceph"
  ∧ dict_get example_node "status" = VStr "up"
  ∧ dict_get example_node "reweight" = VFloat (WholeFloat 1)
  ∧ outcome (osd_list example_args (Config "") (example_world [example_listing_line]))
    = Ok ()
  ∧ logged (events (osd_list example_args (Config "")
                      (example_world [example_listing_line])))
    = ["----------------------------------------";
       "ceph-1";
       "----------------------------------------";
       "Path           /var/lib/ceph/osd/ceph-1";
       "ID             1";
       "Name           osd.1";
       "Status         up";
       "Reweight       1.0";
       "Device         ceph";
       "Active         ok";
       "Whoami         1";
       "----------------------------------------"]
  ∧ record_metadata <$>
      outcome_value
        (gather_osd (Conn "node1") example_tree_dict
           ["active"; "magic"; "whoami"; "journal_uuid"]
           [indented_listing_line] "ceph-1"
           (example_world [indented_listing_line]))
    = Some [("device", "/dev/sdb1"); ("active", "ok"); ("whoami", "1")].
Proof. repeat split; vm_compute; reflexivity. Qed.

(** * Properties of the rest of the module *)

(** ** get_osd_mount_point, line by line *)

Lemma re_split_from_no_delim (in_run : bool) (s : string) :
  Forall no_delim (Str.re_split_from in_run s).
Proof.
  revert in_run. induction s as [|c s IH]; intros in_run; cbn [Str.re_split_from].
  - repeat constructor.
  - destruct (Str.is_delim c) eqn:Hc.
    + destruct in_run; [apply IH|]. constructor; [constructor | apply IH].
    + specialize (IH false).
      destruct (Str.re_split_from false s) as [|piece pieces].
      * repeat constructor. done.
      * apply Forall_cons in IH as [Hpiece Hpieces].
        constructor; [|done]. by constructor.
Qed.

Lemma scan_parts_some line_parts parts osd_name device :
  scan_parts line_parts parts osd_name = Ok (Some device) →
  line_parts !! 1%nat = Some device ∧ osd_name ∈ parts.
Proof.
  induction parts as [|part parts IH]; cbn [scan_parts]; [done|].
  destruct (line_parts !! 1%nat) as [mount_point|] eqn:Hmp; [|done].
  destruct (decide (osd_name = part)) as [->|Hne].
  - intros [= ->]. split; [done | apply list_elem_of_here].
  - intros [Hdev Hin]%IH. split; [done | by apply list_elem_of_further].
Qed.

(** X1. The scan of a listing stops at the first line that decides it:
    the result for a listing followed by more lines is the result for
    the listing, unless that is [None], in which case it is the result
    for the lines that follow.  Lines after a match or after a failing
    line are never looked at. *)
Theorem get_osd_mount_point_app (output more : list string) (osd_name : string) :
  get_osd_mount_point (output ++ more) osd_name
  = match get_osd_mount_point output osd_name with
    | Ok None => get_osd_mount_point more osd_name
    | r => r
    end.
Proof.
  induction output as [|line output IH]; [done|].
  cbn [app get_osd_mount_point].
  destruct (scan_parts (Str.re_split line) (Str.re_split line) osd_name)
    as [[device|]|e]; [done|exact IH|done].
Qed.

(** X2. A device that [get_osd_mount_point] returns is the piece at
    index 1 of a line of the listing one of whose pieces is the name of
    the OSD; neither the device nor the name holds a comma or a
    whitespace. *)
Theorem get_osd_mount_point_device (output : list string) (osd_name device : string) :
  get_osd_mount_point output osd_name = Ok (Some device) →
  (∃ line, line ∈ output
           ∧ Str.re_split line !! 1%nat = Some device
           ∧ osd_name ∈ Str.re_split line)
  ∧ no_delim device ∧ no_delim osd_name.
Proof.
  intros Hget.
  assert (Hline : ∃ line, line ∈ output
                          ∧ Str.re_split line !! 1%nat = Some device
                          ∧ osd_name ∈ Str.re_split line).
  { induction output as [|line output IH]; [done|].
    cbn [get_osd_mount_point] in Hget.
    destruct (scan_parts (Str.re_split line) (Str.re_split line) osd_name)
      as [[found|]|e] eqn:Hscan.
    - injection Hget as ->. apply scan_parts_some in Hscan as [Hdev Hin].
      exists line. split; [apply list_elem_of_here | done].
    - destruct (IH Hget) as (line' & Hin & Hrest).
      exists line'. split; [by apply list_elem_of_further | done].
    - done. }
  split; [exact Hline|].
  destruct Hline as (line & _ & Hdev & Hname).
  pose proof (re_split_from_no_delim false line) as Hpieces.
  rewrite Forall_forall in Hpieces. split; apply Hpieces.
  - by eapply list_elem_of_lookup_2.
  - done.
Qed.

(** ** Values *)

Section value_facts.

Context {F : Type} {float_ops : PyFloat F} {lib : PyLib F}.

Lemma normalized_value_idemp (v : pyval F) :
  normalized_value (normalized_value v) = normalized_value v.
Proof.
  destruct v as [| | | |s| |]; try done. cbn.
  destruct (String.eqb s "true") eqn:Htrue; [done|].
  destruct (String.eqb s "false") eqn:Hfalse; [done|].
  cbn. by rewrite Htrue, Hfalse.
Qed.

Lemma normalized_value_not_string (v : pyval F) :
  normalized_value v ≠ VStr "true" ∧ normalized_value v ≠ VStr "false".
Proof.
  destruct v as [| | | |s| |]; try done. cbn.
  destruct (String.eqb_spec s "true") as [->|Htrue]; [done|].
  destruct (String.eqb_spec s "false") as [->|Hfalse]; [done|].
  split; congruence.
Qed.

(** X3. The normalization of the booleans keeps the keys of the
    dictionary, leaves no value that is the string [true] or the string
    [false], and changes nothing when it is applied a second time. *)
Theorem fix_booleans_closed (d : gmap string (pyval F)) :
  dom (fix_booleans d) = dom d
  ∧ (∀ k, fix_booleans d !! k ≠ Some (VStr "true")
          ∧ fix_booleans d !! k ≠ Some (VStr "false"))
  ∧ fix_booleans (fix_booleans d) = fix_booleans d.
Proof.
  rewrite !fix_booleans_fmap. split; [apply dom_fmap_L|]. split.
  - intros k. rewrite lookup_fmap.
    destruct (d !! k) as [v|]; [|done]. cbn.
    destruct (normalized_value_not_string v). split; congruence.
  - rewrite <-map_fmap_compose. apply map_fmap_ext.
    intros k v _. apply normalized_value_idemp.
Qed.

Lemma last_cons {A} (x d : A) (l : list A) : List.last (x :: l) d = List.last l x.
Proof.
  revert x d. induction l as [|y l IH]; intros x d; [done|].
  change (List.last (x :: y :: l) d) with (List.last (y :: l) d).
  by rewrite (IH y d), (IH y x).
Qed.

Lemma run_find_blob (nodes : list (pyval F)) (_id : Z)
    (json_blob : gmap string (pyval F)) :
  find_blob nodes _id json_blob
  = if forallb is_dict nodes
    then Ok (List.last (omap (matching_blob _id) nodes) json_blob)
    else Err (Exc AttributeError "object has no attribute 'get'").
Proof.
  revert json_blob. induction nodes as [|node nodes IH]; intros json_blob; [done|].
  destruct node as [| | | | | |blob]; try done.
  cbn [find_blob forallb is_dict andb]. rewrite IH.
  destruct (forallb is_dict nodes); [|done].
  cbn [omap list_omap matching_blob].
  destruct (py_eq_int (dict_get blob "id") _id); [|done].
  by rewrite last_cons.
Qed.

(** X4. The search of the tree for the node of an OSD fails as soon as
    one node is not a dictionary, even when another node matches;
    otherwise it returns the last node whose [id] equals the id of the
    OSD, and the dictionary it was started with when no node matches. *)
Theorem find_blob_last (nodes : list (pyval F)) (_id : Z)
    (json_blob : gmap string (pyval F)) :
  find_blob nodes _id json_blob
  = if forallb is_dict nodes
    then Ok (List.last (omap (matching_blob _id) nodes) json_blob)
    else Err (Exc AttributeError "object has no attribute 'get'").
Proof. apply run_find_blob. Qed.

End value_facts.

(** ** More on running the monad *)

Section running_more.

Context {W : Type} {gateway : Gateway W}.

Lemma run_bind_inv {A B} (m : M W A) (f : A → M W B) w b w' evs :
  (m ≫= f) w = (Ok b, w', evs) →
  ∃ a w1 evs1 evs2,
    m w = (Ok a, w1, evs1) ∧ f a w1 = (Ok b, w', evs2) ∧ evs = evs1 ++ evs2.
Proof.
  rewrite run_bind. destruct (m w) as [[[a|e] w1] evs1]; [|done].
  destruct (f a w1) as [[r w2] evs2] eqn:Hf. intros [= -> -> <-].
  by exists a, w1, evs1, evs2.
Qed.

Lemma emits_for_each {A} P (l : list A) (body : A → M W unit) :
  (∀ x, emits P (body x)) → emits P (for_each l body).
Proof.
  intros Hb. induction l as [|x l IH]; [done|]. cbn [for_each].
  apply emits_bind; [apply Hb | intros _; apply IH].
Qed.

Lemma emits_for_fold {A B} P (l : list A) (acc : B) (body : B → A → M W B) :
  (∀ acc x, emits P (body acc x)) → emits P (for_fold l acc body).
Proof.
  intros Hb. revert acc. induction l as [|x l IH]; intros acc; [done|].
  cbn [for_fold]. apply emits_bind; [apply Hb | intros acc'; apply IH].
Qed.

Lemma emits_elem_of {A} P (m : M W A) w ev :
  emits P m → ev ∈ events (m w) → P ev = true.
Proof.
  intros Hm Hin. specialize (Hm w). rewrite forallb_forall in Hm.
  apply Hm. by apply list_elem_of_In.
Qed.

End running_more.

(** ** The status queries *)

Section status_facts.

Context {F : Type} {float_ops : PyFloat F} {lib : PyLib F}
    {W : Type} {gateway : Gateway W}.

Implicit Types (w : W) (a : args) (c : conn).

(** X5. When the output of the query is not JSON, both [osd_tree] and
    [osd_status_check] return the empty dictionary, whatever the error
    output and the exit code of the command are, and [catch_osd_errors]
    logs no warning. *)
Theorem status_malformed c (lg : logger) a w (exe : string) w1
    (out err : list string) (code : Z) w2 (what : string) :
  let calls := [Called (ExecutablePath c "ceph");
                Called (ProcessCheck c (ceph_osd_command exe (cluster a) what))] in
  respond (ExecutablePath c "ceph") w = (Ok exe, w1) →
  respond (ProcessCheck c (ceph_osd_command exe (cluster a) what)) w1
  = (Ok (Some (out, err, code)), w2) →
  json_loads (String.concat "" out) = None →
  (what = "tree" → osd_tree c (cluster a) w = (Ok ∅, w2, calls))
  ∧ (what = "stat" →
     osd_status_check c (cluster a) w = (Ok ∅, w2, calls)
     ∧ catch_osd_errors c lg a w
       = (Ok (), w2, Logged lg INFO "checking OSD status..." :: calls)).
Proof.
  intros calls Hexe Hcheck Hjson. split.
  - intros ->. rewrite (run_osd_tree _ _ _ _ _ _ _ _ _ Hexe Hcheck).
    cbn zeta. by rewrite run_load_json_status, Hjson.
  - intros ->.
    assert (Hstatus : osd_status_check c (cluster a) w = (Ok ∅, w2, calls)).
    { rewrite (run_osd_status_check _ _ _ _ _ _ _ Hexe Hcheck).
      cbn zeta. by rewrite run_load_json_status, Hjson. }
    split; [exact Hstatus|].
    unfold catch_osd_errors. rewrite run_bind. cbn [log].
    rewrite run_bind, Hstatus. unfold dict_get_default.
    rewrite !lookup_empty. reflexivity.
Qed.

(** X6. When the output of the query is JSON but not an object, neither
    function degrades: both raise [AttributeError], and so does
    [catch_osd_errors], after its info record and without a warning. *)
Theorem status_not_an_object c (lg : logger) a w (exe : string) w1
    (out err : list string) (code : Z) w2 (what : string) (v : pyval F) :
  let calls := [Called (ExecutablePath c "ceph");
                Called (ProcessCheck c (ceph_osd_command exe (cluster a) what))] in
  let error := Exc AttributeError "object has no attribute 'items'" in
  respond (ExecutablePath c "ceph") w = (Ok exe, w1) →
  respond (ProcessCheck c (ceph_osd_command exe (cluster a) what)) w1
  = (Ok (Some (out, err, code)), w2) →
  json_loads (String.concat "" out) = Some v →
  is_dict v = false →
  (what = "tree" → osd_tree c (cluster a) w = (Err error, w2, calls))
  ∧ (what = "stat" →
     osd_status_check c (cluster a) w = (Err error, w2, calls)
     ∧ catch_osd_errors c lg a w
       = (Err error, w2, Logged lg INFO "checking OSD status..." :: calls)).
Proof.
  intros calls error Hexe Hcheck Hjson Hv.
  assert (Hload : load_json_status out w2 = (Err error, w2, [])).
  { rewrite run_load_json_status, Hjson. by destruct v. }
  split.
  - intros ->. rewrite (run_osd_tree _ _ _ _ _ _ _ _ _ Hexe Hcheck).
    cbn zeta. by rewrite Hload.
  - intros ->.
    assert (Hstatus : osd_status_check c (cluster a) w = (Err error, w2, calls)).
    { rewrite (run_osd_status_check _ _ _ _ _ _ _ Hexe Hcheck).
      cbn zeta. by rewrite Hload. }
    split; [exact Hstatus|].
    unfold catch_osd_errors. rewrite run_bind. cbn [log].
    by rewrite run_bind, Hstatus.
Qed.

(** X7. [osd_tree] has no guard against the timeout of the transport:
    when the query is answered with [None] instead of a triple, it
    raises [TypeError].  [osd_list] then ends with that [TypeError] right
    after the query on the first monitor: the connection to the monitor
    is not closed and no other host is contacted. *)
Theorem osd_tree_timeout a (cfg : config) w0 (mon_host : string)
    (others : list string) w0' (d : distro) w (exe : string) w1 w2 :
  let c := distro_conn d in
  let calls := [Called (ExecutablePath c "ceph");
                Called (ProcessCheck c (ceph_osd_command exe (cluster a) "tree"))] in
  let error := Exc TypeError "cannot unpack non-iterable NoneType object" in
  respond (GetMonInitialMembers a cfg) w0 = (Ok (mon_host :: others), w0') →
  respond (HostsGet (Some mon_host) (username a) true) w0' = (Ok d, w) →
  respond (ExecutablePath c "ceph") w = (Ok exe, w1) →
  respond (ProcessCheck c (ceph_osd_command exe (cluster a) "tree")) w1
  = (Ok None, w2) →
  osd_tree c (cluster a) w = (Err error, w2, calls)
  ∧ osd_list a cfg w0
    = (Err error, w2,
       Called (GetMonInitialMembers a cfg)
       :: Called (HostsGet (Some mon_host) (username a) true) :: calls).
Proof.
  intros c calls error Hmon Hget Hexe Hcheck.
  assert (Htree : osd_tree c (cluster a) w = (Err error, w2, calls)).
  { unfold osd_tree. rewrite run_bind, run_perform, Hexe. cbn [fst snd].
    fold (ceph_osd_command exe (cluster a) "tree").
    by rewrite !run_bind, run_perform, Hcheck. }
  split; [exact Htree|].
  unfold osd_list. rewrite run_bind, run_perform, Hmon. cbn [fst snd].
  rewrite run_bind. cbn [mret M_ret].
  rewrite run_bind, run_perform, Hget. cbn [fst snd].
  fold c. by rewrite run_bind, Htree.
Qed.

(** X8. With a status whose three counts convert to integers,
    [catch_osd_errors] returns normally and logs, after the query and in
    this order: that OSDs are down when fewer are up than there are,
    that OSDs are out when fewer are in than there are, that the OSDs
    are full when [full] is true, and that they are near full when
    [nearfull] is true; it logs nothing else.  The text for the OSDs
    that are out is in the singular exactly for one OSD. *)
Theorem catch_osd_errors_warnings c (lg : logger) a w
    (status : gmap string (pyval F)) w1 (evs : list event)
    (osds up_osds in_osds : Z) :
  let expected :=
    (if osds >? up_osds then [there_are (osds - up_osds) "down"] else [])
    ++ (if osds >? in_osds then [there_are (osds - in_osds) "out"] else [])
    ++ (if py_bool (dict_get_default status "full" (VBool false))
        then ["OSDs are full!"] else [])
    ++ (if py_bool (dict_get_default status "nearfull" (VBool false))
        then ["OSDs are near full!"] else []) in
  osd_status_check c (cluster a) w = (Ok status, w1, evs) →
  py_int (dict_get_default status "num_osds" (VInt 0)) = Ok osds →
  py_int (dict_get_default status "num_up_osds" (VInt 0)) = Ok up_osds →
  py_int (dict_get_default status "num_in_osds" (VInt 0)) = Ok in_osds →
  catch_osd_errors c lg a w
  = (Ok (), w1,
     Logged lg INFO "checking OSD status..." :: evs
     ++ (Logged lg WARNING <$> expected))
  ∧ ∀ difference,
      there_are difference "out"
      = if decide (difference = 1) then "there is 1 OSD out"
        else "there are " +:+ pretty difference +:+ " OSDs out".
Proof.
  intros expected Hstatus Hosds Hup Hin.
  split; [|intros difference; apply (there_are_cases difference "out")].
  unfold catch_osd_errors, mbind, M_bind, log, lift, mret, M_ret.
  cbv beta. rewrite Hstatus. cbv beta iota.
  rewrite Hosds. cbv beta iota. rewrite Hup. cbv beta iota.
  rewrite Hin. cbv beta iota zeta. unfold expected.
  destruct (osds >? up_osds); destruct (osds >? in_osds);
    destruct (py_bool (dict_get_default status "full" (VBool false)));
    destruct (py_bool (dict_get_default status "nearfull" (VBool false)));
    reflexivity.
Qed.

(** X9. The three counts are converted before anything is reported: when
    one of them does not convert to an integer, [catch_osd_errors] raises
    the exception of the first conversion that fails and logs no
    warning, whatever the flags [full] and [nearfull] are. *)
Theorem catch_osd_errors_bad_count c (lg : logger) a w
    (status : gmap string (pyval F)) w1 (evs : list event) (e : pyexc) :
  let num_osds := py_int (dict_get_default status "num_osds" (VInt 0)) in
  let num_up_osds := py_int (dict_get_default status "num_up_osds" (VInt 0)) in
  let num_in_osds := py_int (dict_get_default status "num_in_osds" (VInt 0)) in
  osd_status_check c (cluster a) w = (Ok status, w1, evs) →
  num_osds = Err e
  ∨ (∃ osds, num_osds = Ok osds ∧ num_up_osds = Err e)
  ∨ (∃ osds up_osds,
       num_osds = Ok osds ∧ num_up_osds = Ok up_osds ∧ num_in_osds = Err e) →
  catch_osd_errors c lg a w
  = (Err e, w1, Logged lg INFO "checking OSD status..." :: evs).
Proof.
  intros num_osds num_up_osds num_in_osds Hstatus Hbad.
  unfold catch_osd_errors, mbind, M_bind, log, lift, mret, M_ret.
  cbv beta. rewrite Hstatus. cbv beta iota.
  fold num_osds num_up_osds num_in_osds.
  destruct Hbad as [->|[(osds & -> & ->)|(osds & up_osds & -> & -> & ->)]];
    cbn; by rewrite ?app_nil_r.
Qed.

Lemma catch_osd_errors_queries c (lg : logger) a :
  emits is_query (catch_osd_errors c lg a).
Proof.
  unfold catch_osd_errors.
  apply emits_bind; [apply emits_log; reflexivity|intros _].
  apply emits_bind; [|intros status; repeat emits_step].
  unfold osd_status_check, load_json_status. repeat emits_step.
Qed.

(** X10. The check of the status is a pure query: in every world, all
    that [catch_osd_errors] does is to log, to look an executable up and
    to run captured commands; it opens no session, writes no file and
    runs nothing through [process.run]. *)
Theorem catch_osd_errors_only_queries c (lg : logger) a w :
  Forall (λ ev, is_query ev = true ∧ is_hosts_get ev = false
                ∧ is_write ev = false ∧ is_process_run ev = false)
    (events (catch_osd_errors c lg a w)).
Proof.
  apply Forall_forall. intros ev Hin.
  assert (Hq : is_query ev = true)
    by (eapply emits_elem_of; [apply catch_osd_errors_queries | exact Hin]).
  split; [exact Hq|]. destruct ev as [R call|]; [|done].
  by destruct call.
Qed.

End status_facts.

(** ** prepare_disk *)

Section prepare_disk_facts.

Context {F : Type} {float_ops : PyFloat F} {lib : PyLib F}
    {W : Type} {gateway : Gateway W}.

Implicit Types (w : W) (a : args) (c : conn).

Lemma dispatched_app (evs1 evs2 : list event) :
  dispatched (evs1 ++ evs2) = dispatched evs1 ++ dispatched evs2.
Proof. apply omap_app. Qed.

(** The run of [prepare_disk], by cases. *)
Lemma run_prepare_disk c (cluster data : string) (journal : option string)
    (zap : bool) (fs_type : string) (dmcrypt : bool)
    (dmcrypt_dir storetype : string) (block_wal block_db : option string)
    (create : bool) w :
  prepare_disk c cluster data journal zap fs_type dmcrypt dmcrypt_dir storetype
    block_wal block_db create w
  = let lookup := Called (ExecutablePath c "ceph-volume") in
    match respond (ExecutablePath c "ceph-volume") w with
    | (Err e, w') => (Err e, w', [lookup])
    | (Ok exe, w') =>
        let args := [exe; "--cluster"; cluster; "lvm";
                     if create then "create" else "prepare";
                     "--" +:+ storetype; "--data"; data] in
        let run argv :=
          ((respond (ProcessRun c argv) w').1, (respond (ProcessRun c argv) w').2,
           [lookup; Called (ProcessRun c argv)]) in
        if zap || dmcrypt then
          (Err (Exc NameError "name 'logger' is not defined"), w', [lookup])
        else if String.eqb storetype "bluestore" then
          run ((args
                ++ (if truthy block_wal then ["--block.wal"; str_opt block_wal]
                    else []))
               ++ (if truthy block_db then ["--block.db"; str_opt block_db]
                   else []))
        else if String.eqb storetype "filestore" then
          if truthy journal then run (args ++ ["--journal"; str_opt journal])
          else (Err (Exc RuntimeError
                  "A journal lv or GPT partition must be specified when using filestore"),
                w', [lookup])
        else run args
    end.
Proof.
  unfold prepare_disk. rewrite run_bind, run_perform.
  destruct (respond (ExecutablePath c "ceph-volume") w) as [[exe|e] w'];
    [|reflexivity].
  cbn [fst snd].
  unfold undefined_logger_warning, raise, mbind, M_bind, mret, M_ret, perform.
  destruct zap, dmcrypt; try reflexivity. cbn [orb].
  destruct (String.eqb storetype "bluestore").
  - destruct (truthy block_wal), (truthy block_db); cbn;
      rewrite ?app_nil_r;
      match goal with
      | |- context [respond (ProcessRun c ?argv) w'] =>
          by destruct (respond (ProcessRun c argv) w')
      end.
  - destruct (String.eqb storetype "filestore").
    + destruct (truthy journal); cbn; [|reflexivity].
      match goal with
      | |- context [respond (ProcessRun c ?argv) w'] =>
          by destruct (respond (ProcessRun c argv) w')
      end.
    + cbn.
      match goal with
      | |- context [respond (ProcessRun c ?argv) w'] =>
          by destruct (respond (ProcessRun c argv) w')
      end.
Qed.

(** X11. With [zap] and [dmcrypt] unset and [ceph-volume] found, the one
    command that [prepare_disk] runs is, for bluestore,
    [ceph-volume --cluster <cluster> lvm <mode> --bluestore --data <data>]
    followed by [--block.wal <wal>] and [--block.db <db>] for those of the
    two that are given, whatever the journal is; and for filestore with a
    journal, the same with [--filestore] followed by [--journal <journal>],
    whatever the WAL and DB devices are. *)
Theorem prepare_disk_argv c (cluster data fs_type dmcrypt_dir : string)
    (journal block_wal block_db : option string)
    (journal_head : ascii) (journal_tail : string) (create : bool) w :
  let bluestore :=
    prepare_disk c cluster data journal false fs_type false dmcrypt_dir
      "bluestore" block_wal block_db create w in
  let filestore :=
    prepare_disk c cluster data (Some (String journal_head journal_tail)) false
      fs_type false dmcrypt_dir "filestore" block_wal block_db create w in
  match respond (ExecutablePath c "ceph-volume") w with
  | (Ok exe, _) =>
      dispatched (events bluestore)
      = [(c, [exe; "--cluster"; cluster; "lvm";
              if create then "create" else "prepare"; "--bluestore";
              "--data"; data]
             ++ (if truthy block_wal then ["--block.wal"; str_opt block_wal]
                 else [])
             ++ (if truthy block_db then ["--block.db"; str_opt block_db]
                 else []))]
      ∧ dispatched (events filestore)
        = [(c, [exe; "--cluster"; cluster; "lvm";
                if create then "create" else "prepare"; "--filestore";
                "--data"; data; "--journal"; String journal_head journal_tail])]
  | (Err _, _) => dispatched (events bluestore) = []
                  ∧ dispatched (events filestore) = []
  end.
Proof.
  intros bluestore filestore. unfold bluestore, filestore.
  rewrite !run_prepare_disk.
  destruct (respond (ExecutablePath c "ceph-volume") w) as [[exe|e] w']; [|done].
  cbn. by destruct (truthy block_wal), (truthy block_db).
Qed.

(** X12. The modes [create] and [prepare] differ by one word: whatever the
    request and the world, the command that a [create] run hands to
    [process.run] is the command of the [prepare] run with [create] in
    place of [prepare] at index 4, and a run in one mode dispatches a
    command exactly when the run in the other mode does. *)
Theorem prepare_disk_create_flag c (cluster data : string)
    (journal : option string) (zap : bool) (fs_type : string) (dmcrypt : bool)
    (dmcrypt_dir storetype : string) (block_wal block_db : option string) w :
  let run create :=
    prepare_disk c cluster data journal zap fs_type dmcrypt dmcrypt_dir
      storetype block_wal block_db create w in
  dispatched (events (run true))
  = (λ '(c', argv), (c', <[4%nat := "create"]> argv))
      <$> dispatched (events (run false))
  ∧ Forall (λ '(c', argv), argv !! 4%nat = Some "prepare")
      (dispatched (events (run false))).
Proof.
  intros run. unfold run. rewrite !run_prepare_disk.
  destruct (respond (ExecutablePath c "ceph-volume") w) as [[exe|e] w'];
    [|by split].
  cbn zeta. destruct (zap || dmcrypt); [by split|].
  destruct (String.eqb storetype "bluestore"); [by split; [|repeat constructor]|].
  destruct (String.eqb storetype "filestore"); [|by split; [|repeat constructor]].
  destruct (truthy journal); by split; [|repeat constructor].
Qed.

(** X13. [prepare_disk] hands at most one command to [process.run], and
    none at all when [zap] or [dmcrypt] is set: the flag [--dmcrypt] is
    appended to the arguments, but the arguments are never sent. *)
Theorem prepare_disk_dispatch c (cluster data : string)
    (journal : option string) (zap : bool) (fs_type : string) (dmcrypt : bool)
    (dmcrypt_dir storetype : string) (block_wal block_db : option string)
    (create : bool) w :
  let run zap dmcrypt :=
    prepare_disk c cluster data journal zap fs_type dmcrypt dmcrypt_dir
      storetype block_wal block_db create w in
  (List.length (dispatched (events (run zap dmcrypt))) ≤ 1)%nat
  ∧ dispatched (events (run zap true)) = []
  ∧ dispatched (events (run true dmcrypt)) = [].
Proof.
  intros run. unfold run. rewrite !run_prepare_disk.
  destruct (respond (ExecutablePath c "ceph-volume") w) as [[exe|e] w'];
    [|by repeat split; cbn; lia].
  cbn zeta. rewrite orb_true_r. cbn [orb].
  split; [|done].
  destruct (zap || dmcrypt); [cbn; lia|].
  destruct (String.eqb storetype "bluestore"); [cbn; lia|].
  destruct (String.eqb storetype "filestore"); [|cbn; lia].
  destruct (truthy journal); cbn; lia.
Qed.

End prepare_disk_facts.

(** ** The order of the calls of prepare *)

Section ranked_facts.

Context {W : Type} {gateway : Gateway W}.

Lemma phases_app (evs1 evs2 : list event) :
  phases (evs1 ++ evs2) = phases evs1 ++ phases evs2.
Proof. apply omap_app. Qed.

Lemma sorted_app (l1 l2 : list nat) :
  (∀ p1 p2, p1 ∈ l1 → p2 ∈ l2 → (p1 < p2)%nat) →
  StronglySorted lt l1 → StronglySorted lt l2 → StronglySorted lt (l1 ++ l2).
Proof.
  intros Hlt Hs1 Hs2. induction Hs1 as [|p l1 Hs1 IH Hp]; [done|].
  cbn [app]. constructor.
  - apply IH. intros p1 p2 H1 H2. apply Hlt; [by apply list_elem_of_further|done].
  - apply Forall_app. split; [done|]. apply Forall_forall. intros p2 H2.
    apply Hlt; [apply list_elem_of_here|done].
Qed.

Lemma ranked_nil {A} lo hi (m : M W A) :
  (∀ w, phases (events (m w)) = []) → ranked lo hi m.
Proof. intros Hm w. rewrite Hm. split; constructor. Qed.

Lemma ranked_ret {A} lo hi (a : A) : ranked lo hi (mret a : M W A).
Proof. by apply ranked_nil. Qed.

Lemma ranked_raise {A} lo hi e : ranked lo hi (raise e : M W A).
Proof. by apply ranked_nil. Qed.

Lemma ranked_lift {A} lo hi (r : result A) : ranked lo hi (lift r : M W A).
Proof. by apply ranked_nil. Qed.

Lemma ranked_log lo hi lg lvl msg : ranked lo hi (log lg lvl msg : M W unit).
Proof. by apply ranked_nil. Qed.

Lemma ranked_perform {R} lo hi (c : call R) p :
  phase (Called c) = Some p → (lo ≤ p < hi)%nat → ranked lo hi (perform c).
Proof.
  intros Hp Hbounds w. rewrite run_perform. unfold events. cbn [snd].
  replace (phases [Called c]) with [p]
    by (unfold phases; cbn [omap list_omap]; by rewrite Hp).
  split; repeat constructor; lia.
Qed.

Lemma ranked_weaken {A} lo hi lo' hi' (m : M W A) :
  ranked lo hi m → (lo' ≤ lo)%nat → (hi ≤ hi')%nat → ranked lo' hi' m.
Proof.
  intros Hm Hlo Hhi w. destruct (Hm w) as [Hsorted Hbounds].
  split; [done|]. eapply Forall_impl; [exact Hbounds|]. intros p ?. cbn in *. lia.
Qed.

Lemma ranked_bind {A B} lo mid hi (m : M W A) (f : A → M W B) :
  ranked lo mid m → (∀ a, ranked mid hi (f a)) → (lo ≤ mid ≤ hi)%nat →
  ranked lo hi (m ≫= f).
Proof.
  intros Hm Hf Hmid w. rewrite run_bind. destruct (Hm w) as [Hs1 Hb1].
  destruct (m w) as [[[a|e] w'] evs1]; unfold events in *; cbn [snd] in *.
  2: { split; [done|]. eapply Forall_impl; [exact Hb1|]. intros p ?. cbn in *. lia. }
  destruct (Hf a w') as [Hs2 Hb2].
  destruct (f a w') as [[r w''] evs2]; unfold events in *; cbn [snd] in *.
  rewrite phases_app. rewrite Forall_forall in Hb1, Hb2. split.
  - apply sorted_app; [|done..].
    intros p1 p2 H1%Hb1 H2%Hb2. lia.
  - apply Forall_app. split; apply Forall_forall; intros p Hp.
    + apply Hb1 in Hp. lia.
    + apply Hb2 in Hp. lia.
Qed.

Lemma ranked_bind_perform {A R} lo hi (c : call R) (f : R → M W A) p :
  phase (Called c) = Some p → (lo ≤ p < hi)%nat →
  (∀ r, ranked (S p) hi (f r)) → ranked lo hi (perform c ≫= f).
Proof.
  intros Hp Hbounds Hf. apply (ranked_bind lo (S p) hi); [|done|lia].
  eapply ranked_perform; [done|lia].
Qed.

Lemma ranked_bind_same {A B} lo hi (m : M W A) (f : A → M W B) :
  ranked lo lo m → (∀ a, ranked lo hi (f a)) → (lo ≤ hi)%nat →
  ranked lo hi (m ≫= f).
Proof. intros Hm Hf Hle. apply (ranked_bind lo lo hi); [done..|lia]. Qed.

Lemma ranked_try_except {A} lo mid hi (body : M W A) handler :
  ranked lo mid body →
  (∀ e h, handler e = Some h → ranked mid hi h) → (lo ≤ mid ≤ hi)%nat →
  ranked lo hi (try_except body handler).
Proof.
  intros Hbody Hh Hmid w. unfold try_except. destruct (Hbody w) as [Hs1 Hb1].
  destruct (body w) as [[[a|e] w'] evs1]; unfold events in *; cbn [snd] in *.
  { split; [done|]. eapply Forall_impl; [exact Hb1|]. intros p ?. cbn in *. lia. }
  destruct (handler e) as [h|] eqn:He.
  2: { split; [done|]. eapply Forall_impl; [exact Hb1|]. intros p ?. cbn in *. lia. }
  destruct (Hh e h He w') as [Hs2 Hb2].
  destruct (h w') as [[r w''] evs2]; unfold events in *; cbn [snd] in *.
  rewrite phases_app. rewrite Forall_forall in Hb1, Hb2. split.
  - apply sorted_app; [|done..].
    intros p1 p2 H1%Hb1 H2%Hb2. lia.
  - apply Forall_app. split; apply Forall_forall; intros p Hp.
    + apply Hb1 in Hp. lia.
    + apply Hb2 in Hp. lia.
Qed.

End ranked_facts.

Ltac ranked_handler :=
  let e := fresh "e" in
  let h := fresh "h" in
  let Hh := fresh "Hh" in
  intros e h Hh;
  repeat match type of Hh with
         | context [match ?x with _ => _ end] => destruct x
         | context [if ?b then _ else _] => destruct b
         end;
  try discriminate Hh;
  injection Hh as <-.

Ltac ranked_step :=
  lazymatch goal with
  | |- ranked _ _ (mbind ?f (perform ?c)) =>
      let p := eval cbv in (phase (Called c)) in
      lazymatch p with
      | Some ?n =>
          apply (ranked_bind_perform _ _ c f n); [reflexivity | lia | intros ?]
      end
  | |- ranked _ _ (mbind _ _) =>
      apply ranked_bind_same; [ | intros ? | lia]
  | |- ranked _ _ (perform ?c) =>
      let p := eval cbv in (phase (Called c)) in
      lazymatch p with
      | Some ?n => apply (ranked_perform _ _ c n); [reflexivity | lia]
      end
  | |- ranked _ _ (mret _) => apply ranked_ret
  | |- ranked _ _ (raise _) => apply ranked_raise
  | |- ranked _ _ (undefined_logger_warning _) => apply ranked_raise
  | |- ranked _ _ (lift _) => apply ranked_lift
  | |- ranked _ _ (unpack3 _) => unfold unpack3
  | |- ranked _ _ (log _ _ _) => apply ranked_log
  | |- ranked _ _ (if ?b then _ else _) => destruct b
  | |- ranked _ _ (match ?x with _ => _ end) => destruct x
  | |- ranked _ _ (let _ := _ in _) => cbv zeta
  end.

Section prepare_order.

Context {F : Type} {float_ops : PyFloat F} {lib : PyLib F}
    {W : Type} {gateway : Gateway W}.

Implicit Types (w : W) (a : args) (c : conn).

Lemma get_bootstrap_osd_key_ranked (cluster : string) :
  ranked (W:=W) 0 1 (get_bootstrap_osd_key cluster).
Proof.
  unfold get_bootstrap_osd_key.
  apply (ranked_try_except 0 1 1); [repeat ranked_step| |lia].
  ranked_handler. apply ranked_raise.
Qed.

Lemma create_osd_keyring_ranked c cluster key :
  ranked 4 6 (create_osd_keyring c cluster key).
Proof. unfold create_osd_keyring. repeat ranked_step. Qed.

Lemma prepare_disk_ranked c cluster data journal zap fs_type dmcrypt
    dmcrypt_dir storetype block_wal block_db create :
  ranked 6 8
    (prepare_disk c cluster data journal zap fs_type dmcrypt dmcrypt_dir
       storetype block_wal block_db create).
Proof. unfold prepare_disk. repeat ranked_step. Qed.

Lemma osd_status_check_ranked c cluster :
  ranked 9 11 (osd_status_check c cluster).
Proof.
  unfold osd_status_check. ranked_step.
  apply (ranked_bind 10 11 11); [| |lia].
  - apply (ranked_try_except 10 11 11); [| |lia].
    + apply (ranked_bind 10 11 11); [repeat ranked_step| |lia].
      intros t. apply ranked_ret.
    + ranked_handler. apply ranked_ret.
  - intros checked. unfold load_json_status. repeat ranked_step.
Qed.

Lemma catch_osd_errors_ranked c (lg : logger) a :
  ranked 9 11 (catch_osd_errors c lg a).
Proof.
  unfold catch_osd_errors. ranked_step; [apply ranked_log|].
  apply (ranked_bind 9 11 11); [apply osd_status_check_ranked| |lia].
  intros status. repeat ranked_step.
Qed.

Lemma prepare_host_ranked a key create :
  ranked 1 12 (prepare_host a key create ∅).
Proof.
  unfold prepare_host. destruct (data a) as [data_|]; [|apply ranked_raise].
  ranked_step. ranked_step; [apply ranked_log|].
  apply (ranked_bind 2 6 12); [| |lia].
  { destruct (bool_decide (host a ∉ (∅ : gset (option string))));
      [|apply ranked_ret].
    cbv zeta. ranked_step; [apply ranked_log|]. ranked_step. ranked_step.
    eapply ranked_weaken; [apply create_osd_keyring_ranked|lia..]. }
  intros _. ranked_step; [apply ranked_log|].
  apply (ranked_bind 6 8 12); [apply prepare_disk_ranked| |lia].
  intros _. ranked_step.
  apply (ranked_bind 9 11 12); [apply catch_osd_errors_ranked| |lia].
  intros _. ranked_step; [apply ranked_log|]. ranked_step.
Qed.

(** X14. In every run of [prepare], whatever fails, the calls come in
    one order and none comes twice: the read of the local key, then
    [hosts.get], the load of the configuration, its write on the host,
    the check for the keyring, its write, the lookup of [ceph-volume],
    the command run through [process.run], the sleep, the lookup of
    [ceph], the status query and the exit of the connection.  A run
    makes no other call. *)
Theorem prepare_order a (cfg : config) (create : bool) w :
  StronglySorted lt (phases (events (prepare a cfg create w)))
  ∧ Forall (λ p, (p < 12)%nat) (phases (events (prepare a cfg create w))).
Proof.
  assert (Hranked : ranked 0 12 (prepare a cfg create)).
  { unfold prepare. ranked_step; [apply ranked_log|].
    apply (ranked_bind 0 1 12); [apply get_bootstrap_osd_key_ranked| |lia].
    intros key. cbv zeta.
    apply (ranked_bind 1 12 12); [| |lia].
    - apply (ranked_try_except 1 12 12); [| |lia].
      + apply (ranked_bind 1 12 12); [apply prepare_host_ranked| |lia].
        intros _. apply ranked_ret.
      + ranked_handler. repeat ranked_step.
    - intros errors. repeat ranked_step. }
  destruct (Hranked w) as [Hsorted Hbounds]. split; [done|].
  eapply Forall_impl; [exact Hbounds|]. intros p ?. cbn in *. lia.
Qed.

End prepare_order.

(** ** What prepare writes *)

Section prepare_writes.

Context {F : Type} {float_ops : PyFloat F} {lib : PyLib F}
    {W : Type} {gateway : Gateway W}.

Implicit Types (w : W) (a : args) (c : conn).

Lemma prepare_host_expected_writes a key create :
  emits (expected_write a key) (prepare_host a key create ∅).
Proof.
  unfold prepare_host, create_osd_keyring, prepare_disk, catch_osd_errors,
    osd_status_check, load_json_status.
  repeat first
    [ emits_step
    | apply emits_perform; apply bool_decide_eq_true_2; done ].
Qed.

(** X15. What [prepare] writes on the host comes from the control node:
    every keyring it writes is written at
    [/var/lib/ceph/bootstrap-osd/<cluster>.keyring] with the content read
    from the local file of the bootstrap key, and every configuration it
    writes is written for the cluster of the command line with its
    [overwrite_conf] flag. *)
Theorem prepare_writes a (cfg : config) (create : bool) w (key : string) w1 :
  respond (OpenRead (cluster a +:+ ".bootstrap-osd.keyring")) w = (Ok key, w1) →
  (∀ c path key',
     Called (WriteKeyring c path key') ∈ events (prepare a cfg create w) →
     path = "/var/lib/ceph/bootstrap-osd/" +:+ cluster a +:+ ".keyring"
     ∧ key' = key)
  ∧ (∀ c cluster' conf_data overwrite,
       Called (WriteConf c cluster' conf_data overwrite)
       ∈ events (prepare a cfg create w) →
       cluster' = cluster a ∧ overwrite = overwrite_conf a).
Proof.
  intros Hopen.
  assert (Hall : ∀ ev, ev ∈ events (prepare a cfg create w) →
                       expected_write a key ev = true).
  { intros ev. unfold prepare, get_bootstrap_osd_key.
    rewrite run_bind. cbn [log]. rewrite run_bind. unfold try_except at 1.
    rewrite run_perform, Hopen. cbn [fst snd].
    match goal with
    | |- context [mbind ?f ?m w1] =>
        assert (Hrest : emits (expected_write a key) (mbind f m))
    end.
    { apply emits_bind.
      - apply emits_try_except.
        + apply emits_bind; [apply prepare_host_expected_writes|].
          intros _. apply emits_ret.
        + emits_handler. repeat emits_step.
      - intros errors. repeat emits_step. }
    match goal with
    | |- context [mbind ?f ?m w1] =>
        pose proof (emits_elem_of _ (mbind f m) w1 ev Hrest) as Hin;
        destruct (mbind f m w1) as [[r w2] evs]
    end.
    unfold events in *. cbn [snd app] in *.
    rewrite !elem_of_cons. intros [->|[->|Hev]]; [done|done|by apply Hin]. }
  split.
  - intros c path key' Hin. apply Hall in Hin. cbn in Hin.
    by apply bool_decide_eq_true_1 in Hin.
  - intros c cluster' conf_data overwrite Hin. apply Hall in Hin. cbn in Hin.
    by apply bool_decide_eq_true_1 in Hin.
Qed.

(** X16. Without a data device, [prepare] contacts no host: after the
    read of the key it raises [NeedDiskError] for [args.host], which is
    counted as one failed OSD when that class derives from
    [RuntimeError] and leaves [prepare] as it is otherwise. *)
Theorem prepare_no_data a (cfg : config) (create : bool) w (key : string) w1 :
  let start :=
    [Logged LOG DEBUG ("Preparing cluster " +:+ cluster a
                       +:+ " on data device None");
     Called (OpenRead (cluster a +:+ ".bootstrap-osd.keyring"))] in
  let error := Exc NeedDiskError (str_opt (host a)) in
  respond (OpenRead (cluster a +:+ ".bootstrap-osd.keyring")) w = (Ok key, w1) →
  data a = None →
  prepare a cfg create w
  = (if deploy_isa_RuntimeError NeedDiskError
     then (Err (Exc GenericError "Failed to create 1 OSDs"), w1,
           start ++ [Logged LOG ERROR (exc_str error)])
     else (Err error, w1, start))
  ∧ filter is_remote (events (prepare a cfg create w)) = [].
Proof.
  intros start error Hopen Hdata.
  assert (Hrun : prepare a cfg create w
    = (if deploy_isa_RuntimeError NeedDiskError
       then (Err (Exc GenericError "Failed to create 1 OSDs"), w1,
             start ++ [Logged LOG ERROR (exc_str error)])
       else (Err error, w1, start))).
  { unfold prepare, get_bootstrap_osd_key, prepare_host.
    rewrite Hdata.
    rewrite run_bind. cbn [log]. rewrite run_bind. unfold try_except at 1.
    rewrite run_perform, Hopen. cbn [fst snd].
    unfold try_except, isa_RuntimeError, mbind, M_bind, mret, M_ret, log, raise.
    cbn. destruct (deploy_isa_RuntimeError NeedDiskError); [|reflexivity].
    cbn. change (negb (0 + 1 =? 0)) with true. reflexivity. }
  rewrite Hrun. split; [done|].
  by destruct (deploy_isa_RuntimeError NeedDiskError).
Qed.

(** X17. Only a [RuntimeError] is turned into the count of failures:
    when the work on the host returns, [prepare] returns, and when it
    raises an exception that is not a [RuntimeError], [prepare] raises
    the same exception without logging it; in both cases nothing is
    added to the events of the work on the host. *)
Theorem prepare_outcome a (cfg : config) (create : bool) w (key : string) w1
    (r : result unit) w2 (evs : list event) :
  let start :=
    [Logged LOG DEBUG ("Preparing cluster " +:+ cluster a
                       +:+ " on data device " +:+ str_opt (data a));
     Called (OpenRead (cluster a +:+ ".bootstrap-osd.keyring"))] in
  respond (OpenRead (cluster a +:+ ".bootstrap-osd.keyring")) w = (Ok key, w1) →
  prepare_host a key create ∅ w1 = (r, w2, evs) →
  match r with Ok _ => true | Err e => negb (isa_RuntimeError e) end = true →
  prepare a cfg create w = (r, w2, start ++ evs).
Proof.
  intros start Hopen Hhost Hr.
  unfold prepare, get_bootstrap_osd_key.
  rewrite run_bind. cbn [log]. rewrite run_bind. unfold try_except at 1.
  rewrite run_perform, Hopen. cbn [fst snd].
  rewrite run_bind. unfold try_except. rewrite run_bind, Hhost.
  destruct r as [[]|e].
  - cbn. by rewrite !app_nil_r.
  - apply negb_true_iff in Hr. rewrite Hr. cbn. by rewrite ?app_nil_r.
Qed.

End prepare_writes.

(** ** The inventory *)

Section inventory_facts.

Context {F : Type} {float_ops : PyFloat F} {lib : PyLib F}
    {W : Type} {gateway : Gateway W}.

Implicit Types (w : W) (a : args) (c : conn).

Lemma dict_set_keys (k v : string) (d : list (string * string)) :
  (dict_set k v d).*1 = if bool_decide (k ∈ d.*1) then d.*1 else d.*1 ++ [k].
Proof.
  induction d as [|[k' v'] d IH]; [done|]. cbn [dict_set fmap list_fmap fst].
  destruct (String.eqb_spec k' k) as [->|Hne].
  - rewrite bool_decide_eq_true_2 by apply list_elem_of_here. done.
  - cbn [fmap list_fmap fst]. change (list_fmap _ _ fst ?l) with (l.*1).
    rewrite IH.
    rewrite (bool_decide_ext (k ∈ k' :: d.*1) (k ∈ d.*1)).
    + by destruct (bool_decide (k ∈ d.*1)).
    + rewrite elem_of_cons. split; [by intros [->|?] | by right].
Qed.

Lemma dict_set_keys_sublist (k v : string) (d : list (string * string))
    (seen : list string) :
  d.*1 `sublist_of` seen → k ∉ seen →
  (dict_set k v d).*1 `sublist_of` seen ++ [k].
Proof.
  intros Hsub Hfresh. rewrite dict_set_keys.
  rewrite bool_decide_eq_false_2.
  - by apply sublist_app.
  - intros Hin. apply Hfresh. by eapply sublist_subseteq.
Qed.

Lemma lift_inv {A} (r : result A) w (x : A) w' (evs : list event) :
  lift r w = (Ok x, w', evs) → r = Ok x ∧ w' = w ∧ evs = [].
Proof. unfold lift. by intros [= -> -> <-]. Qed.

Lemma mret_inv {A} (x y : A) w w' (evs : list event) :
  (mret x : M W A) w = (Ok y, w', evs) → y = x ∧ w' = w ∧ evs = [].
Proof. by intros [= -> -> <-]. Qed.

(** A loop that adds keys to the metadata, one for the item at most. *)
Lemma for_fold_keys (files : list string) (seen : list string)
    (metadata : list (string * string))
    (body : list (string * string) → string → M W (list (string * string)))
    w (r : list (string * string)) w' (evs : list event) :
  (∀ acc f w acc' w' evs,
     body acc f w = (Ok acc', w', evs) → acc' = acc ∨ ∃ v, acc' = dict_set f v acc) →
  for_fold files metadata body w = (Ok r, w', evs) →
  metadata.*1 `sublist_of` seen → NoDup (seen ++ files) →
  r.*1 `sublist_of` seen ++ files.
Proof.
  intros Hbody. revert seen metadata w evs.
  induction files as [|f files IH]; intros seen metadata w evs Hrun Hsub Hnodup.
  - apply mret_inv in Hrun as (-> & _ & _). by rewrite app_nil_r.
  - cbn [for_fold] in Hrun.
    apply run_bind_inv in Hrun as (acc & w1 & evs1 & evs2 & Hstep & Hrest & _).
    rewrite (cons_middle f seen files), app_assoc in Hnodup |- *.
    eapply IH; [exact Hrest| |exact Hnodup].
    apply NoDup_app in Hnodup as [Hseen _].
    apply NoDup_app in Hseen as (_ & Hfresh & _).
    destruct (Hbody _ _ _ _ _ _ Hstep) as [->|[v ->]].
    + by apply sublist_inserts_r.
    + apply dict_set_keys_sublist; [done|].
      intros Hin. apply (Hfresh f Hin). apply list_elem_of_here.
Qed.

Lemma gather_osd_inv c (tree : gmap string (pyval F)) (files : list string)
    (output : list string) (_osd : string) w (r : osd_record) w'
    (evs : list event) :
  gather_osd c tree files output _osd w = (Ok r, w', evs) →
  NoDup ("device" :: files ++ ["journal path"]) →
  ∃ _id device nodes_v nodes,
    py_int (VStr (last_piece (Str.split "-" _osd))) = Ok _id
    ∧ get_osd_mount_point output ("osd." +:+ pretty _id) = Ok device
    ∧ tree !! "nodes" = Some nodes_v
    ∧ py_iter nodes_v = Ok nodes
    ∧ find_blob nodes _id ∅ = Ok (record_blob r)
    ∧ record_path r = Str.path_join osd_path _osd
    ∧ (record_metadata r).*1 `sublist_of` "device" :: files ++ ["journal path"].
Proof.
  intros Hrun Hnodup. unfold gather_osd in Hrun.
  apply run_bind_inv in Hrun as (_id & w1 & ? & ? & Hid & Hrun & _).
  apply lift_inv in Hid as (Hid & -> & _).
  apply run_bind_inv in Hrun as (device & w1 & ? & ? & Hdev & Hrun & _).
  apply lift_inv in Hdev as (Hdev & -> & _).
  apply run_bind_inv in Hrun as (metadata2 & w2 & ? & ? & Hfold & Hrun & _).
  apply run_bind_inv in Hrun as (present & w3 & ? & ? & _ & Hrun & _).
  apply run_bind_inv in Hrun as (metadata3 & w4 & ? & ? & Hjournal & Hrun & _).
  apply run_bind_inv in Hrun as (nodes_v & w5 & ? & ? & Hnodes & Hrun & _).
  apply lift_inv in Hnodes as (Hnodes & -> & _).
  apply run_bind_inv in Hrun as (nodes & w5 & ? & ? & Hiter & Hrun & _).
  apply lift_inv in Hiter as (Hiter & -> & _).
  apply run_bind_inv in Hrun as (json_blob & w5 & ? & ? & Hblob & Hrun & _).
  apply lift_inv in Hblob as (Hblob & -> & _).
  apply mret_inv in Hrun as (-> & _ & _). cbn [record_blob record_path record_metadata].
  exists _id, device, nodes_v, nodes.
  unfold tree_nodes in Hnodes.
  destruct (tree !! "nodes") as [nodes_v'|]; [|done]. injection Hnodes as ->.
  repeat (split; [done|]).
  assert (Hkeys2 : metadata2.*1 `sublist_of` ["device"] ++ files).
  { eapply for_fold_keys; [|exact Hfold| |].
    - intros acc f w0 acc' w0' evs0 Hbody. cbv zeta in Hbody.
      apply run_bind_inv in Hbody as ([] & ? & ? & ? & _ & Hbody & _).
      + apply run_bind_inv in Hbody as (content & ? & ? & ? & _ & Hbody & _).
        apply mret_inv in Hbody as (-> & _ & _). right. by exists content.
      + apply mret_inv in Hbody as (-> & _ & _). by left.
    - destruct (truthy device); [done|apply sublist_nil_l].
    - rewrite app_comm_cons in Hnodup. by apply NoDup_app in Hnodup as [? _]. }
  change ("device" :: files ++ ["journal path"])
    with ((["device"] ++ files) ++ ["journal path"]).
  destruct present.
  - apply run_bind_inv in Hjournal as (real & ? & ? & ? & _ & Hjournal & _).
    apply mret_inv in Hjournal as (-> & _ & _).
    apply dict_set_keys_sublist; [done|].
    change ("device" :: files ++ ["journal path"])
      with ((["device"] ++ files) ++ ["journal path"]) in Hnodup.
    apply NoDup_app in Hnodup as (_ & Hfresh & _).
    intros Hin. apply (Hfresh _ Hin). apply list_elem_of_here.
  - apply mret_inv in Hjournal as (-> & _ & _). by apply sublist_inserts_r.
Qed.

Lemma last_default_or_elem {A} (l : list A) (d : A) :
  List.last l d = d ∨ List.last l d ∈ l.
Proof.
  revert d. induction l as [|x l IH]; intros d; [by left|].
  rewrite last_cons. right. destruct (IH x) as [->|Hin].
  - apply list_elem_of_here.
  - by apply list_elem_of_further.
Qed.

(** X18. A record that [osd_list] gathers for a directory entry with a
    plain name has the path of the entry under [constants.osd_path]; its
    metadata keys are distinct and come in the order [device], [active],
    [magic], [whoami], [journal_uuid], [journal path], each present or
    not; and its node is either empty or a dictionary of the nodes of
    the tree whose [id] equals the number at the end of the name of the
    entry. *)
Theorem gather_osd_record c (tree : gmap string (pyval F))
    (output : list string) (_osd : string) w (r : osd_record) w'
    (evs : list event) :
  plain_name _osd = true →
  gather_osd c tree ["active"; "magic"; "whoami"; "journal_uuid"] output _osd w
  = (Ok r, w', evs) →
  record_path r = Str.path_join osd_path _osd
  ∧ (record_metadata r).*1 `sublist_of` metadata_keys
  ∧ NoDup (record_metadata r).*1
  ∧ (record_blob r = ∅
     ∨ ∃ _id nodes_v nodes,
         py_int (VStr (last_piece (Str.split "-" _osd))) = Ok _id
         ∧ tree !! "nodes" = Some nodes_v
         ∧ py_iter nodes_v = Ok nodes
         ∧ VDict (record_blob r) ∈ nodes
         ∧ py_eq_int (dict_get (record_blob r) "id") _id = true).
Proof.
  intros _ Hrun.
  assert (Hnodup : NoDup metadata_keys)
    by (apply (bool_decide_unpack _); vm_compute; reflexivity).
  apply gather_osd_inv in Hrun
    as (_id & device & nodes_v & nodes & Hid & _ & Htree & Hiter & Hblob
        & Hpath & Hkeys); [|exact Hnodup].
  split; [done|]. split; [exact Hkeys|].
  split; [by eapply sublist_NoDup|].
  rewrite run_find_blob in Hblob.
  destruct (forallb is_dict nodes); [|done]. injection Hblob as Hblob.
  destruct (last_default_or_elem (omap (matching_blob _id) nodes) ∅)
    as [Hlast|Hlast]; rewrite Hblob in Hlast; [by left|right].
  exists _id, nodes_v, nodes. repeat (split; [done|]).
  apply list_elem_of_omap in Hlast as (node & Hnode & Hmatch).
  destruct node as [| | | | | |blob]; try done. cbn in Hmatch.
  destruct (py_eq_int (dict_get blob "id") _id) eqn:Heq; [|done].
  injection Hmatch as <-. done.
Qed.

(** X19. A tree without the key [nodes], such as the empty dictionary
    that [osd_tree] returns for an output that is not JSON, gives no
    record: for every directory entry [osd_list] raises an exception
    instead of falling back to an empty node. *)
Theorem gather_osd_no_nodes c (tree : gmap string (pyval F))
    (output : list string) (_osd : string) w :
  tree !! "nodes" = None →
  ∃ e, outcome (gather_osd c tree ["active"; "magic"; "whoami"; "journal_uuid"]
                  output _osd w) = Err e.
Proof.
  intros Htree.
  destruct (gather_osd c tree ["active"; "magic"; "whoami"; "journal_uuid"]
              output _osd w) as [[[r|e] w'] evs] eqn:Hrun; [|by exists e].
  apply gather_osd_inv in Hrun as (? & ? & ? & ? & _ & _ & Hsome & _).
  - by rewrite Htree in Hsome.
  - apply (bool_decide_unpack _). vm_compute. reflexivity.
Qed.

(** X20. A directory entry with a plain name that does not end, after
    its last dash, with a decimal number stops the inventory: [osd_list]
    raises [ValueError] for it before it asks anything about the
    entry. *)
Theorem gather_osd_bad_entry c (tree : gmap string (pyval F))
    (files output : list string) (_osd : string) w :
  plain_name _osd = true →
  Str.to_int (last_piece (Str.split "-" _osd)) = None →
  gather_osd c tree files output _osd w
  = (Err (Exc ValueError "invalid literal for int() with base 10"), w, []).
Proof.
  intros _ Hint. unfold gather_osd. cbv zeta. rewrite run_bind.
  unfold lift, py_int. by rewrite Hint.
Qed.

Ltac emits_more :=
  repeat first
    [ emits_step
    | apply emits_for_each; intros ?
    | apply emits_for_fold; intros ? ? ].

Lemma osd_list_read_only_emits a (cfg : config) :
  emits read_only (osd_list a cfg).
Proof.
  unfold osd_list, osd_tree, load_json_status, gather_osd, print_osd.
  emits_more.
Qed.

(** X21. The inventory changes nothing: in every world, [osd_list] writes
    no keyring and no configuration, and runs no command through
    [process.run]; the commands it runs are captured ones. *)
Theorem osd_list_read_only a (cfg : config) w :
  Forall (λ ev, is_write ev = false ∧ is_process_run ev = false)
    (events (osd_list a cfg w)).
Proof.
  apply Forall_forall. intros ev Hin.
  pose proof (emits_elem_of _ _ w ev (osd_list_read_only_emits a cfg) Hin) as Hro.
  unfold read_only in Hro. apply negb_true_iff, orb_false_iff in Hro. done.
Qed.

(** X22. [print_osd] cannot fail and touches no host: it logs, at level
    info on the logger it is given, nine lines and one line for each
    item of the metadata, and one more when a journal is given; the
    block starts and ends with a line of forty dashes.  For an OSD that
    the tree does not know, the id, the name, the status and the
    reweight are printed as [None]. *)
Theorem print_osd_block (lg : logger) (hostname : option string)
    (osd_path_ : string) (json_blob : gmap string (pyval F))
    (metadata : list (string * string)) (journal : option string) w :
  (∃ lines,
     print_osd lg hostname osd_path_ json_blob metadata journal w
     = (Ok (), w, Logged lg INFO <$> lines)
     ∧ List.length lines
       = (9 + List.length metadata + (if truthy journal then 1 else 0))%nat
     ∧ head lines = Some (Str.repeat "-" 40)
     ∧ List.last lines "" = Str.repeat "-" 40)
  ∧ logged (events (print_osd lg hostname osd_path_ ∅ [] None w))
    = [Str.repeat "-" 40; last_piece (Str.split "/" osd_path_);
       Str.repeat "-" 40;
       "Path           " +:+ osd_path_;
       "ID             None"; "Name           None";
       "Status         None"; "Reweight       None";
       Str.repeat "-" 40].
Proof.
  split; [|reflexivity].
  exists ([Str.repeat "-" 40; last_piece (Str.split "/" osd_path_);
           Str.repeat "-" 40;
           Str.ljust 14 "Path" +:+ " " +:+ osd_path_;
           Str.ljust 14 "ID" +:+ " " +:+ py_str (dict_get json_blob "id");
           Str.ljust 14 "Name" +:+ " " +:+ py_str (dict_get json_blob "name");
           Str.ljust 14 "Status" +:+ " " +:+ py_str (dict_get json_blob "status");
           Str.ljust 14 "Reweight" +:+ " " +:+ py_str (dict_get json_blob "reweight")]
          ++ (if truthy journal then ["Journal: " +:+ str_opt journal] else [])
          ++ ((λ '(k, v), Str.ljust 13 (Str.capitalize k) +:+ "  " +:+ v) <$> metadata)
          ++ [Str.repeat "-" 40]).
  split; [|split; [|split]].
  - unfold print_osd.
    repeat (rewrite run_bind; cbn [log]).
    assert (Hmeta :
      for_each metadata
        (λ '(k, v), log lg INFO (Str.ljust 13 (Str.capitalize k) +:+ "  " +:+ v)) w
      = (Ok (), w,
         Logged lg INFO
           <$> ((λ '(k, v), Str.ljust 13 (Str.capitalize k) +:+ "  " +:+ v)
                  <$> metadata))).
    { clear. induction metadata as [|[k v] metadata IH]; [done|].
      cbn [for_each]. rewrite run_bind. cbn [log]. by rewrite IH. }
    destruct (truthy journal); cbn [log mret M_ret];
      rewrite run_bind, Hmeta; cbn [log];
      rewrite !fmap_app; reflexivity.
  - rewrite !length_app, length_fmap. destruct (truthy journal); cbn; lia.
  - reflexivity.
  - rewrite !app_assoc. apply last_last.
Qed.

End inventory_facts.

(** ** The order of the hosts *)

Section host_order.

Context {F : Type} {float_ops : PyFloat F} {lib : PyLib F}
    {W : Type} {gateway : Gateway W}.

Implicit Types (w : W) (a : args) (c : conn).

(** A loop each of whose rounds asks [hosts.get] for the host of its
    item, once and first. *)
Lemma for_each_hosts {A} (l : list A) (body : A → M W unit)
    (host_of : A → option string) w :
  (∀ x w, hosts_attempted (events (body x w)) = [host_of x]) →
  hosts_attempted (events (for_each l body w)) `prefix_of` host_of <$> l
  ∧ (outcome (for_each l body w) = Ok () →
     hosts_attempted (events (for_each l body w)) = host_of <$> l).
Proof.
  intros Hbody. revert w. induction l as [|x l IH]; intros w; [done|].
  cbn [for_each]. rewrite run_bind. specialize (Hbody x w).
  destruct (body x w) as [[[[]|e] w1] evs1]; unfold events, outcome in *;
    cbn [fst snd] in *.
  - destruct (IH w1) as [Hprefix Hall].
    destruct (for_each l body w1) as [[r w2] evs2]; cbn [fst snd] in *.
    rewrite hosts_attempted_app, Hbody. cbn [fmap list_fmap app].
    split; [by apply prefix_cons|]. intros ->. by rewrite Hall.
  - rewrite Hbody. split; [|done]. cbn [fmap list_fmap].
    apply prefix_cons, prefix_nil.
Qed.

Lemma disk_list_round a (t : option string * option string * option string) w :
  hosts_attempted
    (events ((let '(hostname, disk, journal) := t in
              distro ← perform (HostsGet hostname (username a) true);
              log LOG INFO ("Distro info: " +:+ distro_name distro +:+ " "
                            +:+ distro_release distro +:+ " "
                            +:+ distro_codename distro);;
              log LOG DEBUG ("Listing disks on " +:+ str_opt hostname +:+ "...");;
              ceph_disk_executable ←
                perform (ExecutablePath (distro_conn distro) "ceph-disk");
              perform (ProcessRun (distro_conn distro) [ceph_disk_executable; "list"]);;
              perform (ConnExit (distro_conn distro))) w))
  = [t.1.1].
Proof.
  destruct t as [[hostname disk] journal].
  apply hosts_attempted_get. intros d. repeat emits_step.
Qed.

(** X23. [disk_list] goes through the hosts of the command line in their
    order, and stops at the first failure: the hosts it asks [hosts.get]
    for are a prefix of the hosts of the targets, and all of them when
    it returns. *)
Theorem disk_list_hosts a (cfg : config) w :
  hosts_attempted (events (disk_list a cfg w)) `prefix_of` (disk a).*1.*1
  ∧ match outcome (disk_list a cfg w) with
    | Ok _ => hosts_attempted (events (disk_list a cfg w)) = (disk a).*1.*1
    | Err _ => True
    end.
Proof.
  unfold disk_list.
  match goal with
  | |- context [for_each (disk a) ?body] =>
      destruct (for_each_hosts (disk a) body (λ t, t.1.1) w) as [Hprefix Hall]
  end.
  { intros t w0. apply disk_list_round. }
  rewrite <-list_fmap_compose. split; [exact Hprefix|].
  match goal with
  | |- match ?o with _ => _ end => destruct o as [[]|e] eqn:Hout
  end; [|done].
  by apply Hall.
Qed.

End host_order.

(** ** disk_zap and activate *)

Section more_running.

Context {W : Type} {gateway : Gateway W} {gateway_more : GatewayMore W}.

Lemma run_bind_more {A B} (m : MM W A) (f : A → MM W B) w :
  (m ≫= f) w
  = match m w with
    | (Ok a, w', evs) => let '(r, w'', evs') := f a w' in (r, w'', evs ++ evs')
    | (Err e, w', evs) => (Err e, w', evs)
    end.
Proof. reflexivity. Qed.

Lemma run_embed_perform {R} (c : call R) w :
  embed (perform c) w = ((respond c w).1, (respond c w).2, [Base (Called c)]).
Proof. unfold embed. rewrite run_perform. reflexivity. Qed.

Lemma run_embed_log lg lvl msg w :
  embed (W:=W) (log lg lvl msg) w = (Ok (), w, [Base (Logged lg lvl msg)]).
Proof. reflexivity. Qed.

Lemma run_perform_more {R} (c : call_more R) w :
  perform_more c w
  = ((respond_more c w).1, (respond_more c w).2, [CalledMore c]).
Proof. unfold perform_more. by destruct (respond_more c w). Qed.

Lemma for_each_more_app {A} (l1 l2 : list A) (body : A → MM W unit) w :
  for_each_more (l1 ++ l2) body w
  = match for_each_more l1 body w with
    | (Ok _, w', evs) =>
        let '(r, w'', evs') := for_each_more l2 body w' in (r, w'', evs ++ evs')
    | (Err e, w', evs) => (Err e, w', evs)
    end.
Proof.
  revert w. induction l1 as [|x l1 IH]; intros w.
  - cbn. by destruct (for_each_more l2 body w) as [[r w'] evs].
  - cbn [app for_each_more]. rewrite !run_bind_more.
    destruct (body x w) as [[[[]|e] w1] evs1]; [|done].
    rewrite IH. destruct (for_each_more l1 body w1) as [[[[]|e] w2] evs2]; [|done].
    destruct (for_each_more l2 body w2) as [[r w3] evs3].
    by rewrite app_assoc.
Qed.

(** A property of the events of every round, kept by concatenation,
    holds of the events of the loop. *)
Lemma for_each_more_events {A} (P : list event_more → Prop) (l : list A)
    (body : A → MM W unit) w :
  P [] → (∀ evs1 evs2, P evs1 → P evs2 → P (evs1 ++ evs2)) →
  (∀ x w, P (body x w).2) →
  P (for_each_more l body w).2.
Proof.
  intros Hnil Happ Hbody. revert w. induction l as [|x l IH]; intros w; [done|].
  cbn [for_each_more]. rewrite run_bind_more. specialize (Hbody x w).
  destruct (body x w) as [[[[]|e] w1] evs1]; [|done].
  specialize (IH w1). destruct (for_each_more l body w1) as [[r w2] evs2].
  by apply Happ.
Qed.

End more_running.

Ltac step_more :=
  repeat (rewrite ?run_bind_more, ?run_embed_log, ?run_embed_perform,
            ?run_perform_more;
          cbn [fst snd mret MM_ret raise_more]; cbv beta iota).

Section zap_activate_facts.

Context {F : Type} {float_ops : PyFloat F} {lib : PyLib F}
    {W : Type} {gateway : Gateway W} {gateway_more : GatewayMore W}.

Implicit Types (w : W) (a : args) (c : conn).

(** X24. [disk_zap] checks a target only when it comes to it: when a
    target lacks its host or its disk, the targets before it are zapped
    first, and only then is the [RuntimeError] about the target raised;
    the targets after it are not looked at. *)
Theorem disk_zap_invalid_target a
    (good rest : list (option string * option string * option string))
    (target_host target_disk target_journal : option string) w :
  negb (truthy target_disk) || negb (truthy target_host) = true →
  disk_zap (with_disk a (good ++ (target_host, target_disk, target_journal) :: rest)) w
  = match disk_zap (with_disk a good) w with
    | (Ok _, w', evs) =>
        (Err (Exc RuntimeError
                ("zap command needs both HOSTNAME and DISK but got "
                 +:+ quoted (str_opt target_host +:+ " " +:+ str_opt target_disk))),
         w', evs)
    | (Err e, w', evs) => (Err e, w', evs)
    end.
Proof.
  intros Hbad. unfold disk_zap. cbn [disk with_disk username].
  rewrite for_each_more_app.
  match goal with
  | |- context [for_each_more good ?body w] =>
      destruct (for_each_more good body w) as [[[[]|e] w1] evs1]; [|done]
  end.
  cbn [for_each_more]. rewrite !run_bind_more, Hbad.
  unfold raise_more. by rewrite app_nil_r.
Qed.

Lemma zeroed_app (evs1 evs2 : list event_more) :
  zeroed (evs1 ++ evs2) = zeroed evs1 ++ zeroed evs2.
Proof. apply omap_app. Qed.

Lemma activated_app (evs1 evs2 : list event_more) :
  activated (evs1 ++ evs2) = activated evs1 ++ activated evs2.
Proof. apply omap_app. Qed.

Lemma each_after_nil Q : each_after Q [].
Proof. intros pre ev post Heq. by destruct pre. Qed.

Lemma each_after_cons Q ev evs :
  Q [] ev → each_after (λ pre, Q (ev :: pre)) evs → each_after Q (ev :: evs).
Proof.
  intros Hev Hevs [|ev' pre] ev'' post Heq.
  - by injection Heq as <- _.
  - injection Heq as <- Heq. by apply (Hevs pre ev'' post).
Qed.

Lemma each_after_app Q evs1 evs2 :
  each_after Q evs1 → each_after (λ pre, Q (evs1 ++ pre)) evs2 →
  each_after Q (evs1 ++ evs2).
Proof.
  revert Q. induction evs1 as [|ev evs1 IH]; intros Q H1 H2; [exact H2|].
  cbn [app]. apply each_after_cons.
  - by apply (H1 [] ev evs1).
  - apply IH; [|exact H2].
    intros pre ev' post ->. by apply (H1 (ev :: pre) ev' post).
Qed.

Lemma each_after_mono (Q Q' : list event_more → event_more → Prop) evs :
  (∀ pre ev, Q pre ev → Q' pre ev) → each_after Q evs → each_after Q' evs.
Proof. intros HQ Hevs pre ev post Heq. apply HQ. by apply (Hevs pre ev post). Qed.

Lemma each_after_base Q (evs : list event) :
  (∀ pre ev, Q pre (Base ev)) → each_after Q (Base <$> evs).
Proof.
  intros HQ pre ev post Heq.
  assert (Hin : ev ∈ Base <$> evs) by (rewrite Heq; set_solver).
  apply list_elem_of_fmap in Hin as (ev' & -> & _). apply HQ.
Qed.

Lemma zap_justified_mono (evs pre : list event_more) ev :
  zap_justified pre ev → zap_justified (evs ++ pre) ev.
Proof.
  destruct ev as [[R c|]|]; try done. destruct c; try done.
  intros (exe & d & -> & Hz). exists exe, d. split; [done|].
  rewrite zeroed_app. apply elem_of_app. by right.
Qed.

Lemma zapped_after_zeroing_app (evs1 evs2 : list event_more) :
  zapped_after_zeroing evs1 → zapped_after_zeroing evs2 →
  zapped_after_zeroing (evs1 ++ evs2).
Proof.
  intros H1 H2. apply each_after_app; [exact H1|].
  revert H2. apply each_after_mono. intros pre ev. apply zap_justified_mono.
Qed.

Lemma enable_justified_mono (evs pre : list event_more) ev :
  enable_justified pre ev → enable_justified (evs ++ pre) ev.
Proof.
  destruct ev as [|R c]; [done|]. destruct c; try done.
  intros (exe & init & d & Hact & Hinit). exists exe, init, d. split; [|done].
  rewrite activated_app. apply elem_of_app. by right.
Qed.

Lemma enabled_after_activation_app (evs1 evs2 : list event_more) :
  enabled_after_activation evs1 → enabled_after_activation evs2 →
  enabled_after_activation (evs1 ++ evs2).
Proof.
  intros H1 H2. apply each_after_app; [exact H1|].
  revert H2. apply each_after_mono. intros pre ev. apply enable_justified_mono.
Qed.

Ltac each_after_step :=
  first
    [ apply each_after_nil
    | apply each_after_cons; [cbv beta; cbn [app]|]
    | apply each_after_app;
      [apply each_after_base; intros ? ?; exact I|] ].

(** X25. [disk_zap] zeroes before it zaps: in every world, each command
    it hands to [process.run] is [<ceph-disk> zap <disk>] for a disk
    whose [zeroing] it has called before, on the same connection. *)
Theorem disk_zap_zeroes_first a w :
  zapped_after_zeroing (events_more (disk_zap a w)).
Proof.
  unfold disk_zap, events_more.
  apply (for_each_more_events zapped_after_zeroing).
  - apply each_after_nil.
  - apply zapped_after_zeroing_app.
  - intros [[hostname target] journal] w0. unfold zapped_after_zeroing.
    step_more.
    destruct (negb (truthy target) || negb (truthy hostname));
      [apply each_after_nil|]. step_more.
    destruct (respond (HostsGet hostname (username a) true) w0) as [[d|e] w1];
      step_more; [|cbn [app]; by repeat each_after_step].
    destruct (respond_more (Zeroing (distro_conn d) (str_opt target)) w1)
      as [[[]|e] w2]; step_more; [|cbn [app]; by repeat each_after_step].
    destruct (respond (ExecutablePath (distro_conn d) "ceph-disk") w2)
      as [[exe|e] w3]; step_more; [|cbn [app]; by repeat each_after_step].
    assert (Hrun :
      zap_justified
        [Base (Logged LOG DEBUG ("zapping " +:+ str_opt target +:+ " on "
                                 +:+ str_opt hostname));
         Base (Called (HostsGet hostname (username a) true));
         Base (Logged LOG INFO ("Distro info: " +:+ distro_name d +:+ " "
                                +:+ distro_release d +:+ " "
                                +:+ distro_codename d));
         CalledMore (Zeroing (distro_conn d) (str_opt target));
         Base (Called (ExecutablePath (distro_conn d) "ceph-disk"))]
        (Base (Called (ProcessRun (distro_conn d) [exe; "zap"; str_opt target])))).
    { exists exe, (str_opt target). split; [done|]. cbn. apply list_elem_of_here. }
    destruct (respond (ProcessRun (distro_conn d) [exe; "zap"; str_opt target]) w3)
      as [[[]|e] w4]; step_more;
      [destruct (respond (ConnExit (distro_conn d)) w4) as [[[]|e] w5];
       step_more|];
      cbn [app]; repeat (each_after_step; try exact I; try exact Hrun).
Qed.

(** X26. [activate] enables a service only after the activation: in
    every world, each call that enables a service on a connection comes
    after a command
    [<ceph-disk> -v activate --mark-init <init> --mount <disk>] run on
    that connection, and the service is [ceph.target] when the init
    system of that command is [systemd] and [ceph] when it is
    [sysvinit]; no service is enabled for another init system. *)
Theorem activate_enables a (cfg : config) w :
  enabled_after_activation (events_more (activate a cfg w)).
Proof.
  unfold activate, events_more. rewrite run_bind_more, run_embed_log.
  match goal with
  | |- context [for_each_more (disk a) ?body w] =>
      pose proof (for_each_more_events enabled_after_activation (disk a) body w)
        as Hloop;
      destruct (for_each_more (disk a) body w) as [[r w'] evs]
  end.
  cbn [snd] in *. apply (enabled_after_activation_app [_] evs);
    [by repeat each_after_step|].
  apply Hloop; clear Hloop.
  - apply each_after_nil.
  - apply enabled_after_activation_app.
  - intros [[hostname target] journal] w0. unfold enabled_after_activation.
    step_more.
    destruct (respond (HostsGet hostname (username a) true) w0) as [[d|e] w1];
      step_more; [|cbn [app]; by repeat each_after_step].
    destruct (respond (ExecutablePath (distro_conn d) "ceph-disk") w1)
      as [[exe|e] w2]; step_more; [|cbn [app]; by repeat each_after_step].
    destruct (respond_more
                (ProcessRunArgs (distro_conn d)
                   [Some exe; Some "-v"; Some "activate"; Some "--mark-init";
                    Some (distro_init d); Some "--mount"; target]) w2)
      as [[[]|e] w3]; step_more; [|cbn [app]; by repeat each_after_step].
    destruct (respond (Sleep 5) w3) as [[[]|e] w4]; step_more;
      [|cbn [app]; by repeat each_after_step].
    unfold embed at 1.
    destruct (catch_osd_errors (distro_conn d) (conn_logger (distro_conn d)) a w4)
      as [[[[]|e] w5] evs_c]; step_more.
    2: { cbn [app]. repeat (each_after_step; try exact I).
         apply each_after_base. by intros ? ?. }
    assert (Henable : ∀ service tail,
      (distro_init d = "systemd" ∧ service = "ceph.target")
      ∨ (distro_init d = "sysvinit" ∧ service = "ceph") →
      enable_justified
        (Base (Called (HostsGet hostname (username a) true))
         :: Base (Logged LOG INFO ("Distro info: " +:+ distro_name d +:+ " "
                                   +:+ distro_release d +:+ " "
                                   +:+ distro_codename d))
         :: Base (Logged LOG DEBUG ("activating host " +:+ str_opt hostname
                                    +:+ " disk " +:+ str_opt target))
         :: Base (Logged LOG DEBUG ("will use init type: " +:+ distro_init d))
         :: Base (Called (ExecutablePath (distro_conn d) "ceph-disk"))
         :: CalledMore (ProcessRunArgs (distro_conn d)
              [Some exe; Some "-v"; Some "activate"; Some "--mark-init";
               Some (distro_init d); Some "--mount"; target])
         :: tail)
        (CalledMore (EnableService (distro_conn d) service))).
    { intros service tail Hinit. exists exe, (distro_init d), target.
      split; [|done]. cbn. apply list_elem_of_here. }
    destruct (String.eqb_spec (distro_init d) "systemd") as [Hinit|_].
    { step_more.
      destruct (respond_more (EnableService (distro_conn d) "ceph.target") w5)
        as [[[]|e] w6]; step_more;
        [destruct (respond (ConnExit (distro_conn d)) w6) as [[[]|e] w7];
         step_more|];
        cbn [app];
        repeat (each_after_step; try exact I; try (apply Henable; auto)). }
    destruct (String.eqb_spec (distro_init d) "sysvinit") as [Hinit|_].
    { step_more.
      destruct (respond_more (EnableService (distro_conn d) "ceph") w5)
        as [[[]|e] w6]; step_more;
        [destruct (respond (ConnExit (distro_conn d)) w6) as [[[]|e] w7];
         step_more|];
        cbn [app];
        repeat (each_after_step; try exact I; try (apply Henable; auto)). }
    step_more.
    destruct (respond (ConnExit (distro_conn d)) w5) as [[[]|e] w6]; step_more;
      cbn [app]; repeat (each_after_step; try exact I).
Qed.

(** X27. [activate] counts no failure: when [hosts.get] raises for the
    first target, whatever the class of the exception, [activate] raises
    that exception itself, right after its debug record; no error is
    logged, no [GenericError] is built and the other targets are not
    attempted. *)
Theorem activate_first_failure a (cfg : config) w
    (target_host target_disk target_journal : option string)
    (rest : list (option string * option string * option string))
    (e : pyexc) w1 :
  disk a = (target_host, target_disk, target_journal) :: rest →
  respond (HostsGet target_host (username a) true) w = (Err e, w1) →
  activate a cfg w
  = (Err e, w1,
     [Base (Logged LOG DEBUG ("Activating cluster " +:+ cluster a +:+ " disks "
                              +:+ render_disks (disk a)));
      Base (Called (HostsGet target_host (username a) true))]).
Proof.
  intros Hdisk Hget. unfold activate. rewrite Hdisk.
  rewrite run_bind_more, run_embed_log. cbn [for_each_more].
  step_more. rewrite Hget. by step_more.
Qed.

End zap_activate_facts.

(** ** The bootstrap keyring *)

Section keyring_facts.

Context {W : Type} {gateway : Gateway W}.

Implicit Types (w : W) (c : conn).

(** X28. On a host without the keyring, [create_osd_keyring] warns once
    and writes the given key at
    [/var/lib/ceph/bootstrap-osd/<cluster>.keyring]; an exception of the
    write is raised as it is.  When the write succeeded and the host
    then has the keyring, a second call only checks the path: two calls
    make one write and one warning. *)
Theorem create_osd_keyring_creates c (cluster key : string) w w1
    (r : result unit) w2 :
  let path := "/var/lib/ceph/bootstrap-osd/" +:+ cluster +:+ ".keyring" in
  let creation :=
    [Called (PathExists c path);
     Logged (conn_logger c) WARNING "osd keyring does not exist yet, creating one";
     Called (WriteKeyring c path key)] in
  respond (PathExists c path) w = (Ok false, w1) →
  respond (WriteKeyring c path key) w1 = (r, w2) →
  create_osd_keyring c cluster key w = (r, w2, creation)
  ∧ (r = Ok () → respond (PathExists c path) w2 = (Ok true, w2) →
     (create_osd_keyring c cluster key;; create_osd_keyring c cluster key) w
     = (Ok (), w2, creation ++ [Called (PathExists c path)])).
Proof.
  intros path creation Hexists Hwrite.
  assert (Honce : create_osd_keyring c cluster key w = (r, w2, creation)).
  { unfold create_osd_keyring. fold path.
    rewrite run_bind, run_perform, Hexists. cbn [fst snd negb].
    rewrite run_bind. cbn [log]. by rewrite run_perform, Hwrite. }
  split; [exact Honce|]. intros -> Hthen.
  rewrite run_bind, Honce.
  unfold create_osd_keyring. fold path.
  by rewrite run_bind, run_perform, Hthen.
Qed.

End keyring_facts.

(** ** The properties on the scripted world *)

Lemma get_osd_mount_point_device_witness :
  get_osd_mount_point docstring_listing "osd.1" = Ok (Some "/dev/sdb1")
  ∧ no_delim "/dev/sdb1" ∧ no_delim "osd.1".
Proof.
  assert (Hget : get_osd_mount_point docstring_listing "osd.1"
                 = Ok (Some "/dev/sdb1")) by (vm_compute; reflexivity).
  split; [exact Hget|].
  exact (proj2 (get_osd_mount_point_device docstring_listing "osd.1" "/dev/sdb1"
                  Hget)).
Defined.

Lemma status_malformed_witness :
  respond (ExecutablePath (Conn "node1") "ceph") (status_world "not json")
  = (Ok "/usr/bin/ceph", status_world "not json")
  ∧ respond (ProcessCheck (Conn "node1")
               (ceph_osd_command "/usr/bin/ceph" "ceph" "stat"))
      (status_world "not json")
    = (Ok (Some (["not json"], [], 0)), status_world "not json")
  ∧ json_loads (String.concat "" ["not json"]) = None
  ∧ catch_osd_errors (Conn "node1") (conn_logger (Conn "node1"))
      (prepare_args None None false) (status_world "not json")
    = (Ok (), status_world "not json",
       [Logged (conn_logger (Conn "node1")) INFO "checking OSD status...";
        Called (ExecutablePath (Conn "node1") "ceph");
        Called (ProcessCheck (Conn "node1")
                  (ceph_osd_command "/usr/bin/ceph" "ceph" "stat"))]).
Proof.
  assert (Hexe :
    respond (ExecutablePath (Conn "node1") "ceph") (status_world "not json")
    = (Ok "/usr/bin/ceph", status_world "not json")) by (vm_compute; reflexivity).
  assert (Hcheck :
    respond (ProcessCheck (Conn "node1")
               (ceph_osd_command "/usr/bin/ceph" "ceph" "stat"))
      (status_world "not json")
    = (Ok (Some (["not json"], [], 0)), status_world "not json"))
    by (vm_compute; reflexivity).
  assert (Hjson : json_loads (String.concat "" ["not json"]) = None)
    by (vm_compute; reflexivity).
  split; [exact Hexe|]. split; [exact Hcheck|]. split; [exact Hjson|].
  exact (proj2 (proj2 (status_malformed (Conn "node1") (conn_logger (Conn "node1"))
                         (prepare_args None None false) _ _ _ _ _ _ _ "stat"
                         Hexe Hcheck Hjson) eq_refl)).
Defined.

Lemma status_not_an_object_witness :
  respond (ExecutablePath (Conn "node1") "ceph") (status_world "[]")
  = (Ok "/usr/bin/ceph", status_world "[]")
  ∧ respond (ProcessCheck (Conn "node1")
               (ceph_osd_command "/usr/bin/ceph" "ceph" "stat"))
      (status_world "[]")
    = (Ok (Some (["[]"], [], 0)), status_world "[]")
  ∧ json_loads (PyLib := status_lib) (String.concat "" ["[]"]) = Some (VList [])
  ∧ is_dict (VList [] : pyval whole_float) = false
  ∧ osd_status_check (lib := status_lib) (Conn "node1") "ceph" (status_world "[]")
    = (Err (Exc AttributeError "object has no attribute 'items'"),
       status_world "[]",
       [Called (ExecutablePath (Conn "node1") "ceph");
        Called (ProcessCheck (Conn "node1")
                  (ceph_osd_command "/usr/bin/ceph" "ceph" "stat"))]).
Proof.
  assert (Hexe :
    respond (ExecutablePath (Conn "node1") "ceph") (status_world "[]")
    = (Ok "/usr/bin/ceph", status_world "[]")) by (vm_compute; reflexivity).
  assert (Hcheck :
    respond (ProcessCheck (Conn "node1")
               (ceph_osd_command "/usr/bin/ceph" "ceph" "stat"))
      (status_world "[]")
    = (Ok (Some (["[]"], [], 0)), status_world "[]"))
    by (vm_compute; reflexivity).
  assert (Hjson : json_loads (PyLib := status_lib) (String.concat "" ["[]"])
                  = Some (VList [])) by (vm_compute; reflexivity).
  split; [exact Hexe|]. split; [exact Hcheck|]. split; [exact Hjson|].
  split; [reflexivity|].
  exact (proj1 (proj2 (status_not_an_object (lib := status_lib) (Conn "node1")
                         (conn_logger (Conn "node1"))
                         (prepare_args None None false) _ _ _ _ _ _ _ "stat" _
                         Hexe Hcheck Hjson eq_refl) eq_refl)).
Defined.

Lemma osd_tree_timeout_witness :
  respond (GetMonInitialMembers example_args (Config "")) mon_timeout_world
  = (Ok ["mon1"], mon_timeout_world)
  ∧ respond (HostsGet (Some "mon1") None true) mon_timeout_world
    = (Ok (sim_distro "mon1"), mon_timeout_world)
  ∧ respond (ExecutablePath (Conn "mon1") "ceph") mon_timeout_world
    = (Ok "/usr/bin/ceph", mon_timeout_world)
  ∧ respond (ProcessCheck (Conn "mon1")
               (ceph_osd_command "/usr/bin/ceph" "ceph" "tree")) mon_timeout_world
    = (Ok None, mon_timeout_world)
  ∧ osd_list example_args (Config "") mon_timeout_world
    = (Err (Exc TypeError "cannot unpack non-iterable NoneType object"),
       mon_timeout_world,
       [Called (GetMonInitialMembers example_args (Config ""));
        Called (HostsGet (Some "mon1") None true);
        Called (ExecutablePath (Conn "mon1") "ceph");
        Called (ProcessCheck (Conn "mon1")
                  (ceph_osd_command "/usr/bin/ceph" "ceph" "tree"))]).
Proof.
  assert (Hmon :
    respond (GetMonInitialMembers example_args (Config "")) mon_timeout_world
    = (Ok ["mon1"], mon_timeout_world)) by (vm_compute; reflexivity).
  assert (Hget :
    respond (HostsGet (Some "mon1") None true) mon_timeout_world
    = (Ok (sim_distro "mon1"), mon_timeout_world)) by (vm_compute; reflexivity).
  assert (Hexe :
    respond (ExecutablePath (Conn "mon1") "ceph") mon_timeout_world
    = (Ok "/usr/bin/ceph", mon_timeout_world)) by (vm_compute; reflexivity).
  assert (Hcheck :
    respond (ProcessCheck (Conn "mon1")
               (ceph_osd_command "/usr/bin/ceph" "ceph" "tree")) mon_timeout_world
    = (Ok None, mon_timeout_world)) by (vm_compute; reflexivity).
  repeat (split; [assumption|]).
  exact (proj2 (osd_tree_timeout example_args (Config "") mon_timeout_world
                  "mon1" [] _ (sim_distro "mon1") _ _ _ _ Hmon Hget Hexe Hcheck)).
Defined.

Lemma catch_osd_errors_warnings_witness :
  osd_status_check (lib := status_lib) (Conn "node1") "ceph"
    (status_world degraded_status_text)
  = (Ok degraded_status, status_world degraded_status_text,
     [Called (ExecutablePath (Conn "node1") "ceph");
      Called (ProcessCheck (Conn "node1")
                (ceph_osd_command "/usr/bin/ceph" "ceph" "stat"))])
  ∧ py_int (dict_get_default degraded_status "num_osds" (VInt 0)) = Ok 5
  ∧ py_int (dict_get_default degraded_status "num_up_osds" (VInt 0)) = Ok 4
  ∧ py_int (dict_get_default degraded_status "num_in_osds" (VInt 0)) = Ok 4
  ∧ catch_osd_errors (lib := status_lib) (Conn "node1")
      (conn_logger (Conn "node1")) (prepare_args None None false)
      (status_world degraded_status_text)
    = (Ok (), status_world degraded_status_text,
       [Logged (conn_logger (Conn "node1")) INFO "checking OSD status...";
        Called (ExecutablePath (Conn "node1") "ceph");
        Called (ProcessCheck (Conn "node1")
                  (ceph_osd_command "/usr/bin/ceph" "ceph" "stat"));
        Logged (conn_logger (Conn "node1")) WARNING "there is 1 OSD down";
        Logged (conn_logger (Conn "node1")) WARNING "there is 1 OSD out";
        Logged (conn_logger (Conn "node1")) WARNING "OSDs are full!"]).
Proof.
  assert (Hstatus :
    osd_status_check (lib := status_lib) (Conn "node1") "ceph"
      (status_world degraded_status_text)
    = (Ok degraded_status, status_world degraded_status_text,
       [Called (ExecutablePath (Conn "node1") "ceph");
        Called (ProcessCheck (Conn "node1")
                  (ceph_osd_command "/usr/bin/ceph" "ceph" "stat"))]))
    by (vm_compute; reflexivity).
  assert (Hosds : py_int (dict_get_default degraded_status "num_osds" (VInt 0))
                  = Ok 5) by (vm_compute; reflexivity).
  assert (Hup : py_int (dict_get_default degraded_status "num_up_osds" (VInt 0))
                = Ok 4) by (vm_compute; reflexivity).
  assert (Hin : py_int (dict_get_default degraded_status "num_in_osds" (VInt 0))
                = Ok 4) by (vm_compute; reflexivity).
  repeat (split; [assumption|]).
  exact (proj1 (catch_osd_errors_warnings (lib := status_lib) (Conn "node1")
                  (conn_logger (Conn "node1")) (prepare_args None None false)
                  _ _ _ _ 5 4 4 Hstatus Hosds Hup Hin)).
Defined.

Lemma catch_osd_errors_bad_count_witness :
  osd_status_check (lib := status_lib) (Conn "node1") "ceph"
    (status_world bad_status_text)
  = (Ok bad_status, status_world bad_status_text,
     [Called (ExecutablePath (Conn "node1") "ceph");
      Called (ProcessCheck (Conn "node1")
                (ceph_osd_command "/usr/bin/ceph" "ceph" "stat"))])
  ∧ py_int (dict_get_default bad_status "num_osds" (VInt 0))
    = Err (Exc ValueError "invalid literal for int() with base 10")
  ∧ catch_osd_errors (lib := status_lib) (Conn "node1")
      (conn_logger (Conn "node1")) (prepare_args None None false)
      (status_world bad_status_text)
    = (Err (Exc ValueError "invalid literal for int() with base 10"),
       status_world bad_status_text,
       [Logged (conn_logger (Conn "node1")) INFO "checking OSD status...";
        Called (ExecutablePath (Conn "node1") "ceph");
        Called (ProcessCheck (Conn "node1")
                  (ceph_osd_command "/usr/bin/ceph" "ceph" "stat"))]).
Proof.
  assert (Hstatus :
    osd_status_check (lib := status_lib) (Conn "node1") "ceph"
      (status_world bad_status_text)
    = (Ok bad_status, status_world bad_status_text,
       [Called (ExecutablePath (Conn "node1") "ceph");
        Called (ProcessCheck (Conn "node1")
                  (ceph_osd_command "/usr/bin/ceph" "ceph" "stat"))]))
    by (vm_compute; reflexivity).
  assert (Hosds : py_int (dict_get_default bad_status "num_osds" (VInt 0))
                  = Err (Exc ValueError "invalid literal for int() with base 10"))
    by (vm_compute; reflexivity).
  split; [exact Hstatus|]. split; [exact Hosds|].
  exact (catch_osd_errors_bad_count (lib := status_lib) (Conn "node1")
           (conn_logger (Conn "node1")) (prepare_args None None false)
           _ _ _ _ _ Hstatus (or_introl Hosds)).
Defined.

Lemma prepare_writes_witness :
  respond (OpenRead "ceph.bootstrap-osd.keyring")
    (one_host_world (osd_host false None))
  = (Ok "KEY", one_host_world (osd_host false None))
  ∧ Called (WriteKeyring (Conn "node1")
              "/var/lib/ceph/bootstrap-osd/ceph.keyring" "KEY")
    ∈ events (prepare (prepare_args None None false) (Config "") false
                (one_host_world (osd_host false None)))
  ∧ ∀ c path key',
      Called (WriteKeyring c path key')
      ∈ events (prepare (prepare_args None None false) (Config "") false
                  (one_host_world (osd_host false None))) →
      path = "/var/lib/ceph/bootstrap-osd/ceph.keyring" ∧ key' = "KEY".
Proof.
  assert (Hopen :
    respond (OpenRead "ceph.bootstrap-osd.keyring")
      (one_host_world (osd_host false None))
    = (Ok "KEY", one_host_world (osd_host false None)))
    by (vm_compute; reflexivity).
  split; [exact Hopen|]. split.
  - apply (list_elem_of_lookup_2 _ 9%nat). vm_compute. reflexivity.
  - exact (proj1 (prepare_writes (prepare_args None None false) (Config "") false
                    _ "KEY" _ Hopen)).
Defined.

Lemma prepare_no_data_witness :
  respond (OpenRead "ceph.bootstrap-osd.keyring")
    (one_host_world (osd_host false None))
  = (Ok "KEY", one_host_world (osd_host false None))
  ∧ data example_args = None
  ∧ prepare example_args (Config "") false (one_host_world (osd_host false None))
    = (Err (Exc NeedDiskError "node1"), one_host_world (osd_host false None),
       [Logged LOG DEBUG "Preparing cluster ceph on data device None";
        Called (OpenRead "ceph.bootstrap-osd.keyring")]).
Proof.
  assert (Hopen :
    respond (OpenRead "ceph.bootstrap-osd.keyring")
      (one_host_world (osd_host false None))
    = (Ok "KEY", one_host_world (osd_host false None)))
    by (vm_compute; reflexivity).
  split; [exact Hopen|]. split; [reflexivity|].
  exact (proj1 (prepare_no_data example_args (Config "") false _ "KEY" _ Hopen
                  eq_refl)).
Defined.

Lemma prepare_outcome_witness :
  respond (OpenRead "ceph.bootstrap-osd.keyring")
    (one_host_world (osd_host false None))
  = (Ok "KEY", one_host_world (osd_host false None))
  ∧ prepare_host (prepare_args None None true) "KEY" false ∅
      (one_host_world (osd_host false None))
    = (Err (Exc NameError "name 'logger' is not defined"),
       one_host_world prepared_host, zap_request_events)
  ∧ isa_RuntimeError (Exc NameError "name 'logger' is not defined") = false
  ∧ prepare (prepare_args None None true) (Config "") false
      (one_host_world (osd_host false None))
    = (Err (Exc NameError "name 'logger' is not defined"),
       one_host_world prepared_host,
       [Logged LOG DEBUG "Preparing cluster ceph on data device /dev/sdb";
        Called (OpenRead "ceph.bootstrap-osd.keyring")] ++ zap_request_events).
Proof.
  assert (Hopen :
    respond (OpenRead "ceph.bootstrap-osd.keyring")
      (one_host_world (osd_host false None))
    = (Ok "KEY", one_host_world (osd_host false None)))
    by (vm_compute; reflexivity).
  assert (Hhost :
    prepare_host (prepare_args None None true) "KEY" false ∅
      (one_host_world (osd_host false None))
    = (Err (Exc NameError "name 'logger' is not defined"),
       one_host_world prepared_host, zap_request_events))
    by (vm_compute; reflexivity).
  split; [exact Hopen|]. split; [exact Hhost|]. split; [reflexivity|].
  exact (prepare_outcome (prepare_args None None true) (Config "") false
           _ "KEY" _ _ _ _ Hopen Hhost eq_refl).
Defined.

Lemma gather_osd_record_witness :
  plain_name "ceph-1" = true
  ∧ gather_osd (Conn "node1") example_tree_dict
    ["active"; "magic"; "whoami"; "journal_uuid"] [indented_listing_line]
    "ceph-1" (example_world [indented_listing_line])
  = (Ok example_record, example_world [indented_listing_line],
     example_record_calls)
  ∧ record_path example_record = Str.path_join osd_path "ceph-1"
  ∧ (record_metadata example_record).*1 `sublist_of` metadata_keys
  ∧ NoDup (record_metadata example_record).*1.
Proof.
  assert (Hrun :
    gather_osd (Conn "node1") example_tree_dict
      ["active"; "magic"; "whoami"; "journal_uuid"] [indented_listing_line]
      "ceph-1" (example_world [indented_listing_line])
    = (Ok example_record, example_world [indented_listing_line],
       example_record_calls)) by (vm_compute; reflexivity).
  split; [reflexivity|]. split; [exact Hrun|].
  pose proof (gather_osd_record (Conn "node1") example_tree_dict
                [indented_listing_line] "ceph-1" _ _ _ _ eq_refl Hrun)
    as (Hpath & Hkeys & Hnodup & _).
  split; [exact Hpath|]. split; [exact Hkeys | exact Hnodup].
Defined.

Lemma gather_osd_no_nodes_witness :
  (∅ : gmap string (pyval whole_float)) !! "nodes" = None
  ∧ ∃ e, outcome (gather_osd (Conn "node1") ∅
                    ["active"; "magic"; "whoami"; "journal_uuid"]
                    [indented_listing_line] "ceph-1"
                    (example_world [indented_listing_line])) = Err e.
Proof.
  split; [reflexivity|].
  exact (gather_osd_no_nodes (Conn "node1") ∅ [indented_listing_line] "ceph-1"
           (example_world [indented_listing_line]) eq_refl).
Defined.

Lemma gather_osd_bad_entry_witness :
  plain_name "lost+found" = true
  ∧ Str.to_int (last_piece (Str.split "-" "lost+found")) = None
  ∧ gather_osd (Conn "node1") example_tree_dict
      ["active"; "magic"; "whoami"; "journal_uuid"] [indented_listing_line]
      "lost+found" (example_world [indented_listing_line])
    = (Err (Exc ValueError "invalid literal for int() with base 10"),
       example_world [indented_listing_line], []).
Proof.
  assert (Hint : Str.to_int (last_piece (Str.split "-" "lost+found")) = None)
    by (vm_compute; reflexivity).
  split; [reflexivity|]. split; [exact Hint|].
  exact (gather_osd_bad_entry (Conn "node1") example_tree_dict _ _ "lost+found"
           _ eq_refl Hint).
Defined.

Lemma disk_zap_invalid_target_witness :
  negb (truthy (None : option string)) || negb (truthy (Some "node1")) = true
  ∧ disk_zap zap_args (example_world [])
    = (Err (Exc RuntimeError
              ("zap command needs both HOSTNAME and DISK but got "
               +:+ quoted "node1 None")),
       example_world [],
       [Base (Logged LOG DEBUG "zapping /dev/sdb on node1");
        Base (Called (HostsGet (Some "node1") None true));
        Base (Logged LOG INFO "Distro info: ubuntu 16.04 xenial");
        CalledMore (Zeroing (Conn "node1") "/dev/sdb");
        Base (Called (ExecutablePath (Conn "node1") "ceph-disk"));
        Base (Called (ProcessRun (Conn "node1")
                        ["/usr/sbin/ceph-disk"; "zap"; "/dev/sdb"]));
        Base (Called (ConnExit (Conn "node1")))]).
Proof.
  split; [reflexivity|].
  exact (disk_zap_invalid_target example_args zap_good [] (Some "node1") None None
           (example_world []) eq_refl).
Defined.

Lemma activate_first_failure_witness :
  disk batch_args
  = (Some "node0", Some "/dev/sdb", None)
    :: [(Some "node1", Some "/dev/sdb", None); (Some "node2", Some "/dev/sdb", None)]
  ∧ respond (HostsGet (Some "node0") None true) batch_world
    = (Err (Exc RuntimeError "connecting to host: node0 resulted in errors"),
       batch_world)
  ∧ activate batch_args (Config "") batch_world
    = (Err (Exc RuntimeError "connecting to host: node0 resulted in errors"),
       batch_world,
       [Base (Logged LOG DEBUG
                "Activating cluster ceph disks node0:/dev/sdb: node1:/dev/sdb: node2:/dev/sdb:");
        Base (Called (HostsGet (Some "node0") None true))]).
Proof.
  assert (Hget :
    respond (HostsGet (Some "node0") None true) batch_world
    = (Err (Exc RuntimeError "connecting to host: node0 resulted in errors"),
       batch_world)) by (vm_compute; reflexivity).
  split; [reflexivity|]. split; [exact Hget|].
  exact (activate_first_failure batch_args (Config "") batch_world
           (Some "node0") (Some "/dev/sdb") None _ _ _ eq_refl Hget).
Defined.

Lemma create_osd_keyring_creates_witness :
  respond (PathExists (Conn "node1") "/var/lib/ceph/bootstrap-osd/ceph.keyring")
    (one_host_world (osd_host false None))
  = (Ok false, one_host_world (osd_host false None))
  ∧ respond (WriteKeyring (Conn "node1")
               "/var/lib/ceph/bootstrap-osd/ceph.keyring" "KEY")
      (one_host_world (osd_host false None))
    = (Ok (), one_host_world (osd_host true None))
  ∧ respond (PathExists (Conn "node1") "/var/lib/ceph/bootstrap-osd/ceph.keyring")
      (one_host_world (osd_host true None))
    = (Ok true, one_host_world (osd_host true None))
  ∧ (create_osd_keyring (Conn "node1") "ceph" "KEY";;
     create_osd_keyring (Conn "node1") "ceph" "KEY")
      (one_host_world (osd_host false None))
    = (Ok (), one_host_world (osd_host true None),
       [Called (PathExists (Conn "node1")
                  "/var/lib/ceph/bootstrap-osd/ceph.keyring");
        Logged (conn_logger (Conn "node1")) WARNING
          "osd keyring does not exist yet, creating one";
        Called (WriteKeyring (Conn "node1")
                  "/var/lib/ceph/bootstrap-osd/ceph.keyring" "KEY");
        Called (PathExists (Conn "node1")
                  "/var/lib/ceph/bootstrap-osd/ceph.keyring")]).
Proof.
  assert (Habsent :
    respond (PathExists (Conn "node1") "/var/lib/ceph/bootstrap-osd/ceph.keyring")
      (one_host_world (osd_host false None))
    = (Ok false, one_host_world (osd_host false None)))
    by (vm_compute; reflexivity).
  assert (Hwrite :
    respond (WriteKeyring (Conn "node1")
               "/var/lib/ceph/bootstrap-osd/ceph.keyring" "KEY")
      (one_host_world (osd_host false None))
    = (Ok (), one_host_world (osd_host true None)))
    by (vm_compute; reflexivity).
  assert (Hpresent :
    respond (PathExists (Conn "node1") "/var/lib/ceph/bootstrap-osd/ceph.keyring")
      (one_host_world (osd_host true None))
    = (Ok true, one_host_world (osd_host true None)))
    by (vm_compute; reflexivity).
  repeat (split; [assumption|]).
  exact (proj2 (create_osd_keyring_creates (Conn "node1") "ceph" "KEY" _ _ _ _
                  Habsent Hwrite) eq_refl Hpresent).
Defined.
